(** * alcohol-code: document pipeline with market-price enrichment

    A shallow embedding of the Python sources
      - services/perplexity_service.py   (PerplexityService._parse_response)
      - models/document_items_extended.py (the extended item validators)
      - models/processing_result.py       (ProcessingResult)
      - utils/item_extended.py            (extend_items)
      - services/google_service.py        (GoogleService.add_data_to_spreadsheet)
      - handlers/user/document.py         (the pipeline and the upload handlers)
    followed by the properties proved about them.

    Conventions.
      - A Python [str] is a list of Unicode code points ([pystr]); [len] is
        [length].  Literals are written as UTF-8 text and decoded by [py].
      - A Python [float] that carries a price is an exact rational ([Q]):
        the value of its decimal notation.  Binary rounding and overflow to
        [inf] are not represented; neither changes a sign.
      - Exceptions are explicit: code that may raise lives in the monad
        [M S A], a state passed along together with [Ok a] or [Raise e].
      - What the outside world answers (HTTP services, the file system, the
        chat transport) is read from a record of oracles, and every call made
        to the outside is appended to a trace. *)

From Stdlib Require Import ZArith NArith QArith Ascii String DecimalString
  DecimalPos.
From stdpp Require Import base option list gmap.

Local Open Scope N_scope.

(* ===================================================================== *)
(** * Python strings                                                      *)
(* ===================================================================== *)

Abbreviation codepoint := N (only parsing).
Abbreviation pystr := (list N) (only parsing).

(** UTF-8 decoding of a byte sequence (well-formed input is assumed for the
    literals of this file; a truncated sequence ends the decoding). *)
Fixpoint utf8_decode (bs : list N) : pystr :=
  match bs with
  | [] => []
  | b0 :: r0 =>
      if b0 <? 128 then b0 :: utf8_decode r0
      else if b0 <? 224 then
        match r0 with
        | b1 :: r1 => ((b0 - 192) * 64 + (b1 - 128)) :: utf8_decode r1
        | _ => []
        end
      else if b0 <? 240 then
        match r0 with
        | b1 :: b2 :: r2 =>
            ((b0 - 224) * 4096 + (b1 - 128) * 64 + (b2 - 128)) :: utf8_decode r2
        | _ => []
        end
      else
        match r0 with
        | b1 :: b2 :: b3 :: r3 =>
            ((b0 - 240) * 262144 + (b1 - 128) * 4096 + (b2 - 128) * 64 + (b3 - 128))
              :: utf8_decode r3
        | _ => []
        end
  end.

Definition py (s : string) : pystr :=
  utf8_decode (map N_of_ascii (list_ascii_of_string s)).

Definition cp_newline : codepoint := 10.
Definition cp_space : codepoint := 32.
Definition cp_comma : codepoint := 44.
Definition cp_dot : codepoint := 46.
Definition cp_colon : codepoint := 58.

(** [str.isspace] for one code point (Unicode 14, as CPython 3.11 has it). *)
Definition isspace (c : codepoint) : bool :=
  ((9 <=? c) && (c <=? 13)) || ((28 <=? c) && (c <=? 32))
  || (c =? 133) || (c =? 160) || (c =? 5760)
  || ((8192 <=? c) && (c <=? 8202))
  || (c =? 8232) || (c =? 8233) || (c =? 8239) || (c =? 8287) || (c =? 12288).

(** First code point of every block of ten decimal digits (general category
    Nd); the digit of value [d] of a block starting at [b] is [b + d]. *)
Definition decimal_blocks : list N :=
  [48; 1632; 1776; 1984; 2406; 2534; 2662; 2790; 2918; 3046; 3174; 3302;
   3430; 3558; 3664; 3792; 3872; 4160; 4240; 6112; 6160; 6470; 6608; 6784;
   6800; 6992; 7088; 7232; 7248; 42528; 43216; 43264; 43472; 43504; 43600;
   44016; 65296; 66720; 68912; 69734; 69872; 69942; 70096; 70384; 70736;
   70864; 71248; 71360; 71472; 71904; 72016; 72784; 73040; 73120; 92768;
   92864; 93008; 120782; 120792; 120802; 120812; 120822; 123200; 123632;
   125264; 130032].

(** Code points that are digits for [str.isdigit] without being decimal
    (superscripts, circled digits and the like): [float] refuses them. *)
Definition other_digit_ranges : list (N * N) :=
  [(178, 179); (185, 185); (4969, 4977); (6618, 6618); (8304, 8304);
   (8308, 8313); (8320, 8329); (9312, 9320); (9332, 9340); (9352, 9360);
   (9450, 9450); (9461, 9469); (9471, 9471); (10102, 10110); (10112, 10120);
   (10122, 10130); (68160, 68163); (69216, 69224); (69714, 69722);
   (127232, 127242)].

Fixpoint decimal_in (blocks : list N) (c : codepoint) : option N :=
  match blocks with
  | [] => None
  | b :: rest =>
      if (b <=? c) && (c <? b + 10) then Some (c - b) else decimal_in rest c
  end.

(** [unicodedata.decimal]: the value of a decimal digit, if it is one. *)
Definition decimal_value (c : codepoint) : option N :=
  decimal_in decimal_blocks c.

Definition isdecimal (c : codepoint) : bool :=
  match decimal_value c with Some _ => true | None => false end.

(** [str.isdigit] for one code point. *)
Definition isdigit (c : codepoint) : bool :=
  isdecimal c
  || existsb (fun r => (fst r <=? c) && (c <=? snd r)) other_digit_ranges.

(** [str.lstrip], [str.rstrip] and [str.strip] without argument. *)
Fixpoint lstrip (s : pystr) : pystr :=
  match s with
  | [] => []
  | c :: r => if isspace c then lstrip r else s
  end.

Definition rstrip (s : pystr) : pystr := rev (lstrip (rev s)).

Definition strip (s : pystr) : pystr := rstrip (lstrip s).

Definition pystr_eqb (a b : pystr) : bool := bool_decide (a = b).

(** [s.startswith(p)]. *)
Fixpoint startswith (p s : pystr) : bool :=
  match p, s with
  | [], _ => true
  | _ :: _, [] => false
  | a :: p', b :: s' => (a =? b) && startswith p' s'
  end.

(** [needle in hay] for strings: substring test. *)
Fixpoint contains (needle hay : pystr) : bool :=
  startswith needle hay
  || match hay with
     | [] => false
     | _ :: rest => contains needle rest
     end.

(** [s.split(sep)] for a one-character separator: >= 1 pieces, always. *)
Fixpoint split (sep : codepoint) (s : pystr) : list pystr :=
  match s with
  | [] => [[]]
  | c :: r =>
      if c =? sep then [] :: split sep r
      else match split sep r with
           | [] => [[c]]
           | p :: ps => (c :: p) :: ps
           end
  end.

(** [s.split(sep, 1)]: at most one cut, at the first separator. *)
Fixpoint split1 (sep : codepoint) (s : pystr) : list pystr :=
  match s with
  | [] => [[]]
  | c :: r =>
      if c =? sep then [[]; r]
      else match split1 sep r with
           | [] => [[c]]
           | p :: ps => (c :: p) :: ps
           end
  end.

(** [sep.join(parts)]. *)
Fixpoint join (sep : pystr) (parts : list pystr) : pystr :=
  match parts with
  | [] => []
  | [p] => p
  | p :: rest => p ++ sep ++ join sep rest
  end.

(** [s.replace(",", ".")]. *)
Definition replace_comma (s : pystr) : pystr :=
  map (fun c => if c =? cp_comma then cp_dot else c) s.

(** Python truthiness of a string: non-empty. *)
Definition truthy (s : pystr) : bool :=
  match s with [] => false | _ => true end.

(** [str.upper] follows the full Unicode case mapping, which is a table of
    the Python runtime and not of this repository: the parser is stated over
    any case mapping. *)
Class CaseMap := { upper : pystr -> pystr }.

(** The case mapping restricted to the two alphabets of the labels: Basic
    Latin and Cyrillic; every other code point is left as it is. *)
Definition upper_cp (c : codepoint) : codepoint :=
  if (97 <=? c) && (c <=? 122) then c - 32
  else if (1072 <=? c) && (c <=? 1103) then c - 32
  else if (1104 <=? c) && (c <=? 1119) then c - 80
  else c.

Definition latin_cyrillic : CaseMap := {| upper := map upper_cp |}.

(* ===================================================================== *)
(** * Exceptions and the state-and-exception monad                        *)
(* ===================================================================== *)

Inductive exn : Type :=
  | ValueError
  | IndexError
  | AttributeError
  | ValidationError
  | ClientError
  | OSError
  | RuntimeError
  | UnboundLocalError.

Inductive res (A : Type) : Type :=
  | Ok (a : A)
  | Raise (e : exn).
Arguments Ok {A} a.
Arguments Raise {A} e.

(** A computation over a mutable state [S]: the state survives a raise, as
    a mutated Python object survives the unwinding of the stack. *)
Definition M (S A : Type) : Type := S -> S * res A.

Definition ret {S A} (a : A) : M S A := fun s => (s, Ok a).

Definition raise {S A} (e : exn) : M S A := fun s => (s, Raise e).

Definition bind {S A B} (m : M S A) (k : A -> M S B) : M S B :=
  fun s => match m s with
           | (s', Ok a) => k a s'
           | (s', Raise e) => (s', Raise e)
           end.

Definition lift {S A} (r : res A) : M S A := fun s => (s, r).

Definition get {S} : M S S := fun s => (s, Ok s).

Definition modify {S} (f : S -> S) : M S unit := fun s => (f s, Ok tt).

(** [try: body  except <those of catches> as e: handler e]. *)
Definition try_except {S A} (catches : exn -> bool)
    (body : M S A) (handler : exn -> M S A) : M S A :=
  fun s => match body s with
           | (s', Ok a) => (s', Ok a)
           | (s', Raise e) => if catches e then handler e s' else (s', Raise e)
           end.

(** [except Exception]: every exception of this model is an [Exception].
    What derives from [BaseException] only ([asyncio.CancelledError] of a
    cancelled task, [KeyboardInterrupt]) is outside the model: the runs
    modelled here are the runs that are not cancelled. *)
Definition any_exception (_ : exn) : bool := true.

Declare Scope monad_scope.
Delimit Scope monad_scope with monad.
Notation "x <- m ;; k" := (bind m (fun x => k))
  (at level 62, m at next level, right associativity) : monad_scope.
Notation "m ;;; k" := (bind m (fun _ => k))
  (at level 62, right associativity) : monad_scope.
Local Open Scope monad_scope.

(** [for x in xs: body x]. *)
Fixpoint for_each {S A} (xs : list A) (body : A -> M S unit) : M S unit :=
  match xs with
  | [] => ret tt
  | x :: rest => body x ;;; for_each rest body
  end.

(** [xs[-1]]. *)
Definition last_item {A} (xs : list A) : res A :=
  match last xs with
  | Some x => Ok x
  | None => Raise IndexError
  end.

(** [xs.index(x)] on a list of strings. *)
Fixpoint index (x : pystr) (xs : list pystr) : res nat :=
  match xs with
  | [] => Raise ValueError
  | y :: rest =>
      if pystr_eqb y x then Ok 0%nat
      else match index x rest with
           | Ok i => Ok (S i)
           | Raise e => Raise e
           end
  end.

(* ===================================================================== *)
(** * float() on a price string                                           *)
(* ===================================================================== *)

(** Value of a run of decimal digits, most significant first; [None] when
    some character is not a decimal digit. *)
Fixpoint decimal_digits (s : pystr) (acc : N) : option N :=
  match s with
  | [] => Some acc
  | c :: r =>
      match decimal_value c with
      | Some d => decimal_digits r (acc * 10 + d)
      | None => None
      end
  end.

Definition pow10 (k : nat) : positive := Nat.iter k (Pos.mul 10) 1%positive.

(** [float(s)] for the strings that reach it in [_parse_response]: they
    have been filtered down to digits and dots.  Python accepts digits with
    at most one dot and at least one digit (["12"], ["12."], [".5"],
    ["12.5"]), decimal digits of any script, and raises [ValueError] on
    everything else that can be written with these characters.  Signs,
    exponents, [inf], [nan], blanks and underscores cannot occur in a
    filtered string; they are answered with [ValueError] here.  The
    result is the exact value of the numeral: the rounding of [float] to
    the nearest double, and its overflow to [inf] beyond the largest
    double, are not represented; they keep the sign. *)
Definition py_float (s : pystr) : res Q :=
  match split1 cp_dot s with
  | [ip] =>
      if truthy ip then
        match decimal_digits ip 0 with
        | Some n => Ok (Qred (Z.of_N n # 1))
        | None => Raise ValueError
        end
      else Raise ValueError
  | [ip; fp] =>
      if truthy ip || truthy fp then
        match decimal_digits (ip ++ fp) 0 with
        | Some n => Ok (Qred (Z.of_N n # pow10 (length fp)))
        | None => Raise ValueError
        end
      else Raise ValueError
  | _ => Raise ValueError
  end.

(* ===================================================================== *)
(** * services/perplexity_service.py: _parse_response                     *)
(* ===================================================================== *)

(** The [result] dictionary of [_parse_response]. *)
Record parse_dict : Type := {
  average_price : option Q;
  min_price : option Q;
  analysis : pystr
}.

Definition set_average_price (v : Q) (d : parse_dict) : parse_dict :=
  {| average_price := Some v; min_price := min_price d; analysis := analysis d |}.

Definition set_min_price (v : Q) (d : parse_dict) : parse_dict :=
  {| average_price := average_price d; min_price := Some v; analysis := analysis d |}.

Definition set_analysis (a : pystr) (d : parse_dict) : parse_dict :=
  {| average_price := average_price d; min_price := min_price d; analysis := a |}.

Definition parse_initial : parse_dict :=
  {| average_price := None; min_price := None; analysis := [] |}.

Definition is_ValueError_or_IndexError (e : exn) : bool :=
  match e with
  | ValueError | IndexError => true
  | _ => false
  end.

(** [c.isdigit() or c in ".,"]. *)
Definition price_char (c : codepoint) : bool :=
  isdigit c || (c =? cp_dot) || (c =? cp_comma).

(** The characters handed to [float]: the text after the last colon of the
    line, trimmed, with everything but digits, dots and commas removed and
    commas turned into dots. *)
Definition price_str_of (segment : pystr) : pystr :=
  replace_comma (List.filter price_char (strip segment)).

(** The body shared by the two price branches (lines 115-127 and 131-141):
    [setter] stores into ["average_price"] or ["min_price"]. *)
Definition extract_price (setter : Q -> parse_dict -> parse_dict)
    (line : pystr) : M parse_dict unit :=
  try_except is_ValueError_or_IndexError
    (segment <- lift (last_item (split cp_colon line)) ;;
     let price_str := price_str_of segment in
     if truthy price_str then
       v <- lift (py_float price_str) ;;
       modify (setter v)
     else ret tt)
    (fun _ => ret tt).

Section Parser.
Context {case_map : CaseMap}.

Definition is_average_line (line : pystr) : bool :=
  contains (py "СРЕДНЯЯ ЦЕНА:") (upper line)
  || contains (py "AVERAGE PRICE:") (upper line).

Definition is_min_line (line : pystr) : bool :=
  contains (py "МИНИМАЛЬНАЯ ЦЕНА:") (upper line)
  || contains (py "MIN PRICE:") (upper line).

Definition is_analysis_line (line : pystr) : bool :=
  contains (py "АНАЛИЗ:") (upper line)
  || contains (py "ANALYSIS:") (upper line).

(** The analysis branch (lines 144-153). *)
Definition collect_analysis (lines : list pystr) (line : pystr)
    : M parse_dict unit :=
  first_cut <- lift (last_item (split1 cp_colon line)) ;;
  let analysis_text := strip first_cut in
  idx <- lift (index line lines) ;;
  let remaining_lines := drop (idx + 1) lines in
  let analysis_text :=
    match remaining_lines with
    | [] => analysis_text
    | _ => analysis_text ++ [cp_space]
             ++ join [cp_space] (List.filter truthy (map strip remaining_lines))
    end in
  modify (set_analysis analysis_text).

(** One turn of the loop over [lines] (lines 110-153). *)
Definition parse_line (lines : list pystr) (raw : pystr) : M parse_dict unit :=
  let line := strip raw in
  if is_average_line line then extract_price set_average_price line
  else if is_min_line line then extract_price set_min_price line
  else if is_analysis_line line then collect_analysis lines line
  else ret tt.

(** The [try] block (lines 108-157). *)
Definition parse_body (response_text : pystr) : M parse_dict unit :=
  let lines := split cp_newline (strip response_text) in
  for_each lines (parse_line lines) ;;;
  d <- get ;;
  if truthy (analysis d) then ret tt
  else modify (set_analysis (strip response_text)).

(** [PerplexityService._parse_response]: the dictionary starts empty, the
    [try] block fills it, [except Exception] overwrites the analysis with
    the trimmed text, and the dictionary is returned. *)
Definition _parse_response (response_text : pystr) : res parse_dict :=
  let '(d, r) :=
    try_except any_exception
      (parse_body response_text)
      (fun _ => modify (set_analysis (strip response_text)))
      parse_initial in
  match r with
  | Ok _ => Ok d
  | Raise e => Raise e
  end.

End Parser.

(** The example of the specification, on the two-alphabet case mapping. *)
Definition spec_example : pystr :=
  py "СРЕДНЯЯ ЦЕНА: 280,5 грн
МИНИМАЛЬНАЯ ЦЕНА: 240 грн
АНАЛИЗ: test source X".

(* ===================================================================== *)
(** * enums/sheets.py and the document items                              *)
(* ===================================================================== *)

Inductive Sheet : Type := JOBS | MATERIALS.

Definition Sheet_value (s : Sheet) : pystr :=
  match s with
  | JOBS => py "jobs"
  | MATERIALS => py "materials"
  end.

Definition Sheet_eqb (a b : Sheet) : bool :=
  match a, b with
  | JOBS, JOBS | MATERIALS, MATERIALS => true
  | _, _ => false
  end.

(** What a caller may pass where a [Sheet] is expected: Python does not
    check the annotation. *)
Inductive pyvalue : Type :=
  | IsSheet (s : Sheet)
  | PyNone
  | PyOther (repr : pystr).

(** [GoodsDocumentItem] (models/document_goods.py) and [JobsDocumentItem]. *)
Record DocumentItem : Type := {
  item_name : pystr;
  item_quantity : Q;
  item_unit : option pystr;
  item_price : Q;
  item_total : Q
}.

(** [GoodsDocumentItemExtended] and [JobsDocumentItemExtended]
    (models/document_items_extended.py); [ext_class] tells which of the two
    classes the object is an instance of. *)
Record ExtendedItem : Type := {
  ext_class : Sheet;
  ext_name : pystr;
  ext_quantity : Q;
  ext_unit : option pystr;
  ext_price : Q;
  ext_total : Q;
  average_market_price : option Q;
  min_market_price : option Q;
  market_analysis : option pystr
}.

(** [GoodsDocumentItem.handle_none_unit]. *)
Definition handle_none_unit (v : option pystr) : option pystr :=
  match v with
  | None => Some (py "шт")
  | Some u => Some u
  end.

(** Modelled from the spec: models/document_jobs.py is not among the
    sources.  The specification gives the goods and the jobs items one
    shape, "differing only in default values (e.g., default unit)": the
    jobs item treats a missing unit as the goods item does. *)
Definition jobs_handle_none_unit (v : option pystr) : option pystr :=
  handle_none_unit v.

Definition unit_validator (cls : Sheet) : option pystr -> option pystr :=
  match cls with
  | MATERIALS => handle_none_unit
  | JOBS => jobs_handle_none_unit
  end.

(** [v < 0] on a price. *)
Definition Qneg_bool (v : Q) : bool := negb (Qle_bool 0 v).

(** [validate_market_prices] (the same text in both classes); the field
    constraint [ge=0] that follows it refuses the same values. *)
Definition validate_market_prices (v : option Q) : res (option Q) :=
  match v with
  | Some q => if Qneg_bool q then Raise ValidationError else Ok v
  | None => Ok v
  end.

(** [validate_market_analysis] (the same text in both classes). *)
Definition validate_market_analysis (v : option pystr) : option pystr :=
  match v with
  | Some s =>
      let s := strip s in
      if (length s =? 0)%nat then None
      else if (length s <? 10)%nat then None
      else Some s
  | None => v
  end.

(** The constructor of the extended item of class [cls]: pydantic runs the
    validators and raises when one of them does. *)
Definition new_extended_item {S} (cls : Sheet)
    (name : pystr) (quantity : Q) (unit_ : option pystr) (price total : Q)
    (average min_ : option Q) (analysis_ : option pystr) : M S ExtendedItem :=
  average' <- lift (validate_market_prices average) ;;
  min' <- lift (validate_market_prices min_) ;;
  ret {| ext_class := cls;
         ext_name := name;
         ext_quantity := quantity;
         ext_unit := unit_validator cls unit_;
         ext_price := price;
         ext_total := total;
         average_market_price := average';
         min_market_price := min';
         market_analysis := validate_market_analysis analysis_ |}.

(* ===================================================================== *)
(** * utils/item_extended.py: extend_items                                *)
(* ===================================================================== *)

(** What [search_market_price] hands back: the dictionary of
    [_parse_response] (or the "not found" dictionary). *)
Definition market_data := parse_dict.

(** The market client seen from [extend_items]: the answer to the lookup
    made for the item at a given position, a dictionary or an exception. *)
Definition market_client := nat -> res market_data.

(** [x if x else None] on a string. *)
Definition if_truthy (s : pystr) : option pystr :=
  if truthy s then Some s else None.

(** [item.unit or "шт"]. *)
Definition unit_or_default (u : option pystr) : pystr :=
  match u with
  | Some s => if truthy s then s else py "шт"
  | None => py "шт"
  end.

(** The arguments of one call to [search_market_price]. *)
Definition call_args (item : DocumentItem) : pystr * pystr :=
  (item_name item, unit_or_default (item_unit item)).

(** The class chosen by [if document_type == Sheet.MATERIALS ... else ...]. *)
Definition class_for (document_type : Sheet) : Sheet :=
  if Sheet_eqb document_type MATERIALS then MATERIALS else JOBS.

(** [process_single_item], from the moment the awaited lookup has answered
    with [lookup] to the [return] (lines 98-177): build the item with the
    market data, and on any exception (of the lookup or of the constructor)
    build it without; an exception of that second constructor is re-raised. *)
Definition process_single_item {S} (document_type : Sheet)
    (item : DocumentItem) (lookup : res market_data) : M S ExtendedItem :=
  try_except any_exception
    (market_data <- lift lookup ;;
     let average_price := average_price market_data in
     let min_price := min_price market_data in
     let analysis := analysis market_data in
     new_extended_item (class_for document_type)
       (item_name item) (item_quantity item) (item_unit item)
       (item_price item) (item_total item)
       average_price min_price (if_truthy analysis))
    (fun _ =>
       try_except any_exception
         (new_extended_item (class_for document_type)
            (item_name item) (item_quantity item) (item_unit item)
            (item_price item) (item_total item)
            None None None)
         (fun creation_error => raise creation_error)).

(** One task of [asyncio.gather]: it waits for the semaphore, holds it
    while its lookup is in flight, and ends with its item or an exception. *)
Inductive task_state : Type :=
  | Waiting
  | InFlight
  | Done (r : ExtendedItem)
  | Failed (e : exn).

(** The state of one invocation after line 180: the counter of the
    semaphore, the tasks in the order of [items], the calls issued to the
    market client so far (oldest first), and the first exception that
    [gather] has seen, if any. *)
Record run_state : Type := {
  sem_value : nat;
  tasks : list task_state;
  calls : list (pystr * pystr);
  raised : option exn
}.

(** What the event loop can do next: let task [i] through the semaphore
    (it issues its call at once), or deliver the answer of the call of task
    [i] (it builds its item and releases the semaphore at once).  Between
    acquiring and calling, and between the answer and the release, the code
    has no suspension point. *)
Inductive event : Type :=
  | Acquire (i : nat)
  | Complete (i : nat).

Section Run.
Variable items : list DocumentItem.
Variable document_type : Sheet.
Variable perplexity_service : market_client.

Definition enabled (st : run_state) (ev : event) : bool :=
  match ev with
  | Acquire i =>
      match tasks st !! i with
      | Some Waiting => (0 <? sem_value st)%nat
      | _ => false
      end
  | Complete i =>
      match tasks st !! i with
      | Some InFlight => true
      | _ => false
      end
  end.

(** One step; an event that is not possible in [st] changes nothing. *)
Definition step (st : run_state) (ev : event) : run_state :=
  if enabled st ev then
    match ev with
    | Acquire i =>
        {| sem_value := pred (sem_value st);
           tasks := <[i := InFlight]> (tasks st);
           calls := calls st ++ match items !! i with
                                | Some item => [call_args item]
                                | None => []
                                end;
           raised := raised st |}
    | Complete i =>
        match items !! i with
        | Some item =>
            match snd (process_single_item document_type item
                         (perplexity_service i) tt) with
            | Ok r =>
                {| sem_value := S (sem_value st);
                   tasks := <[i := Done r]> (tasks st);
                   calls := calls st;
                   raised := raised st |}
            | Raise e =>
                {| sem_value := S (sem_value st);
                   tasks := <[i := Failed e]> (tasks st);
                   calls := calls st;
                   raised := match raised st with
                             | Some e0 => Some e0
                             | None => Some e
                             end |}
            end
        | None => st
        end
    end
  else st.

Definition run (st : run_state) (schedule : list event) : run_state :=
  fold_left step schedule st.

(** After [semaphore = asyncio.Semaphore(max_concurrent)] and line 180. *)
Definition initial_state (max_concurrent : nat) : run_state :=
  {| sem_value := max_concurrent;
     tasks := map (fun _ => Waiting) items;
     calls := [];
     raised := None |}.

End Run.

Definition is_in_flight (t : task_state) : bool :=
  match t with InFlight => true | _ => false end.

Definition is_waiting (t : task_state) : bool :=
  match t with Waiting => true | _ => false end.

Definition is_finished (t : task_state) : bool :=
  match t with Done _ | Failed _ => true | _ => false end.

(** Number of market-client calls in flight. *)
Definition in_flight (st : run_state) : nat :=
  length (List.filter is_in_flight (tasks st)).

Definition waiting (st : run_state) : nat :=
  length (List.filter is_waiting (tasks st)).

Definition all_finished (st : run_state) : bool :=
  forallb is_finished (tasks st).

(** The results of the finished tasks, in the order of the tasks. *)
Definition results (ts : list task_state) : list ExtendedItem :=
  omap (fun t => match t with Done r => Some r | _ => None end) ts.

(** What the caller of [extend_items] observes. *)
Inductive outcome : Type :=
  | Returned (l : list ExtendedItem)
  | Raised (e : exn)
  | Pending.

(** [await asyncio.gather] over the tasks ([return_exceptions=False]) and the rest of
    [extend_items]: the first exception of a task is re-raised; otherwise
    the call returns once every task is done, with the results in the order
    of the tasks; until then the caller is suspended. *)
Definition gather (st : run_state) : outcome :=
  match raised st with
  | Some e => Raised e
  | None => if all_finished st then Returned (results (tasks st)) else Pending
  end.

(** [extend_items]: the outcome and the calls issued to the market client,
    under the schedule that the event loop follows.  [asyncio.Semaphore]
    refuses a negative initial value with [ValueError]. *)
Definition extend_items (items : list DocumentItem) (document_type : pyvalue)
    (perplexity_service : market_client) (max_concurrent : Z)
    (schedule : list event) : outcome * list (pystr * pystr) :=
  match items with
  | [] => (Returned [], [])
  | _ :: _ =>
      match document_type with
      | IsSheet s =>
          if (max_concurrent <? 0)%Z then (Raised ValueError, [])
          else
            let st := run items s perplexity_service
                        (initial_state items (Z.to_nat max_concurrent))
                        schedule in
            (gather st, calls st)
      | _ => (Raised ValueError, [])
      end
  end.

(** The schedule that takes the tasks one after the other. *)
Definition sequential_schedule (n : nat) : list event :=
  flat_map (fun i => [Acquire i; Complete i]) (seq 0 n).

(* ===================================================================== *)
(** * models/document_analysis.py and models/processing_result.py         *)
(* ===================================================================== *)

(** An element of [analysis.items]: the item as analysed, or the extended
    item that the enrichment has put in its place. *)
Inductive any_item : Type :=
  | Plain (i : DocumentItem)
  | Enriched (e : ExtendedItem).

Definition base_item (a : any_item) : DocumentItem :=
  match a with
  | Plain i => i
  | Enriched e =>
      {| item_name := ext_name e; item_quantity := ext_quantity e;
         item_unit := ext_unit e; item_price := ext_price e;
         item_total := ext_total e |}
  end.

Record DocumentAnalysis : Type := {
  da_document_type : pystr;
  da_document_number : option pystr;
  da_date : option pystr;
  da_supplier : option pystr;
  da_customer : option pystr;
  da_items : list any_item;
  da_total_amount : Q;
  da_currency : option pystr;
  da_confidence : Q
}.

(** [analysis.items = extended_items]. *)
Definition set_items (a : DocumentAnalysis) (l : list any_item) : DocumentAnalysis :=
  {| da_document_type := da_document_type a;
     da_document_number := da_document_number a;
     da_date := da_date a;
     da_supplier := da_supplier a;
     da_customer := da_customer a;
     da_items := l;
     da_total_amount := da_total_amount a;
     da_currency := da_currency a;
     da_confidence := da_confidence a |}.

Record ProcessingResult : Type := {
  success : bool;
  pr_analysis : option DocumentAnalysis;
  error_message : option pystr;
  google_sheet_url : option pystr;
  local_excel_path : option pystr;
  local_json_path : option pystr;
  is_local_processing : bool
}.

(** [ProcessingResult(success=False, error_message=msg)]: the other fields
    take their defaults. *)
Definition failure_result (msg : pystr) : ProcessingResult :=
  {| success := false; pr_analysis := None; error_message := Some msg;
     google_sheet_url := None; local_excel_path := None;
     local_json_path := None; is_local_processing := false |}.

(** [ProcessingResult(success=True, analysis=..., google_sheet_url=...)];
    the keywords [selected_project] and [document_type] of the call name no
    field of the model and are dropped by pydantic. *)
Definition remote_result (a : DocumentAnalysis) (url : pystr) : ProcessingResult :=
  {| success := true; pr_analysis := Some a; error_message := None;
     google_sheet_url := Some url; local_excel_path := None;
     local_json_path := None; is_local_processing := false |}.

(** [ProcessingResult(success=True, analysis=..., local_excel_path=...,
    local_json_path=..., is_local_processing=True)]. *)
Definition local_result (a : DocumentAnalysis) (excel json : pystr) : ProcessingResult :=
  {| success := true; pr_analysis := Some a; error_message := None;
     google_sheet_url := None; local_excel_path := Some excel;
     local_json_path := Some json; is_local_processing := true |}.

(* ===================================================================== *)
(** * The outside world                                                   *)
(* ===================================================================== *)

(** A call that leaves the process, or touches the file system. *)
Inductive effect : Type :=
  | GeminiImage (file_path : pystr)
  | GeminiDocument (file_path : pystr)
  | MarketSearch (name unit_ : pystr)
  | SheetsCredentials
  | SheetsOpenByKey (spreadsheet_id : pystr)
  | SheetsPrepare (sheet_name : pystr)
  | SheetsAppendRows (n : nat)
  | SaveExcel (path : pystr)
  | SaveJson (path : pystr)
  | BotSetState
  | BotAnswer
  | BotGetFile
  | BotDownload (path : pystr)
  | BotGetData
  | BotDeleteMessage
  | BotSendResult
  | BotSendDocument
  | BotSendItems
  | BotClearState
  | Unlink (path : pystr).

(** The effects that are requests to a remote spreadsheet. *)
Definition is_remote_sheet (e : effect) : bool :=
  match e with
  | SheetsOpenByKey _ | SheetsPrepare _ | SheetsAppendRows _ => true
  | _ => false
  end.

(** The answers of the outside world to one run of a handler.  The module
    globals [gemini_service] and [perplexity_service] are [None] when their
    key is not configured. *)
Record world : Type := {
  w_gemini_configured : bool;
  w_perplexity_configured : bool;
  w_analyze_invoice_image : res (option DocumentAnalysis);
  w_analyze_document : res (option DocumentAnalysis);
  w_market : market_client;
  w_pointname_to_sheetsid : gmap pystr pystr;
  w_sheets_client : bool;
  w_open_by_key : res unit;
  w_prepare_sheet : res unit;
  w_append_rows : res unit;
  w_spreadsheet_url : pystr;
  w_excel_mkdir : res unit;
  w_excel_save : res unit;
  w_json_mkdir : res unit;
  w_json_save : res unit;
  w_set_state : res unit;
  w_answer : res unit;
  w_get_file : res unit;
  w_download : res unit;
  w_download_leaves_file : bool;
  w_get_data : res unit;
  w_unlink_refused : pystr -> bool;
  w_delete_message : res unit;
  w_send_result : res unit;
  w_send_document : res unit;
  w_send_items : res unit;
  w_error_answer : res unit;
  w_clear_state : res unit
}.

(** What a run has done so far (oldest effect first) and the files that
    exist. *)
Record runtime : Type := {
  trace : list effect;
  files : gset pystr
}.

Definition emit (e : effect) : M runtime unit :=
  modify (fun rt => {| trace := trace rt ++ [e]; files := files rt |}).

Definition create_file (path : pystr) : M runtime unit :=
  modify (fun rt => {| trace := trace rt; files := files rt ∪ {[ path ]} |}).

Definition remove_file (path : pystr) : M runtime unit :=
  modify (fun rt => {| trace := trace rt; files := files rt ∖ {[ path ]} |}).

(** [str(n)] for an integer. *)
Definition str_of_Z (n : Z) : pystr := py (NilZero.string_of_int (Z.to_int n)).

(** [str(e)] for an exception: the text is the world's; its class is kept. *)
Definition str_of_exn (e : exn) : pystr :=
  match e with
  | ValueError => py "ValueError"
  | IndexError => py "IndexError"
  | AttributeError => py "AttributeError"
  | ValidationError => py "ValidationError"
  | ClientError => py "ClientError"
  | OSError => py "OSError"
  | RuntimeError => py "RuntimeError"
  | UnboundLocalError => py "UnboundLocalError"
  end.

(** [x or default] on an optional string. *)
Definition or_default (x : option pystr) (default : pystr) : pystr :=
  match x with
  | Some s => if truthy s then s else default
  | None => default
  end.

(** [item.unit.lower()] raises [AttributeError] on [None]; the rows only
    need each unit to be there, so the lower-cased text is not kept. *)
Definition unit_lower (a : any_item) : res unit :=
  match item_unit (base_item a) with
  | Some _ => Ok tt
  | None => Raise AttributeError
  end.

(** Building one row per item; the number of rows built. *)
Fixpoint build_rows {St} (l : list any_item) : M St nat :=
  match l with
  | [] => ret 0%nat
  | a :: rest => lift (unit_lower a) ;;; n <- build_rows rest ;; ret (S n)
  end.

(* ===================================================================== *)
(** * services/sheets_mapping_service.py and services/google_service.py   *)
(* ===================================================================== *)

(** [SheetsMappingService.get_sheet_id]: [dict.get]. *)
Definition get_sheet_id (w : world) (point_name : pystr) : option pystr :=
  w_pointname_to_sheetsid w !! point_name.

(** Python truthiness of an optional string. *)
Definition truthy_opt (x : option pystr) : bool :=
  match x with Some s => truthy s | None => false end.

(** [GoogleService.add_data_to_spreadsheet] (lines 32-139). *)
Definition add_data_to_spreadsheet (w : world) (analysis_ : DocumentAnalysis)
    (user_id : Z) (first_name : pystr)
    (spreadsheet_id : option pystr) (sheet_name : pystr)
    : M runtime (option pystr) :=
  try_except any_exception
    (emit SheetsCredentials ;;;
     if negb (w_sheets_client w) then ret None
     else
       match spreadsheet_id with
       | None => ret None
       | Some id =>
           if negb (truthy id) then ret None
           else
             emit (SheetsOpenByKey id) ;;;
             lift (w_open_by_key w) ;;;
             emit (SheetsPrepare sheet_name) ;;;
             lift (w_prepare_sheet w) ;;;
             n <- build_rows (da_items analysis_) ;;
             (if (0 <? n)%nat then
                emit (SheetsAppendRows n) ;;; lift (w_append_rows w)
              else ret tt) ;;;
             ret (Some (w_spreadsheet_url w))
       end)
    (fun _ => ret None).

(* ===================================================================== *)
(** * handlers/user/document.py: the pipeline                             *)
(* ===================================================================== *)

Definition cp_slash : codepoint := 47.

Fixpoint leading_slashes (s : pystr) : nat :=
  match s with
  | c :: r => if c =? cp_slash then S (leading_slashes r) else 0%nat
  | [] => 0%nat
  end.

(** The root of a POSIX path: none, ["/"], or ["//"] when the text begins
    with exactly two slashes. *)
Definition path_root (s : pystr) : pystr :=
  match leading_slashes s with
  | 0%nat => []
  | 2%nat => [cp_slash; cp_slash]
  | _ => [cp_slash]
  end.

(** The parts of a POSIX path: what stands between the slashes, the empty
    parts and the parts ["."] left out. *)
Definition path_parts (s : pystr) : list pystr :=
  List.filter (fun part => truthy part && negb (pystr_eqb part [cp_dot]))
    (split cp_slash s).

(** [str] of a path with the given root and parts. *)
Definition path_str (root : pystr) (parts : list pystr) : pystr :=
  if truthy root || match parts with [] => false | _ :: _ => true end
  then root ++ join [cp_slash] parts
  else [cp_dot].

(** [str(Path(s))], as [pathlib] forms it on a POSIX system: a path is known
    here by this text, so that two spellings of one path are one file. *)
Definition Path (s : pystr) : pystr := path_str (path_root s) (path_parts s).

(** [str(Path(dir) / name)]: a [name] with a root stands alone. *)
Definition path_div (dir name : pystr) : pystr :=
  if truthy (path_root name) then Path name
  else path_str (path_root dir) (path_parts dir ++ path_parts name).

(** [Path(dir) /
    f"{project_prefix}analysis_{number or 'document'}{type_suffix}_{user_id}"]
    with the extension. *)
Definition artifact_path (dir extension : pystr) (analysis_ : DocumentAnalysis)
    (user_id : Z) (selected_project : option pystr)
    (document_type : option Sheet) : pystr :=
  let project_prefix :=
    if truthy_opt selected_project
    then or_default selected_project [] ++ py "_" else [] in
  let type_suffix :=
    match document_type with
    | Some s => py "_" ++ Sheet_value s
    | None => []
    end in
  path_div dir
    (project_prefix ++ py "analysis_"
     ++ or_default (da_document_number analysis_) (py "document")
     ++ type_suffix ++ py "_" ++ str_of_Z user_id ++ extension).

(** [_create_local_excel] (lines 786-913). *)
Definition _create_local_excel (w : world) (analysis_ : DocumentAnalysis)
    (user_id : Z) (first_name : pystr) (selected_project : option pystr)
    (document_type : option Sheet) : M runtime (option pystr) :=
  try_except any_exception
    (lift (w_excel_mkdir w) ;;;
     let excel_path :=
       artifact_path (py "excel_data") (py ".xlsx") analysis_ user_id
         selected_project document_type in
     _ <- build_rows (da_items analysis_) ;;
     emit (SaveExcel excel_path) ;;;
     lift (w_excel_save w) ;;;
     create_file excel_path ;;;
     ret (Some excel_path))
    (fun _ => ret None).

(** [_save_local_json] (lines 916-971). *)
Definition _save_local_json (w : world) (analysis_ : DocumentAnalysis)
    (user_id : Z) (selected_project : option pystr)
    (document_type : option Sheet) : M runtime (option pystr) :=
  try_except any_exception
    (lift (w_json_mkdir w) ;;;
     let json_path :=
       artifact_path (py "json_data") (py ".json") analysis_ user_id
         selected_project document_type in
     emit (SaveJson json_path) ;;;
     lift (w_json_save w) ;;;
     create_file json_path ;;;
     ret (Some json_path))
    (fun _ => ret None).

(** [_process_with_local_storage] (lines 712-783). *)
Definition _process_with_local_storage (w : world) (analysis_ : DocumentAnalysis)
    (user_id : Z) (first_name : pystr) (file_path file_name : pystr)
    (selected_project : option pystr) (document_type : option Sheet)
    : M runtime ProcessingResult :=
  try_except any_exception
    (excel_path <- _create_local_excel w analysis_ user_id first_name
                     selected_project document_type ;;
     match excel_path with
     | None => ret (failure_result (py "Не удалось создать Excel таблицу"))
     | Some excel =>
         json_path <- _save_local_json w analysis_ user_id
                        selected_project document_type ;;
         match json_path with
         | None => ret (failure_result (py "Не удалось сохранить JSON файл"))
         | Some json => ret (local_result analysis_ excel json)
         end
     end)
    (fun e =>
       ret (failure_result (py "Ошибка локального сохранения: " ++ str_of_exn e))).

(** [document_type.value]: [AttributeError] on [None]. *)
Definition value_of (document_type : option Sheet) : res pystr :=
  match document_type with
  | Some s => Ok (Sheet_value s)
  | None => Raise AttributeError
  end.

(** Lines 654-658: the identifier stays [None] without a project, and is
    what the mapping holds for the project otherwise. *)
Definition resolve_spreadsheet_id (w : world) (selected_project : option pystr)
    : option pystr :=
  match selected_project with
  | Some project => if truthy project then get_sheet_id w project else None
  | None => None
  end.

(** [_process_with_google_services] (lines 631-709). *)
Definition _process_with_google_services (w : world) (analysis_ : DocumentAnalysis)
    (user_id : Z) (first_name : pystr) (file_path file_name : pystr)
    (selected_project : option pystr) (document_type : option Sheet)
    : M runtime ProcessingResult :=
  try_except any_exception
    (let spreadsheet_id := resolve_spreadsheet_id w selected_project in
     sheet_name <- lift (value_of document_type) ;;
     sheet_url <- add_data_to_spreadsheet w analysis_ user_id first_name
                    spreadsheet_id sheet_name ;;
     if negb (truthy_opt sheet_url) then
       _process_with_local_storage w analysis_ user_id first_name
         file_path file_name selected_project document_type
     else
       ret (remote_result analysis_ (or_default sheet_url [])))
    (fun _ =>
       _process_with_local_storage w analysis_ user_id first_name
         file_path file_name selected_project document_type).

(** The [Sheet] or [None] of the conversation state, as [extend_items]
    receives it. *)
Definition as_pyvalue (document_type : option Sheet) : pyvalue :=
  match document_type with
  | Some s => IsSheet s
  | None => PyNone
  end.

(** The enrichment step of the pipeline (lines 562-570).  The event loop
    takes some schedule; the outcome of a run that ends does not depend on
    which (see [extend_items_schedule_independent]), so the one that takes
    the items in turn stands for all of them. *)
Definition enrich (w : world) (analysis_ : DocumentAnalysis)
    (document_type : option Sheet) : M runtime DocumentAnalysis :=
  let items := map base_item (da_items analysis_) in
  let '(result, issued) :=
    extend_items items (as_pyvalue document_type) (w_market w) 2
      (sequential_schedule (length items)) in
  for_each issued (fun c => emit (MarketSearch (fst c) (snd c))) ;;;
  match result with
  | Returned extended_items => ret (set_items analysis_ (map Enriched extended_items))
  | Raised e => raise e
  | Pending => raise RuntimeError
  end.

(** [_process_document_pipeline] (lines 498-607). *)
Definition _process_document_pipeline (w : world)
    (file_path file_name : pystr) (user_id : Z) (first_name : pystr)
    (nik_name : option pystr) (selected_project : option pystr)
    (document_type : option Sheet) (is_image : bool)
    : M runtime ProcessingResult :=
  try_except any_exception
    (if negb (w_gemini_configured w) then
       ret (failure_result (py "Сервис анализа документов (Gemini) недоступен"))
     else
       analysis_ <-
         (if is_image then
            emit (GeminiImage file_path) ;;; lift (w_analyze_invoice_image w)
          else
            emit (GeminiDocument file_path) ;;; lift (w_analyze_document w)) ;;
       match analysis_ with
       | None =>
           ret (failure_result
                  (py "Не удалось проанализировать "
                   ++ (if is_image then py "изображение" else py "документ")))
       | Some analysis0 =>
           analysis1 <-
             (if w_perplexity_configured w
                 && match da_items analysis0 with [] => false | _ => true end
              then
                try_except any_exception
                  (enrich w analysis0 document_type)
                  (fun _ => ret analysis0)
              else ret analysis0) ;;
           _process_with_google_services w analysis1 user_id first_name
             file_path file_name selected_project document_type
       end)
    (fun e => ret (failure_result (py "Внутренняя ошибка: " ++ str_of_exn e))).

(* ===================================================================== *)
(** * handlers/user/document.py: the upload handlers                      *)
(* ===================================================================== *)

(** [Path.unlink]: the file goes away, unless it is not there or the
    operating system refuses; both raise [OSError]. *)
Definition unlink (w : world) (path : pystr) : M runtime unit :=
  emit (Unlink path) ;;;
  rt <- get ;;
  if bool_decide (path ∈ files rt) then
    if w_unlink_refused w path then raise OSError else remove_file path
  else raise OSError.

(** [message.bot.download_file]: on success the file exists; a download
    that breaks off may leave a partial file behind. *)
Definition download_file (w : world) (path : pystr) : M runtime unit :=
  emit (BotDownload path) ;;;
  match w_download w with
  | Ok _ => create_file path
  | Raise e =>
      (if w_download_leaves_file w then create_file path else ret tt) ;;;
      raise e
  end.

(** [_send_success_result] (lines 974-1116): the message with the summary
    ([w_send_result]); for a local result the Excel file, sent with
    [answer_document] ([w_send_document]) and removed; the message with the
    details of the items ([w_send_items]), whose text [items_text] is bound
    only when the analysis has items; the state cleared.  Every exception
    ends in the last [except], with its message and [state.clear()]. *)
Definition _send_success_result (w : world) (result : ProcessingResult)
    : M runtime unit :=
  try_except any_exception
    (analysis_ <- lift (match pr_analysis result with
                        | Some a => Ok a
                        | None => Raise AttributeError
                        end) ;;
     emit BotSendResult ;;;
     lift (w_send_result w) ;;;
     (if is_local_processing result then
        match local_excel_path result with
        | Some excel =>
            rt <- get ;;
            if bool_decide (excel ∈ files rt) then
              try_except any_exception
                (emit BotSendDocument ;;;
                 lift (w_send_document w) ;;;
                 try_except any_exception (unlink w excel) (fun _ => ret tt))
                (fun _ => emit BotAnswer ;;; lift (w_error_answer w))
            else ret tt
        | None => ret tt
        end
      else ret tt) ;;;
     match da_items analysis_ with
     | [] => raise UnboundLocalError
     | _ :: _ => emit BotSendItems ;;; lift (w_send_items w)
     end ;;;
     emit BotClearState ;;;
     lift (w_clear_state w))
    (fun _ =>
       emit BotAnswer ;;;
       lift (w_error_answer w) ;;;
       emit BotClearState ;;;
       lift (w_clear_state w)).

(** [_send_error_result] (lines 1119-1144). *)
Definition _send_error_result (w : world) (error_message_ : option pystr)
    : M runtime unit :=
  try_except any_exception
    (emit BotAnswer ;;;
     lift (w_error_answer w) ;;;
     emit BotClearState ;;;
     lift (w_clear_state w))
    (fun _ => ret tt).

(** What the conversation state holds when a file arrives. *)
Record session : Type := {
  selected_project : option pystr;
  document_type : option Sheet
}.

(** The statements of both handlers from the call of the pipeline on
    (lines 245-272 and 319-346). *)
Definition run_pipeline_and_report (w : world) (sess : session)
    (file_path file_name : pystr) (user_id : Z) (first_name : pystr)
    (username : option pystr) (is_image : bool) : M runtime unit :=
  result <- _process_document_pipeline w file_path file_name user_id
              first_name username (selected_project sess)
              (document_type sess) is_image ;;
  try_except any_exception (unlink w file_path) (fun _ => ret tt) ;;;
  try_except any_exception
    (emit BotDeleteMessage ;;; lift (w_delete_message w))
    (fun _ => ret tt) ;;;
  if success result then _send_success_result w result
  else _send_error_result w (error_message result).

(** The [except Exception] of both handlers. *)
Definition report_handler_error (w : world) : M runtime unit :=
  emit BotAnswer ;;;
  lift (w_error_answer w) ;;;
  emit BotClearState ;;;
  lift (w_clear_state w).

Definition photo_file_name (user_id : Z) (file_id : pystr) : pystr :=
  py "image_" ++ str_of_Z user_id ++ py "_" ++ file_id ++ py ".jpg".

(** [Path(f"temp_{file_name}")]. *)
Definition photo_file_path (user_id : Z) (file_id : pystr) : pystr :=
  Path (py "temp_" ++ photo_file_name user_id file_id).

(** [process_document_photo] (lines 209-280). *)
Definition process_document_photo (w : world) (sess : session)
    (user_id : Z) (first_name : pystr) (username : option pystr)
    (file_id : pystr) : M runtime unit :=
  try_except any_exception
    (emit BotSetState ;;;
     lift (w_set_state w) ;;;
     emit BotAnswer ;;;
     lift (w_answer w) ;;;
     emit BotGetFile ;;;
     lift (w_get_file w) ;;;
     let file_name := photo_file_name user_id file_id in
     let file_path := photo_file_path user_id file_id in
     download_file w file_path ;;;
     emit BotGetData ;;;
     lift (w_get_data w) ;;;
     run_pipeline_and_report w sess file_path file_name user_id first_name
       username true)
    (fun _ => report_handler_error w).

(** [Path(f"temp_{message.from_user.id}_{document.file_name}")]. *)
Definition document_file_path (user_id : Z) (file_name : pystr) : pystr :=
  Path (py "temp_" ++ str_of_Z user_id ++ py "_" ++ file_name).

(** [process_document_file] (lines 283-354); [is_image] is what
    [_is_image_file(document)] has answered, and that function does not
    raise. *)
Definition process_document_file (w : world) (sess : session)
    (user_id : Z) (first_name : pystr) (username : option pystr)
    (file_name : pystr) (is_image : bool) : M runtime unit :=
  try_except any_exception
    (emit BotSetState ;;;
     lift (w_set_state w) ;;;
     emit BotAnswer ;;;
     lift (w_answer w) ;;;
     emit BotGetFile ;;;
     lift (w_get_file w) ;;;
     let file_path := document_file_path user_id file_name in
     download_file w file_path ;;;
     emit BotGetData ;;;
     lift (w_get_data w) ;;;
     run_pipeline_and_report w sess file_path file_name user_id first_name
       username is_image)
    (fun _ => report_handler_error w).

(** The steps of a handler that come before the pipeline all succeed. *)
Definition reaches_pipeline (w : world) : bool :=
  match w_set_state w, w_answer w, w_get_file w, w_download w, w_get_data w with
  | Ok _, Ok _, Ok _, Ok _, Ok _ => true
  | _, _, _, _, _ => false
  end.

(* ===================================================================== *)
(** * Vocabulary of the properties                                        *)
(* ===================================================================== *)

(** Both prices of a dictionary, where present, are non-negative. *)
Definition prices_nonneg (d : parse_dict) : Prop :=
  (forall q, average_price d = Some q -> (0 <= q)%Q)
  /\ (forall q, min_price d = Some q -> (0 <= q)%Q).

(** No line of the trimmed text carries an analysis label. *)
Definition no_analysis_label {cm : CaseMap} (text : pystr) : Prop :=
  Forall (fun l => is_analysis_line (strip l) = false)
    (split cp_newline (strip text)).

(** The longest prefix of decimal digits, and what follows it. *)
Fixpoint span_decimal (s : pystr) : pystr * pystr :=
  match s with
  | [] => ([], [])
  | c :: r =>
      if isdecimal c then let '(ds, rest) := span_decimal r in (c :: ds, rest)
      else ([], s)
  end.

(** Everything from the first decimal digit on. *)
Fixpoint from_first_digit (s : pystr) : pystr :=
  match s with
  | [] => []
  | c :: r => if isdecimal c then s else from_first_digit r
  end.

(** The specification's "first numeric token" of a text ("accepting comma
    as decimal separator"): the first run of digits, together with a
    separator and a second run of digits when these follow at once. *)
Definition spec_first_numeric_token (text : pystr) : option Q :=
  match from_first_digit text with
  | [] => None
  | s =>
      let '(ip, rest) := span_decimal s in
      let whole :=
        match decimal_digits ip 0 with
        | Some n => Some (Qred (Z.of_N n # 1))
        | None => None
        end in
      match rest with
      | c :: rest' =>
          if (c =? cp_comma) || (c =? cp_dot) then
            match span_decimal rest' with
            | ([], _) => whole
            | (fp, _) =>
                match decimal_digits (ip ++ fp) 0 with
                | Some n => Some (Qred (Z.of_N n # pow10 (length fp)))
                | None => None
                end
            end
          else whole
      | [] => whole
      end
  end.

(** A comma or a dot. *)
Definition is_separator (c : codepoint) : bool :=
  (c =? cp_comma) || (c =? cp_dot).

(** A numeric token: decimal digits, or decimal digits, one separator and
    decimal digits again. *)
Definition numeric_token (tok : pystr) : bool :=
  let '(ip, rest) := span_decimal tok in
  truthy ip
  && match rest with
     | [] => true
     | c :: fp => is_separator c && forallb isdecimal fp
     end.

(** The extended item [r] carries the fields of the document item [item]
    (a missing unit becomes the default unit of the class). *)
Definition corresponds (item : DocumentItem) (r : ExtendedItem) : Prop :=
  ext_name r = item_name item
  /\ ext_quantity r = item_quantity item
  /\ ext_unit r = handle_none_unit (item_unit item)
  /\ ext_price r = item_price item
  /\ ext_total r = item_total item.

(** The three market fields are absent. *)
Definition no_market_data (r : ExtendedItem) : Prop :=
  average_market_price r = None
  /\ min_market_price r = None
  /\ market_analysis r = None.

(** The lookup ended with an exception. *)
Definition lookup_failed (l : res market_data) : Prop :=
  match l with
  | Raise _ => True
  | Ok _ => False
  end.

(** Work left in a run: a waiting task has two steps ahead of it, a task in
    flight has one. *)
Definition work_left (st : run_state) : nat :=
  (2 * waiting st + in_flight st)%nat.

(** What holds of every state that a run reaches from the initial state
    with [k] slots. *)
Record run_invariant (items : list DocumentItem) (document_type : Sheet)
    (perplexity_service : market_client) (k : nat) (st : run_state) : Prop := {
  inv_length : length (tasks st) = length items;
  inv_slots : (sem_value st + in_flight st = k)%nat;
  inv_calls : (length (calls st) + waiting st = length items)%nat;
  inv_raised : raised st = None;
  inv_failed : forall i e, tasks st !! i <> Some (Failed e);
  inv_done : forall i r, tasks st !! i = Some (Done r) ->
      exists item, items !! i = Some item
        /\ snd (process_single_item document_type item (perplexity_service i) tt)
           = Ok r;
  inv_issued : forall i item, items !! i = Some item ->
      tasks st !! i <> Some Waiting -> call_args item ∈ calls st
}.

(** The invariant of a [ProcessingResult]: on success either the remote
    link alone is there, or the two local paths alone, and the flag of
    local processing is set exactly in the second case; on failure none of
    the three is there. *)
Definition result_invariant (r : ProcessingResult) : Prop :=
  if success r then
    (google_sheet_url r <> None /\ local_excel_path r = None
     /\ local_json_path r = None /\ is_local_processing r = false)
    \/ (google_sheet_url r = None /\ local_excel_path r <> None
        /\ local_json_path r <> None /\ is_local_processing r = true)
  else
    google_sheet_url r = None /\ local_excel_path r = None
    /\ local_json_path r = None.

(** The three ways in which the pipeline builds its result. *)
Inductive built_result : ProcessingResult -> Prop :=
  | built_failure (msg : pystr) : built_result (failure_result msg)
  | built_remote (a : DocumentAnalysis) (url : pystr) :
      truthy url = true -> built_result (remote_result a url)
  | built_local (a : DocumentAnalysis) (excel json : pystr) :
      built_result (local_result a excel json).

(** The result of the local fallback: the two local artifacts, or a
    failure. *)
Definition local_or_failure (r : ProcessingResult) : Prop :=
  (exists msg, r = failure_result msg)
  \/ (exists a excel json, r = local_result a excel json).

(** The computation [m] only adds effects that satisfy [q] to the trace,
    and when it returns a value, the value satisfies [P]. *)
Definition spec {A} (q : effect -> bool) (P : A -> Prop) (m : M runtime A)
    : Prop :=
  forall rt,
    (exists added, trace (fst (m rt)) = trace rt ++ added
                   /\ forallb q added = true)
    /\ match snd (m rt) with
       | Ok a => P a
       | Raise _ => True
       end.

(** The computation [m] never raises. *)
Definition total {A} (m : M runtime A) : Prop :=
  forall rt, exists a, snd (m rt) = Ok a.

Definition not_remote_sheet (e : effect) : bool := negb (is_remote_sheet e).

Definition any_effect (_ : effect) : bool := true.

(** The computation [m] only appends to the trace and creates no file. *)
Definition quiet {A} (m : M runtime A) : Prop :=
  forall rt,
    (exists added, trace (fst (m rt)) = trace rt ++ added)
    /\ files (fst (m rt)) ⊆ files rt.

(* ===================================================================== *)
(** * Sample inputs                                                       *)
(* ===================================================================== *)

(** A labelled line with a second number after the price. *)
Definition line_with_two_numbers : pystr :=
  py "СРЕДНЯЯ ЦЕНА: 280 грн за 50 кг".

(** The same line without the second number. *)
Definition line_with_one_number : pystr :=
  py "СРЕДНЯЯ ЦЕНА: 280 грн".

Definition sample_cement : DocumentItem :=
  {| item_name := py "Цемент М500"; item_quantity := 10;
     item_unit := Some (py "мешок"); item_price := 250; item_total := 2500 |}.

Definition sample_delivery : DocumentItem :=
  {| item_name := py "Доставка"; item_quantity := 1;
     item_unit := None; item_price := 2000; item_total := 2000 |}.

Definition sample_items : list DocumentItem := [sample_cement; sample_delivery].

(** A market client whose first lookup answers, with a short analysis, and
    whose other lookups fail. *)
Definition sample_client : market_client :=
  fun i =>
    match i with
    | O => Ok {| average_price := Some (280 # 1); min_price := Some (240 # 1);
                 analysis := py "  n/a  " |}
    | _ => Raise ClientError
    end.

Definition sample_analysis : DocumentAnalysis :=
  {| da_document_type := py "Товарный чек";
     da_document_number := None;
     da_date := Some (py "2025-07-18");
     da_supplier := None;
     da_customer := None;
     da_items := [Plain sample_cement];
     da_total_amount := 2500;
     da_currency := Some (py "UAH");
     da_confidence := 85 # 100 |}.

(** A world in which every call to the outside succeeds; the Gemini service
    is configured or not, and the project mapping is given. *)
Definition sample_world (gemini : bool) (mapping : gmap (list N) (list N))
    : world :=
  {| w_gemini_configured := gemini;
     w_perplexity_configured := true;
     w_analyze_invoice_image := Ok (Some sample_analysis);
     w_analyze_document := Ok (Some sample_analysis);
     w_market := sample_client;
     w_pointname_to_sheetsid := mapping;
     w_sheets_client := true;
     w_open_by_key := Ok tt;
     w_prepare_sheet := Ok tt;
     w_append_rows := Ok tt;
     w_spreadsheet_url := py "https://docs.google.com/spreadsheets/d/abc";
     w_excel_mkdir := Ok tt;
     w_excel_save := Ok tt;
     w_json_mkdir := Ok tt;
     w_json_save := Ok tt;
     w_set_state := Ok tt;
     w_answer := Ok tt;
     w_get_file := Ok tt;
     w_download := Ok tt;
     w_download_leaves_file := false;
     w_get_data := Ok tt;
     w_unlink_refused := fun _ => false;
     w_delete_message := Ok tt;
     w_send_result := Ok tt;
     w_send_document := Ok tt;
     w_send_items := Ok tt;
     w_error_answer := Ok tt;
     w_clear_state := Ok tt |}.

Definition sample_session : session :=
  {| selected_project := Some (py "template_test");
     document_type := Some MATERIALS |}.

Definition empty_runtime : runtime := {| trace := []; files := ∅ |}.

(* ===================================================================== *)
(** * services/perplexity_service.py: search_market_price                 *)
(* ===================================================================== *)

(** What the HTTP exchange of [search_market_price] comes to (lines
    210-223): an exception (an [aiohttp.ClientError] of the connection or of
    [raise_for_status], a time-out, a body that is no JSON), a body without
    a non-empty ["choices"], or a body with a first choice, of which
    [data["choices"][0]["message"]["content"]] is read: this is a text, or
    an exception when the choice has another shape. *)
Inductive api_reply : Type :=
  | RequestFailed (e : exn)
  | NoChoices
  | FirstChoice (content : res pystr).

(** The dictionary of lines 237-241. *)
Definition not_found : market_data :=
  {| average_price := None; min_price := None;
     analysis := py "Информация не найдена" |}.

(** [PerplexityService.search_market_price] (lines 165-253), from the
    answer of the exchange on: both [except] clauses log and re-raise. *)
Definition search_market_price {case_map : CaseMap} (reply : api_reply)
    : res market_data :=
  match reply with
  | RequestFailed e => Raise e
  | NoChoices => Ok not_found
  | FirstChoice content =>
      match content with
      | Ok response_text => _parse_response response_text
      | Raise e => Raise e
      end
  end.

(** The market client that the pipeline hands to [extend_items]: the lookup
    made for the item at position [i] is a call of [search_market_price],
    whose exchange comes to [replies i]. *)
Definition perplexity_client {case_map : CaseMap} (replies : nat -> api_reply)
    : market_client :=
  fun i => search_market_price (replies i).

(* ===================================================================== *)
(** * utils/item_extended.py: extend_single_item                          *)
(* ===================================================================== *)

(** What the caller of [extend_single_item] observes. *)
Inductive item_outcome : Type :=
  | ReturnedItem (r : ExtendedItem)
  | RaisedItem (e : exn)
  | PendingItem.

(** [extend_single_item] (lines 205-242): [extend_items] on the list of
    the one item, with the default limit of two, and [result[0]]. *)
Definition extend_single_item (item : DocumentItem) (document_type : pyvalue)
    (perplexity_service : market_client) (schedule : list event)
    : item_outcome * list (pystr * pystr) :=
  let '(result, issued) :=
    extend_items [item] document_type perplexity_service 2 schedule in
  match result with
  | Returned l =>
      match l with
      | r :: _ => (ReturnedItem r, issued)
      | [] => (RaisedItem IndexError, issued)
      end
  | Raised e => (RaisedItem e, issued)
  | Pending => (PendingItem, issued)
  end.

(* ===================================================================== *)
(** * int() and str() on integers                                         *)
(* ===================================================================== *)

(** The blanks that [int] skips around a number: those of [str.isspace]
    but for the four ASCII separators 28 to 31, which [int] refuses. *)
Definition int_space (c : codepoint) : bool :=
  isspace c && negb ((28 <=? c) && (c <=? 31)).

Fixpoint int_lstrip (s : pystr) : pystr :=
  match s with
  | [] => []
  | c :: r => if int_space c then int_lstrip r else s
  end.

Definition int_strip (s : pystr) : pystr :=
  rev (int_lstrip (rev (int_lstrip s))).

Definition cp_underscore : codepoint := 95.
Definition cp_plus : codepoint := 43.
Definition cp_minus : codepoint := 45.

(** The digits of a number, most significant first, decimal digits of any
    script, with single underscores allowed between two digits: the value
    and the number of digits, or [None]. *)
Fixpoint int_body (s : pystr) (acc : N) (count : nat) : option (N * nat) :=
  match s with
  | [] => Some (acc, count)
  | c :: r =>
      if c =? cp_underscore then
        match r with
        | d :: _ => if isdecimal d then int_body r acc count else None
        | [] => None
        end
      else
        match decimal_value c with
        | Some d => int_body r (acc * 10 + d) (S count)
        | None => None
        end
  end.

Definition int_digits (s : pystr) : option (N * nat) :=
  match s with
  | c :: _ => if isdecimal c then int_body s 0 0%nat else None
  | [] => None
  end.

(** [sys.get_int_max_str_digits()], as CPython 3.11 starts with. *)
Definition int_max_str_digits : nat := 4300.

(** [int(s)] for a string: blanks around, an optional sign, the digits;
    [ValueError] on everything else, and on more digits than the limit. *)
Definition py_int (s : pystr) : res Z :=
  let t := int_strip s in
  let '(negative, body) :=
    match t with
    | c :: r =>
        if c =? cp_plus then (false, r)
        else if c =? cp_minus then (true, r)
        else (false, t)
    | [] => (false, t)
    end in
  match int_digits body with
  | Some (n, count) =>
      if (int_max_str_digits <? count)%nat then Raise ValueError
      else Ok (if negative then (- Z.of_N n)%Z else Z.of_N n)
  | None => Raise ValueError
  end.

(** [str(n)] for an integer: [ValueError] when the number has more digits
    than the limit. *)
Definition py_str_int (n : Z) : res pystr :=
  if (int_max_str_digits <? length (str_of_Z (Z.abs n)))%nat
  then Raise ValueError
  else Ok (str_of_Z n).

(* ===================================================================== *)
(** * models/user_mapping.py and services/user_service.py                 *)
(* ===================================================================== *)

(** [UserMapping]: two dictionaries from strings to strings. *)
Record UserMapping : Type := {
  id_to_username : gmap pystr pystr;
  username_to_id : gmap pystr pystr
}.

(** What the storage file of a service holds when the service starts: no
    file, an empty file, the JSON text of a mapping, or something that
    [json.load] or the model refuses. *)
Inductive stored (A : Type) : Type :=
  | Missing
  | EmptyFile
  | Holds (a : A)
  | Unreadable.
Arguments Missing {A}.
Arguments EmptyFile {A}.
Arguments Holds {A} a.
Arguments Unreadable {A}.

(** The service object: the mapping in memory, and the mappings that have
    been handed to [json.dump] so far, oldest first.  Whether the file
    system takes them is not represented: [_save_data] catches and logs
    every exception. *)
Record user_service : Type := {
  us_data : UserMapping;
  us_written : list UserMapping
}.

Module UserService.

(** [UserMapping()]. *)
Definition empty_mapping : UserMapping :=
  {| id_to_username := ∅; username_to_id := ∅ |}.

(** [_save_data] (lines 154-173), called with [self._data]. *)
Definition _save_data : M user_service unit :=
  modify (fun st => {| us_data := us_data st;
                       us_written := us_written st ++ [us_data st] |}).

(** [__init__] with [_load_data] (lines 22-34 and 123-152): the mapping of
    the file; the empty mapping, written at once, when there is no file or
    an empty one; the empty mapping, with the file left alone, when the
    file cannot be read. *)
Definition init (file : stored UserMapping) : user_service :=
  match file with
  | Holds m => {| us_data := m; us_written := [] |}
  | Missing | EmptyFile =>
      {| us_data := empty_mapping; us_written := [empty_mapping] |}
  | Unreadable => {| us_data := empty_mapping; us_written := [] |}
  end.

(** [get_all_users] (lines 36-43): a copy of the dictionary. *)
Definition get_all_users : M user_service (gmap pystr pystr) :=
  st <- get ;; ret (id_to_username (us_data st)).

(** [get_username] (lines 45-55). *)
Definition get_username (user_id : Z) : M user_service (option pystr) :=
  user_id_str <- lift (py_str_int user_id) ;;
  st <- get ;;
  ret (id_to_username (us_data st) !! user_id_str).

(** [get_user_id] (lines 57-76). *)
Definition get_user_id (username : pystr) : M user_service (option Z) :=
  st <- get ;;
  match username_to_id (us_data st) !! username with
  | Some user_id_str =>
      if truthy user_id_str then
        match py_int user_id_str with
        | Ok n => ret (Some n)
        | Raise _ => ret None
        end
      else ret None
  | None => ret None
  end.

(** [remove_user] (lines 103-121). *)
Definition remove_user (user_id : Z) : M user_service unit :=
  user_id_str <- lift (py_str_int user_id) ;;
  st <- get ;;
  let old_username := id_to_username (us_data st) !! user_id_str in
  modify (fun st =>
            {| us_data :=
                 {| id_to_username :=
                      delete user_id_str (id_to_username (us_data st));
                    username_to_id := username_to_id (us_data st) |};
               us_written := us_written st |}) ;;;
  match old_username with
  | Some old =>
      if truthy old then
        modify (fun st =>
                  {| us_data :=
                       {| id_to_username := id_to_username (us_data st);
                          username_to_id :=
                            delete old (username_to_id (us_data st)) |};
                     us_written := us_written st |}) ;;;
        _save_data
      else ret tt
  | None => ret tt
  end.

(** [update_user] (lines 78-101). *)
Definition update_user (user_id : Z) (username : option pystr)
    : M user_service unit :=
  user_id_str <- lift (py_str_int user_id) ;;
  remove_user user_id ;;;
  (match username with
   | Some name =>
       if truthy name then
         modify (fun st =>
                   {| us_data :=
                        {| id_to_username :=
                             <[user_id_str := name]>
                               (id_to_username (us_data st));
                           username_to_id :=
                             <[name := user_id_str]>
                               (username_to_id (us_data st)) |};
                      us_written := us_written st |})
       else ret tt
   | None => ret tt
   end) ;;;
  _save_data.

End UserService.

(* ===================================================================== *)
(** * services/sheets_mapping_service.py                                  *)
(* ===================================================================== *)

(** The service object: the dictionary [pointname_to_sheetsid] in memory,
    and the dictionaries that have been handed to [json.dump] so far,
    oldest first. *)
Record mapping_service : Type := {
  ms_data : gmap pystr pystr;
  ms_written : list (gmap pystr pystr)
}.

Module SheetsMappingService.

(** [_save_data] (lines 134-149), called with [self._data]; it catches and
    logs every exception. *)
Definition _save_data : M mapping_service unit :=
  modify (fun st => {| ms_data := ms_data st;
                       ms_written := ms_written st ++ [ms_data st] |}).

(** [__init__] with [_load_data] (lines 26-34 and 104-132). *)
Definition init (file : stored (gmap pystr pystr)) : mapping_service :=
  match file with
  | Holds m => {| ms_data := m; ms_written := [] |}
  | Missing | EmptyFile => {| ms_data := ∅; ms_written := [∅] |}
  | Unreadable => {| ms_data := ∅; ms_written := [] |}
  end.

(** [get_sheet_id] (lines 36-46). *)
Definition get_sheet_id (point_name : pystr)
    : M mapping_service (option pystr) :=
  st <- get ;; ret (ms_data st !! point_name).

(** [get_all_mappings] (lines 48-56): a copy of the dictionary. *)
Definition get_all_mappings : M mapping_service (gmap pystr pystr) :=
  st <- get ;; ret (ms_data st).

(** [add_or_update_mapping] (lines 58-75). *)
Definition add_or_update_mapping (point_name sheet_id : pystr)
    : M mapping_service unit :=
  try_except any_exception
    (modify (fun st => {| ms_data := <[point_name := sheet_id]> (ms_data st);
                          ms_written := ms_written st |}) ;;;
     _save_data)
    (fun _ => ret tt).

(** [remove_mapping] (lines 77-102). *)
Definition remove_mapping (point_name : pystr) : M mapping_service bool :=
  try_except any_exception
    (st <- get ;;
     match ms_data st !! point_name with
     | Some _ =>
         modify (fun st => {| ms_data := delete point_name (ms_data st);
                              ms_written := ms_written st |}) ;;;
         _save_data ;;;
         ret true
     | None => ret false
     end)
    (fun _ => ret false).

End SheetsMappingService.

(* ===================================================================== *)
(** * services/google_service.py: check_sheet_write_permissions           *)
(* ===================================================================== *)

(** What the remote side answers to the steps of the check: whether
    [_get_sheets_client] gives a client (it gives [None] on any error), the
    opening of the spreadsheet, the two look-ups of a worksheet ([Ok false]
    stands for [WorksheetNotFound]), and the two updates of the cell. *)
Record probe_answers : Type := {
  pa_client : bool;
  pa_open_by_key : res unit;
  pa_materials : res bool;
  pa_jobs : res bool;
  pa_update_test : res unit;
  pa_update_blank : res unit
}.

(** The cell A1 of the sheet "materials", and the values of the update
    requests that have been sent for it, oldest first. *)
Record probed_sheet : Type := {
  cell_a1 : pystr;
  updates : list pystr
}.

(** [ws.update([[value]], "A1")]: the request is sent; when it is answered
    the cell holds the value.  A request that raises is taken not to have
    changed the cell. *)
Definition update_a1 (answer : res unit) (value : pystr)
    : M probed_sheet unit :=
  modify (fun sh => {| cell_a1 := cell_a1 sh;
                       updates := updates sh ++ [value] |}) ;;;
  match answer with
  | Ok _ => modify (fun sh => {| cell_a1 := value; updates := updates sh |})
  | Raise e => raise e
  end.

(** [GoogleService.check_sheet_write_permissions] (lines 141-190); without
    client, [client.open_by_key] is an [AttributeError] on [None]. *)
Definition check_sheet_write_permissions (a : probe_answers)
    : M probed_sheet bool :=
  try_except any_exception
    (if negb (pa_client a) then raise AttributeError
     else
       lift (pa_open_by_key a) ;;;
       materials_found <- lift (pa_materials a) ;;
       if negb materials_found then ret false
       else
         jobs_found <- lift (pa_jobs a) ;;
         if negb jobs_found then ret false
         else
           update_a1 (pa_update_test a) (py "test") ;;;
           update_a1 (pa_update_blank a) [] ;;;
           ret true)
    (fun _ => ret false).

(* ===================================================================== *)
(** * states/, config.py (is_admin) and the conversation handlers         *)
(* ===================================================================== *)

(** The states of [DocumentProcessing] (states/document.py) and of
    [AddPointStates] (states/admin_states.py); a chat has one state, or
    none. *)
Inductive fsm_state : Type :=
  | waiting_for_project_selection
  | waiting_for_document_type_selection
  | waiting_for_document
  | processing
  | waiting_for_point_name
  | waiting_for_sheet_id.

Definition fsm_state_eqb (a b : fsm_state) : bool :=
  match a, b with
  | waiting_for_project_selection, waiting_for_project_selection
  | waiting_for_document_type_selection, waiting_for_document_type_selection
  | waiting_for_document, waiting_for_document
  | processing, processing
  | waiting_for_point_name, waiting_for_point_name
  | waiting_for_sheet_id, waiting_for_sheet_id => true
  | _, _ => false
  end.

(** What the handlers see and change: the state of the chat, its data (the
    keys [selected_project] and [document_type], and the key [point_name]),
    the mapping service, and the number of messages that the handlers have
    tried to send so far. *)
Record chat : Type := {
  chat_state : option fsm_state;
  chat_session : session;
  chat_point_name : option pystr;
  chat_mappings : mapping_service;
  chat_answers : nat
}.

Definition no_session : session :=
  {| selected_project := None; document_type := None |}.

(** [Settings.is_admin] (config.py, lines 293-303), which [AdminFilter]
    calls with the identifier of the sender. *)
Definition is_admin (admin_user_ids : list Z) (user_id : Z) : bool :=
  bool_decide (user_id ∈ admin_user_ids).

(** The texts of the buttons. *)
Definition cancel_text : pystr := py "🚫 Отмена".
Definition goods_text : pystr := py "📦 Товары".
Definition jobs_text : pystr := py "🔧 Услуги".
Definition admin_cancel_text : pystr := py "❌ Отмена".
Definition addpoint_text : pystr := py "&addpoint".
Definition change_name_text : pystr := py "✍️ Изменить имя точки".

(** [message.text.strip()]: a message without text has [None] there. *)
Definition text_strip (text : option pystr) : res pystr :=
  match text with
  | Some t => Ok (strip t)
  | None => Raise AttributeError
  end.

Section Chat.

(** What the sending of the message number [k] comes to. *)
Variable transport : nat -> res unit.

(** [message.answer]. *)
Definition message_answer : M chat unit :=
  fun c =>
    ({| chat_state := chat_state c;
        chat_session := chat_session c;
        chat_point_name := chat_point_name c;
        chat_mappings := chat_mappings c;
        chat_answers := S (chat_answers c) |},
     transport (chat_answers c)).

(** The operations of [FSMContext]; bot.py builds the dispatcher without
    storage argument, so that the storage is the one in memory, whose
    operations do not raise. *)
Definition state_get_state : M chat (option fsm_state) :=
  c <- get ;; ret (chat_state c).

Definition state_set_state (s : fsm_state) : M chat unit :=
  modify (fun c => {| chat_state := Some s;
                      chat_session := chat_session c;
                      chat_point_name := chat_point_name c;
                      chat_mappings := chat_mappings c;
                      chat_answers := chat_answers c |}).

Definition state_clear : M chat unit :=
  modify (fun c => {| chat_state := None;
                      chat_session := no_session;
                      chat_point_name := None;
                      chat_mappings := chat_mappings c;
                      chat_answers := chat_answers c |}).

Definition state_update_selected_project (p : pystr) : M chat unit :=
  modify (fun c => {| chat_state := chat_state c;
                      chat_session :=
                        {| selected_project := Some p;
                           document_type := document_type (chat_session c) |};
                      chat_point_name := chat_point_name c;
                      chat_mappings := chat_mappings c;
                      chat_answers := chat_answers c |}).

Definition state_update_document_type (t : Sheet) : M chat unit :=
  modify (fun c => {| chat_state := chat_state c;
                      chat_session :=
                        {| selected_project := selected_project (chat_session c);
                           document_type := Some t |};
                      chat_point_name := chat_point_name c;
                      chat_mappings := chat_mappings c;
                      chat_answers := chat_answers c |}).

Definition state_update_point_name (p : pystr) : M chat unit :=
  modify (fun c => {| chat_state := chat_state c;
                      chat_session := chat_session c;
                      chat_point_name := Some p;
                      chat_mappings := chat_mappings c;
                      chat_answers := chat_answers c |}).

(** A method of the mapping service, called from a handler.

    Modelled from the spec: common/singleton.py is not among the sources.
    The specification has the mapping service be a singleton backed by a
    file: [SheetsMappingService()] is taken to give the one object of the
    process, whose [__init__] has run once. *)
Definition on_mappings {A} (m : M mapping_service A) : M chat A :=
  fun c =>
    let '(ms, r) := m (chat_mappings c) in
    ({| chat_state := chat_state c;
        chat_session := chat_session c;
        chat_point_name := chat_point_name c;
        chat_mappings := ms;
        chat_answers := chat_answers c |}, r).

(** [start_document_analysis] (handlers/user/document.py, lines 53-89). *)
Definition start_document_analysis : M chat unit :=
  try_except any_exception
    (all_mappings <- on_mappings SheetsMappingService.get_all_mappings ;;
     if bool_decide (all_mappings = ∅) then message_answer
     else
       state_set_state waiting_for_project_selection ;;;
       message_answer)
    (fun _ => message_answer).

(** [process_project_selection] (lines 92-143). *)
Definition process_project_selection (text : option pystr) : M chat unit :=
  try_except any_exception
    (selected <- lift (text_strip text) ;;
     if pystr_eqb selected cancel_text then
       state_clear ;;; message_answer
     else
       all_mappings <- on_mappings SheetsMappingService.get_all_mappings ;;
       match all_mappings !! selected with
       | None => message_answer
       | Some _ =>
           state_update_selected_project selected ;;;
           state_set_state waiting_for_document_type_selection ;;;
           message_answer
       end)
    (fun _ => message_answer ;;; state_clear).

(** [process_document_type_selection] (lines 146-206). *)
Definition process_document_type_selection (text : option pystr)
    : M chat unit :=
  try_except any_exception
    (selected_text <- lift (text_strip text) ;;
     if pystr_eqb selected_text cancel_text then
       state_clear ;;; message_answer
     else if pystr_eqb selected_text goods_text then
       state_update_document_type MATERIALS ;;;
       state_set_state waiting_for_document ;;;
       message_answer
     else if pystr_eqb selected_text jobs_text then
       state_update_document_type JOBS ;;;
       state_set_state waiting_for_document ;;;
       message_answer
     else message_answer)
    (fun _ => message_answer ;;; state_clear).

(** [invalid_document_format] (lines 357-375). *)
Definition invalid_document_format : M chat unit := message_answer.

(** Modelled from the spec: handlers/user/start.py is not among the
    sources.  The specification has "back" from any other state return to
    the main menu: [command_start_handler] is taken to send that menu and
    to leave the state of the chat alone. *)
Definition command_start_handler : M chat unit := message_answer.

(** [handle_back_in_document_flow] (lines 378-434). *)
Definition handle_back_in_document_flow : M chat unit :=
  try_except any_exception
    (current_state <- state_get_state ;;
     match current_state with
     | Some waiting_for_document_type_selection =>
         on_mappings SheetsMappingService.get_all_mappings ;;;
         state_set_state waiting_for_project_selection ;;;
         message_answer
     | Some waiting_for_document =>
         state_set_state waiting_for_document_type_selection ;;;
         message_answer
     | _ => state_clear ;;; command_start_handler
     end)
    (fun _ => message_answer ;;; state_clear).

(** [cancel_processing] (lines 1147-1169). *)
Definition cancel_processing : M chat unit :=
  try_except any_exception
    (state_clear ;;; message_answer)
    (fun _ => message_answer).

(** [handle_processing_state_messages] (lines 437-458). *)
Definition handle_processing_state_messages (text : option pystr)
    : M chat unit :=
  try_except any_exception
    (match text with
     | Some t =>
         if pystr_eqb t cancel_text then cancel_processing else message_answer
     | None => message_answer
     end)
    (fun _ => ret tt).

(** [cancel_handler] (handlers/admin/admin_addpoint_handler.py, lines
    21-35). *)
Definition cancel_handler : M chat unit :=
  current_state <- state_get_state ;;
  match current_state with
  | None => ret tt
  | Some _ => state_clear ;;; message_answer
  end.

(** [cmd_add_point] (lines 38-47). *)
Definition cmd_add_point : M chat unit :=
  state_set_state waiting_for_point_name ;;; message_answer.

(** [process_point_name] (lines 50-62). *)
Definition process_point_name (text : option pystr) : M chat unit :=
  point_name <- lift (text_strip text) ;;
  state_update_point_name point_name ;;;
  state_set_state waiting_for_sheet_id ;;;
  message_answer.

(** [change_point_name_request] (lines 65-74). *)
Definition change_point_name_request : M chat unit :=
  state_set_state waiting_for_point_name ;;; message_answer.

(** [process_sheet_id] (lines 77-126); [has_permissions] is what
    [check_sheet_write_permissions] has answered for the trimmed text, and
    that method does not raise. *)
Definition process_sheet_id (text : pystr) (has_permissions : bool)
    : M chat unit :=
  let sheet_id := strip text in
  message_answer ;;;
  if negb has_permissions then message_answer
  else
    c <- get ;;
    if truthy_opt (chat_point_name c) then
      on_mappings (SheetsMappingService.add_or_update_mapping
                     (or_default (chat_point_name c) []) sheet_id) ;;;
      message_answer ;;;
      state_clear
    else
      message_answer ;;;
      state_clear.

(** The router of the administrative handlers: the filter of the router
    lets only administrators through, and the first handler whose filters
    accept the message is called.  The answer is whether a handler was
    called. *)
Definition admin_addpoint_router (admin_user_ids : list Z) (user_id : Z)
    (text : option pystr) (has_permissions : bool) : M chat bool :=
  if negb (is_admin admin_user_ids user_id) then ret false
  else
    current_state <- state_get_state ;;
    let in_state s :=
      match current_state with
      | Some s' => fsm_state_eqb s' s
      | None => false
      end in
    let text_is t :=
      match text with
      | Some t' => pystr_eqb t' t
      | None => false
      end in
    if text_is admin_cancel_text then cancel_handler ;;; ret true
    else if text_is addpoint_text then cmd_add_point ;;; ret true
    else if in_state waiting_for_point_name then
      process_point_name text ;;; ret true
    else if text_is change_name_text && in_state waiting_for_sheet_id then
      change_point_name_request ;;; ret true
    else if in_state waiting_for_sheet_id && truthy_opt text then
      process_sheet_id (or_default text []) has_permissions ;;; ret true
    else ret false.

(** A call of a handler on the chat.  The handlers with a state filter are
    called in their state only; what the two upload handlers do to the chat
    is to set the state [processing] when they begin, and to clear the
    state, if they get there, when they have sent their result. *)
Inductive call : Type :=
  | CallStart
  | CallProjectSelection (text : option pystr)
  | CallTypeSelection (text : option pystr)
  | CallUploadBegins
  | CallUploadEnds
  | CallInvalidFormat
  | CallBack
  | CallProcessingMessage (text : option pystr)
  | CallCancel
  | CallAdmin (admin_user_ids : list Z) (user_id : Z) (text : option pystr)
      (has_permissions : bool).

Definition in_state (s : fsm_state) (m : M chat unit) : M chat unit :=
  current_state <- state_get_state ;;
  match current_state with
  | Some s' => if fsm_state_eqb s' s then m else ret tt
  | None => ret tt
  end.

Definition handle (cl : call) : M chat unit :=
  match cl with
  | CallStart => start_document_analysis
  | CallProjectSelection text =>
      in_state waiting_for_project_selection (process_project_selection text)
  | CallTypeSelection text =>
      in_state waiting_for_document_type_selection
        (process_document_type_selection text)
  | CallUploadBegins =>
      in_state waiting_for_document (state_set_state processing)
  | CallUploadEnds => state_clear
  | CallInvalidFormat => in_state waiting_for_document invalid_document_format
  | CallBack => handle_back_in_document_flow
  | CallProcessingMessage text =>
      in_state processing (handle_processing_state_messages text)
  | CallCancel => cancel_processing
  | CallAdmin admin_user_ids user_id text has_permissions =>
      admin_addpoint_router admin_user_ids user_id text has_permissions ;;;
      ret tt
  end.


End Chat.

(* ===================================================================== *)
(** * services/gemini_service.py: analyze_document                        *)
(* ===================================================================== *)

(** [s.endswith(p)]. *)
Definition endswith (p s : pystr) : bool := startswith (rev p) (rev s).

Definition fence_open : pystr := py "```json".
Definition fence_close : pystr := py "```".

(** The cleaning of the response text (lines 219-224 of [analyze_document],
    and the same text at lines 119-124 of [analyze_invoice_image]). *)
Definition clean_response (text : pystr) : pystr :=
  let response_text := strip text in
  let response_text :=
    if startswith fence_open response_text then drop 7 response_text
    else response_text in
  let response_text :=
    if endswith fence_close response_text
    then take (length response_text - 3) response_text
    else response_text in
  strip response_text.

(** What [analyze_document] asks of the client and of the libraries. *)
Inductive gemini_call : Type :=
  | FilesUpload
  | GenerateContent
  | JsonLoads (text : pystr)
  | ModelValidate (document_type : Sheet).

(** The answers to one run of [analyze_document]: of the upload, of the
    request ([response.text], which can be [None]), of [json.loads] (with
    the [print] of its result) and of [model_validate] of the class of the
    document type; [J] is what [json.loads] returns. *)
Record gemini_answers (J : Type) : Type := {
  ga_upload : res unit;
  ga_generate : res (option pystr);
  ga_loads : pystr -> res J;
  ga_validate : Sheet -> J -> res DocumentAnalysis
}.
Arguments ga_upload {J} _.
Arguments ga_generate {J} _.
Arguments ga_loads {J} _ _.
Arguments ga_validate {J} _ _ _.

Definition called (c : gemini_call) : M (list gemini_call) unit :=
  modify (fun calls => calls ++ [c]).

(** [GeminiService.analyze_document] (lines 161-255). *)
Definition analyze_document {J} (a : gemini_answers J)
    (document_type : option Sheet)
    : M (list gemini_call) (option DocumentAnalysis) :=
  try_except any_exception
    (called FilesUpload ;;;
     lift (ga_upload a) ;;;
     called GenerateContent ;;;
     text <- lift (ga_generate a) ;;
     if negb (truthy_opt text) then ret None
     else
       try_except any_exception
         (let response_text := clean_response (or_default text []) in
          called (JsonLoads response_text) ;;;
          result_data <- lift (ga_loads a response_text) ;;
          match document_type with
          | Some s =>
              called (ModelValidate s) ;;;
              analysis_ <- lift (ga_validate a s result_data) ;;
              ret (Some analysis_)
          | None => ret None
          end)
         (fun _ => ret None))
    (fun _ => ret None).

(* ===================================================================== *)
(** * config.py: parse_admin_user_ids                                     *)
(* ===================================================================== *)

Definition cp_lbracket : codepoint := 91.
Definition cp_rbracket : codepoint := 93.

(** [[int(user_id.strip()) for user_id in pieces if user_id.strip()]]. *)
Fixpoint ints_of (pieces : list pystr) : res (list Z) :=
  match pieces with
  | [] => Ok []
  | user_id :: rest =>
      if truthy (strip user_id) then
        match py_int (strip user_id) with
        | Ok n =>
            match ints_of rest with
            | Ok ids => Ok (n :: ids)
            | Raise e => Raise e
            end
        | Raise e => Raise e
        end
      else ints_of rest
  end.

(** [SecurityConfig.parse_admin_user_ids] (lines 175-219) on [None] or a
    string.  [json_branch] stands for lines 206-211 on a text in brackets:
    [json.loads], the [int] of every element and the handler, which give a
    list or raise. *)
Definition parse_admin_user_ids (json_branch : pystr -> res (list Z))
    (v : option pystr) : res (list Z) :=
  match v with
  | None => Ok []
  | Some v =>
      if negb (truthy v) then Ok []
      else
        let v := strip v in
        if startswith [cp_lbracket] v && endswith [cp_rbracket] v
        then json_branch v
        else
          match ints_of (split cp_comma v) with
          | Ok ids => Ok ids
          | Raise _ => Raise ValueError
          end
  end.

(* ===================================================================== *)
(** * Vocabulary of the further properties                                *)
(* ===================================================================== *)

(** The line carries none of the three labels. *)
Definition unlabelled {cm : CaseMap} (l : pystr) : bool :=
  negb (is_average_line (strip l))
  && negb (is_min_line (strip l))
  && negb (is_analysis_line (strip l)).




(** A client whose exchanges come to a parsed text, to no choice, and to a
    failure. *)
Definition sample_replies (i : nat) : api_reply :=
  match i with
  | O => FirstChoice (Ok spec_example)
  | S O => NoChoices
  | _ => RequestFailed ClientError
  end.

(** The call to the outside has answered without exception. *)
Definition answered {A} (r : res A) : bool :=
  match r with
  | Ok _ => true
  | Raise _ => false
  end.

(** The item has a unit. *)
Definition has_unit (a : any_item) : bool :=
  match item_unit (base_item a) with
  | Some _ => true
  | None => false
  end.

(** Every step that [add_data_to_spreadsheet] takes for an identifier that
    is there succeeds: the client, the spreadsheet, the sheet, the rows,
    and the request that appends them when there are rows. *)
Definition remote_steps_succeed (w : world) (analysis_ : DocumentAnalysis)
    : bool :=
  w_sheets_client w
  && answered (w_open_by_key w)
  && answered (w_prepare_sheet w)
  && forallb has_unit (da_items analysis_)
  && match da_items analysis_ with
     | [] => true
     | _ => answered (w_append_rows w)
     end.

(** The requests that a successful [add_data_to_spreadsheet] makes. *)
Definition remote_requests (spreadsheet_id sheet_name : pystr)
    (analysis_ : DocumentAnalysis) : list effect :=
  [SheetsCredentials; SheetsOpenByKey spreadsheet_id; SheetsPrepare sheet_name]
  ++ match da_items analysis_ with
     | [] => []
     | _ => [SheetsAppendRows (length (da_items analysis_))]
     end.

(** The Gemini request of the pipeline. *)
Definition gemini_request (is_image : bool) (file_path : pystr) : effect :=
  if is_image then GeminiImage file_path else GeminiDocument file_path.

(** What Gemini answers to that request. *)
Definition gemini_answer (w : world) (is_image : bool)
    : res (option DocumentAnalysis) :=
  if is_image then w_analyze_invoice_image w else w_analyze_document w.

(** The world of [sample_world] with the answers to the storing of the JSON
    file and to the reading of the conversation data replaced. *)
Definition sample_world_with (json_save get_data : res unit) : world :=
  let w := sample_world true ∅ in
  {| w_gemini_configured := w_gemini_configured w;
     w_perplexity_configured := w_perplexity_configured w;
     w_analyze_invoice_image := w_analyze_invoice_image w;
     w_analyze_document := w_analyze_document w;
     w_market := w_market w;
     w_pointname_to_sheetsid := w_pointname_to_sheetsid w;
     w_sheets_client := w_sheets_client w;
     w_open_by_key := w_open_by_key w;
     w_prepare_sheet := w_prepare_sheet w;
     w_append_rows := w_append_rows w;
     w_spreadsheet_url := w_spreadsheet_url w;
     w_excel_mkdir := w_excel_mkdir w;
     w_excel_save := w_excel_save w;
     w_json_mkdir := w_json_mkdir w;
     w_json_save := json_save;
     w_set_state := w_set_state w;
     w_answer := w_answer w;
     w_get_file := w_get_file w;
     w_download := w_download w;
     w_download_leaves_file := w_download_leaves_file w;
     w_get_data := get_data;
     w_unlink_refused := w_unlink_refused w;
     w_delete_message := w_delete_message w;
     w_send_result := w_send_result w;
     w_send_document := w_send_document w;
     w_send_items := w_send_items w;
     w_error_answer := w_error_answer w;
     w_clear_state := w_clear_state w |}.

(** The world of [sample_world] with the download replaced: it breaks off
    with the given exception, after the file has been created. *)
Definition sample_world_broken_download (e : exn) : world :=
  let w := sample_world true ∅ in
  {| w_gemini_configured := w_gemini_configured w;
     w_perplexity_configured := w_perplexity_configured w;
     w_analyze_invoice_image := w_analyze_invoice_image w;
     w_analyze_document := w_analyze_document w;
     w_market := w_market w;
     w_pointname_to_sheetsid := w_pointname_to_sheetsid w;
     w_sheets_client := w_sheets_client w;
     w_open_by_key := w_open_by_key w;
     w_prepare_sheet := w_prepare_sheet w;
     w_append_rows := w_append_rows w;
     w_spreadsheet_url := w_spreadsheet_url w;
     w_excel_mkdir := w_excel_mkdir w;
     w_excel_save := w_excel_save w;
     w_json_mkdir := w_json_mkdir w;
     w_json_save := w_json_save w;
     w_set_state := w_set_state w;
     w_answer := w_answer w;
     w_get_file := w_get_file w;
     w_download := Raise e;
     w_download_leaves_file := true;
     w_get_data := w_get_data w;
     w_unlink_refused := w_unlink_refused w;
     w_delete_message := w_delete_message w;
     w_send_result := w_send_result w;
     w_send_document := w_send_document w;
     w_send_items := w_send_items w;
     w_error_answer := w_error_answer w;
     w_clear_state := w_clear_state w |}.

(** The same world with the answers of the remote spreadsheet replaced. *)
Definition sample_world_remote (mapping : gmap (list N) (list N))
    (open_by_key : res unit) : world :=
  let w := sample_world true mapping in
  {| w_gemini_configured := w_gemini_configured w;
     w_perplexity_configured := w_perplexity_configured w;
     w_analyze_invoice_image := w_analyze_invoice_image w;
     w_analyze_document := w_analyze_document w;
     w_market := w_market w;
     w_pointname_to_sheetsid := w_pointname_to_sheetsid w;
     w_sheets_client := w_sheets_client w;
     w_open_by_key := open_by_key;
     w_prepare_sheet := w_prepare_sheet w;
     w_append_rows := w_append_rows w;
     w_spreadsheet_url := w_spreadsheet_url w;
     w_excel_mkdir := w_excel_mkdir w;
     w_excel_save := w_excel_save w;
     w_json_mkdir := w_json_mkdir w;
     w_json_save := w_json_save w;
     w_set_state := w_set_state w;
     w_answer := w_answer w;
     w_get_file := w_get_file w;
     w_download := w_download w;
     w_download_leaves_file := w_download_leaves_file w;
     w_get_data := w_get_data w;
     w_unlink_refused := w_unlink_refused w;
     w_delete_message := w_delete_message w;
     w_send_result := w_send_result w;
     w_send_document := w_send_document w;
     w_send_items := w_send_items w;
     w_error_answer := w_error_answer w;
     w_clear_state := w_clear_state w |}.

(** The world of [sample_world] in which Gemini gives no analysis. *)
Definition sample_world_no_analysis : world :=
  let w := sample_world true ∅ in
  {| w_gemini_configured := w_gemini_configured w;
     w_perplexity_configured := w_perplexity_configured w;
     w_analyze_invoice_image := Ok None;
     w_analyze_document := Raise RuntimeError;
     w_market := w_market w;
     w_pointname_to_sheetsid := w_pointname_to_sheetsid w;
     w_sheets_client := w_sheets_client w;
     w_open_by_key := w_open_by_key w;
     w_prepare_sheet := w_prepare_sheet w;
     w_append_rows := w_append_rows w;
     w_spreadsheet_url := w_spreadsheet_url w;
     w_excel_mkdir := w_excel_mkdir w;
     w_excel_save := w_excel_save w;
     w_json_mkdir := w_json_mkdir w;
     w_json_save := w_json_save w;
     w_set_state := w_set_state w;
     w_answer := w_answer w;
     w_get_file := w_get_file w;
     w_download := w_download w;
     w_download_leaves_file := w_download_leaves_file w;
     w_get_data := w_get_data w;
     w_unlink_refused := w_unlink_refused w;
     w_delete_message := w_delete_message w;
     w_send_result := w_send_result w;
     w_send_document := w_send_document w;
     w_send_items := w_send_items w;
     w_error_answer := w_error_answer w;
     w_clear_state := w_clear_state w |}.

(** A disk that holds the two local artifacts of a run. *)
Definition sample_excel_path : pystr := py "excel_data/analysis_document_7.xlsx".

Definition sample_json_path : pystr := py "json_data/analysis_document_7.json".

Definition runtime_with_artifacts : runtime :=
  {| trace := []; files := {[ sample_excel_path; sample_json_path ]} |}.

(** The code points of a decimal numeral. *)
Fixpoint uint_codes (d : Decimal.uint) : pystr :=
  match d with
  | Decimal.Nil => []
  | Decimal.D0 r => 48 :: uint_codes r
  | Decimal.D1 r => 49 :: uint_codes r
  | Decimal.D2 r => 50 :: uint_codes r
  | Decimal.D3 r => 51 :: uint_codes r
  | Decimal.D4 r => 52 :: uint_codes r
  | Decimal.D5 r => 53 :: uint_codes r
  | Decimal.D6 r => 54 :: uint_codes r
  | Decimal.D7 r => 55 :: uint_codes r
  | Decimal.D8 r => 56 :: uint_codes r
  | Decimal.D9 r => 57 :: uint_codes r
  end.

(** What a digit of a numeral is for [int]: a decimal digit, no blank, no
    sign and no underscore. *)
Definition plain_digit (c : codepoint) : bool :=
  isdecimal c && negb (int_space c) && negb (c =? cp_plus)
  && negb (c =? cp_minus) && negb (c =? cp_underscore).

(** The two dictionaries agree: a name that leads to an identifier is the
    name stored for that identifier; and no identifier has the empty name. *)
Definition consistent (m : UserMapping) : Prop :=
  (forall name id, username_to_id m !! name = Some id ->
                   id_to_username m !! id = Some name)
  /\ (forall id, id_to_username m !! id <> Some []).

(** The mapping without the identifier [s] and without the name that was
    stored for it. *)
Definition without_user (s : pystr) (m : UserMapping) : UserMapping :=
  {| id_to_username := delete s (id_to_username m);
     username_to_id :=
       match id_to_username m !! s with
       | Some old =>
           if truthy old then delete old (username_to_id m)
           else username_to_id m
       | None => username_to_id m
       end |}.

(** The mapping with the identifier [s] and the name [name] stored for
    each other. *)
Definition with_user (s name : pystr) (m : UserMapping) : UserMapping :=
  {| id_to_username := <[s := name]> (id_to_username m);
     username_to_id := <[name := s]> (username_to_id m) |}.

(** What [update_user] leaves in memory for the identifier [s]. *)
Definition updated_mapping (s : pystr) (username : option pystr)
    (m : UserMapping) : UserMapping :=
  match username with
  | Some name =>
      if truthy name then with_user s name (without_user s m)
      else without_user s m
  | None => without_user s m
  end.

(** The check gets as far as the updates of the cell: there is a client,
    the spreadsheet opens and both worksheets are found. *)
Definition probe_reaches_updates (a : probe_answers) : bool :=
  pa_client a
  && answered (pa_open_by_key a)
  && match pa_materials a with Ok true => true | _ => false end
  && match pa_jobs a with Ok true => true | _ => false end.

(** Every step of the check succeeds. *)
Definition probe_passes (a : probe_answers) : bool :=
  probe_reaches_updates a
  && answered (pa_update_test a)
  && answered (pa_update_blank a).

(** The states in which a project has been chosen, and those in which a
    document type has been chosen as well. *)
Definition needs_project (s : fsm_state) : bool :=
  match s with
  | waiting_for_document_type_selection | waiting_for_document | processing =>
      true
  | _ => false
  end.

Definition needs_type (s : fsm_state) : bool :=
  match s with
  | waiting_for_document | processing => true
  | _ => false
  end.



(** A chat that has just begun, with the given projects. *)
Definition new_chat (m : gmap (list N) (list N)) : chat :=
  {| chat_state := None;
     chat_session := no_session;
     chat_point_name := None;
     chat_mappings := {| ms_data := m; ms_written := [] |};
     chat_answers := 0 |}.

(** A transport that delivers every message. *)
Definition delivering (k : nat) : res unit := Ok tt.


(** Answers with which the check of the permissions passes, and a sheet
    whose first cell holds a header. *)
Definition passing_probe : probe_answers :=
  {| pa_client := true; pa_open_by_key := Ok tt; pa_materials := Ok true;
     pa_jobs := Ok true; pa_update_test := Ok tt; pa_update_blank := Ok tt |}.

Definition sheet_with_header : probed_sheet :=
  {| cell_a1 := py "№"; updates := [] |}.

(** A code point that a printed integer can hold as far as the reading of
    the administrators goes: no blank, no comma and no opening bracket. *)
Definition id_char (c : codepoint) : bool :=
  negb (isspace c) && negb (c =? cp_comma) && negb (c =? cp_lbracket).

(** A Gemini that answers an empty JSON object in a fenced block, a line
    for each fence, and libraries that accept the object. *)
Definition fenced_body : pystr := cp_newline :: py "{}" ++ [cp_newline].

Definition fenced_answers (d : DocumentAnalysis) : gemini_answers pystr :=
  {| ga_upload := Ok tt;
     ga_generate :=
       Ok (Some ([] ++ fence_open ++ fenced_body ++ fence_close
                 ++ [cp_newline]));
     ga_loads := fun text => if pystr_eqb text (py "{}") then Ok text
                             else Raise ValueError;
     ga_validate := fun _ _ => Ok d |}.

(** A service that knows one user. *)
Definition sample_user_service : user_service :=
  fst (UserService.update_user 12345 (Some (py "testuser1"))
         (UserService.init Missing)).

(* ===================================================================== *)
(** * Properties of the market-response parser                            *)
(* ===================================================================== *)

Lemma py_float_nonneg (s : pystr) (q : Q) :
  py_float s = Ok q -> (0 <= q)%Q.
Proof.
  unfold py_float.
  destruct (split1 cp_dot s) as [|ip [|fp [|x l]]]; try discriminate.
  - destruct (truthy ip); try discriminate.
    destruct (decimal_digits ip 0) as [n|]; try discriminate.
    intros [= <-]. rewrite Qred_correct. unfold Qle; simpl. lia.
  - destruct (truthy ip || truthy fp); try discriminate.
    destruct (decimal_digits (ip ++ fp) 0) as [n|]; try discriminate.
    intros [= <-]. rewrite Qred_correct. unfold Qle; simpl. lia.
Qed.

Lemma split_nonempty (sep : codepoint) (s : pystr) : split sep s <> [].
Proof.
  induction s as [|c r IH]; simpl; [discriminate|].
  destruct (c =? sep); [discriminate|].
  destruct (split sep r); discriminate.
Qed.

Lemma split1_nonempty (sep : codepoint) (s : pystr) : split1 sep s <> [].
Proof.
  induction s as [|c r IH]; simpl; [discriminate|].
  destruct (c =? sep); [discriminate|].
  destruct (split1 sep r); discriminate.
Qed.

Lemma last_item_ok {A} (xs : list A) :
  xs <> [] -> exists x, last_item xs = Ok x.
Proof.
  intros Hne. unfold last_item.
  destruct (last xs) as [x|] eqn:E; [eauto|].
  apply last_None in E. contradiction.
Qed.

(** A price branch never raises; it stores the value that [float] gives
    for the filtered text after the last colon, or stores nothing. *)
Lemma extract_price_spec (setter : Q -> parse_dict -> parse_dict)
    (line : pystr) (d : parse_dict) :
  exists segment,
    last (split cp_colon line) = Some segment
    /\ extract_price setter line d =
         (match py_float (price_str_of segment) with
          | Ok v => if truthy (price_str_of segment) then setter v d else d
          | Raise _ => d
          end, Ok tt).
Proof.
  destruct (last_item_ok (split cp_colon line) (split_nonempty _ _)) as [seg Hseg].
  exists seg. split.
  - unfold last_item in Hseg. destruct (last (split cp_colon line)); congruence.
  - unfold extract_price, try_except, bind, lift. rewrite Hseg.
    destruct (truthy (price_str_of seg)) eqn:Ht.
    + destruct (py_float (price_str_of seg)) as [v|e] eqn:Hf; simpl; [reflexivity|].
      assert (e = ValueError) as ->.
      { unfold py_float in Hf.
        repeat match type of Hf with
               | context [match ?x with _ => _ end] => destruct x
               end; congruence. }
      reflexivity.
    + simpl. destruct (py_float (price_str_of seg)); reflexivity.
Qed.

Lemma for_each_invariant {St A} (P : St -> Prop) (body : A -> M St unit)
    (xs : list A) :
  (forall x s, P s -> P (fst (body x s))) ->
  forall s, P s -> P (fst (for_each xs body s)).
Proof.
  intros Hbody. induction xs as [|x rest IH]; intros s Hs; simpl; [exact Hs|].
  unfold bind. specialize (Hbody x s Hs).
  destruct (body x s) as [s' [[]|e]]; simpl in *; [apply IH|]; exact Hbody.
Qed.

Lemma for_each_invariant_ok {St A} (P : St -> Prop) (R : A -> Prop)
    (body : A -> M St unit) (xs : list A) :
  (forall x s, R x -> P s -> exists s', body x s = (s', Ok tt) /\ P s') ->
  Forall R xs ->
  forall s, P s -> exists s', for_each xs body s = (s', Ok tt) /\ P s'.
Proof.
  intros Hbody HR. induction HR as [|x rest Hx Hrest IH]; intros s Hs; simpl.
  - exists s. split; [reflexivity|exact Hs].
  - destruct (Hbody x s Hx Hs) as (s' & Hrun & Hs').
    unfold bind. rewrite Hrun. apply IH, Hs'.
Qed.

Lemma collect_analysis_prices {cm : CaseMap} (lines : list pystr)
    (line : pystr) (d : parse_dict) :
  average_price (fst (collect_analysis lines line d)) = average_price d
  /\ min_price (fst (collect_analysis lines line d)) = min_price d.
Proof.
  unfold collect_analysis, bind, lift, modify.
  destruct (last_item (split1 cp_colon line)); simpl; [|tauto].
  destruct (index line lines); simpl; tauto.
Qed.

Lemma parse_line_nonneg {cm : CaseMap} (lines : list pystr) (raw : pystr)
    (d : parse_dict) :
  prices_nonneg d -> prices_nonneg (fst (parse_line lines raw d)).
Proof.
  intros [Ha Hm]. unfold parse_line.
  destruct (is_average_line (strip raw)).
  { destruct (extract_price_spec set_average_price (strip raw) d) as (seg & _ & ->).
    simpl. destruct (py_float (price_str_of seg)) as [v|] eqn:Hf; [|split; assumption].
    destruct (truthy (price_str_of seg)); [|split; assumption].
    split; simpl; [|assumption].
    intros q [= <-]. eapply py_float_nonneg, Hf. }
  destruct (is_min_line (strip raw)).
  { destruct (extract_price_spec set_min_price (strip raw) d) as (seg & _ & ->).
    simpl. destruct (py_float (price_str_of seg)) as [v|] eqn:Hf; [|split; assumption].
    destruct (truthy (price_str_of seg)); [|split; assumption].
    split; simpl; [assumption|].
    intros q [= <-]. eapply py_float_nonneg, Hf. }
  destruct (is_analysis_line (strip raw)).
  { destruct (collect_analysis_prices lines (strip raw) d) as [E1 E2].
    split; [rewrite E1|rewrite E2]; assumption. }
  split; assumption.
Qed.

(** A line without analysis label is handled without exception and leaves
    the analysis as it is. *)
Lemma parse_line_keeps_analysis {cm : CaseMap} (lines : list pystr)
    (raw : pystr) (d : parse_dict) :
  is_analysis_line (strip raw) = false ->
  exists d', parse_line lines raw d = (d', Ok tt) /\ analysis d' = analysis d.
Proof.
  intros Hno. unfold parse_line. rewrite Hno.
  destruct (is_average_line (strip raw)).
  { destruct (extract_price_spec set_average_price (strip raw) d) as (seg & _ & ->).
    eexists; split; [reflexivity|].
    destruct (py_float _); [destruct (truthy _)|]; reflexivity. }
  destruct (is_min_line (strip raw)).
  { destruct (extract_price_spec set_min_price (strip raw) d) as (seg & _ & ->).
    eexists; split; [reflexivity|].
    destruct (py_float _); [destruct (truthy _)|]; reflexivity. }
  exists d. split; reflexivity.
Qed.

(** C10.  The market-response parser is total: for every case mapping and
    every input string, [_parse_response] returns a dictionary and raises
    nothing.  The analysis of that dictionary is a string; it is the whole
    trimmed input when no line carries an analysis label, and also when the
    [try] block has raised.  The average and the minimum price, where
    present, are non-negative. *)
Theorem parse_response_total (cm : CaseMap) (response_text : pystr) :
  exists d : parse_dict,
    _parse_response response_text = Ok d
    /\ prices_nonneg d
    /\ (no_analysis_label response_text -> analysis d = strip response_text)
    /\ (forall e, snd (parse_body response_text parse_initial) = Raise e ->
        analysis d = strip response_text).
Proof.
  unfold _parse_response, try_except, any_exception.
  set (lines := split cp_newline (strip response_text)).
  assert (Hinv : prices_nonneg (fst (for_each lines (parse_line lines) parse_initial))).
  { apply (for_each_invariant prices_nonneg).
    - intros x s. apply parse_line_nonneg.
    - split; intros q; discriminate. }
  assert (Hlab : no_analysis_label response_text ->
                 exists d', for_each lines (parse_line lines) parse_initial = (d', Ok tt)
                            /\ analysis d' = []).
  { intros Hno.
    apply (for_each_invariant_ok (fun d => analysis d = [])
             (fun l => is_analysis_line (strip l) = false)); [|exact Hno|reflexivity].
    intros x s Hx Hs.
    destruct (parse_line_keeps_analysis lines x s Hx) as (d' & -> & E).
    exists d'. split; [reflexivity|congruence]. }
  unfold parse_body, bind, get, modify, ret. fold lines.
  destruct (for_each lines (parse_line lines) parse_initial) as [d1 [[]|e1]] eqn:Hloop;
    simpl in Hinv.
  - destruct (truthy (analysis d1)) eqn:Ht; simpl.
    + exists d1. repeat split; try apply Hinv.
      * intros Hno. destruct (Hlab Hno) as (d' & E & Hd').
        assert (d1 = d') as -> by congruence.
        rewrite Hd' in Ht. discriminate.
      * intros e [=].
    + eexists. repeat split; apply Hinv.
  - simpl. eexists. split; [reflexivity|]. repeat split; apply Hinv.
Qed.

(** The prices that [_parse_response] returns are those that the loop over
    the lines has left in the dictionary. *)
Lemma parse_response_prices {cm : CaseMap} (response_text : pystr) :
  let lines := split cp_newline (strip response_text) in
  let after_loop := fst (for_each lines (parse_line lines) parse_initial) in
  exists d : parse_dict,
    _parse_response response_text = Ok d
    /\ average_price d = average_price after_loop
    /\ min_price d = min_price after_loop.
Proof.
  intros lines after_loop. subst after_loop.
  unfold _parse_response, try_except, any_exception, parse_body, bind, get,
    modify, ret. fold lines.
  destruct (for_each lines (parse_line lines) parse_initial) as [d1 [[]|e1]]; simpl.
  - destruct (truthy (analysis d1)); simpl; eexists; repeat split.
  - eexists; repeat split.
Qed.

Lemma for_each_app {St A} (body : A -> M St unit) (xs ys : list A) (s : St) :
  for_each (xs ++ ys) body s
  = (for_each xs body ;;; for_each ys body) s.
Proof.
  revert s. induction xs as [|x rest IH]; intros s; simpl.
  - reflexivity.
  - unfold bind in *. destruct (body x s) as [s' [[]|e]]; [apply IH|reflexivity].
Qed.

Lemma filter_all_false {A} (f : A -> bool) (l : list A) :
  Forall (fun c => f c = false) l -> List.filter f l = [].
Proof.
  induction 1 as [|c r Hc _ IH]; simpl; [reflexivity|]. rewrite Hc. exact IH.
Qed.

Lemma filter_all_true {A} (f : A -> bool) (l : list A) :
  Forall (fun c => f c = true) l -> List.filter f l = l.
Proof.
  induction 1 as [|c r Hc _ IH]; simpl; [reflexivity|]. rewrite Hc, IH. reflexivity.
Qed.

(** When the trimmed text after the last colon is [pre ++ tok ++ post] and
    only [tok] holds digits, dots and commas, [float] receives [tok] with
    its commas turned into dots. *)
Lemma price_str_single_token (segment pre tok post : pystr) :
  strip segment = pre ++ tok ++ post ->
  Forall (fun c => price_char c = false) pre ->
  Forall (fun c => price_char c = false) post ->
  Forall (fun c => price_char c = true) tok ->
  price_str_of segment = replace_comma tok.
Proof.
  intros E Hpre Hpost Htok. unfold price_str_of. rewrite E.
  rewrite !List.filter_app, (filter_all_false _ _ Hpre),
    (filter_all_false _ _ Hpost), (filter_all_true _ _ Htok).
  simpl. rewrite app_nil_r. reflexivity.
Qed.

Lemma py_float_truthy (s : pystr) (v : Q) : py_float s = Ok v -> truthy s = true.
Proof.
  destruct s; [discriminate|reflexivity].
Qed.

Lemma parse_line_keeps_average {cm : CaseMap} (lines : list pystr)
    (raw : pystr) (d : parse_dict) :
  is_average_line (strip raw) = false ->
  average_price (fst (parse_line lines raw d)) = average_price d.
Proof.
  intros Hno. unfold parse_line. rewrite Hno.
  destruct (is_min_line (strip raw)).
  { destruct (extract_price_spec set_min_price (strip raw) d) as (seg & _ & ->).
    simpl. destruct (py_float _); [destruct (truthy _)|]; reflexivity. }
  destruct (is_analysis_line (strip raw)); [|reflexivity].
  apply collect_analysis_prices.
Qed.

Lemma parse_line_keeps_min {cm : CaseMap} (lines : list pystr)
    (raw : pystr) (d : parse_dict) :
  is_min_line (strip raw) = false ->
  min_price (fst (parse_line lines raw d)) = min_price d.
Proof.
  intros Hno. unfold parse_line. rewrite Hno.
  destruct (is_average_line (strip raw)).
  { destruct (extract_price_spec set_average_price (strip raw) d) as (seg & _ & ->).
    simpl. destruct (py_float _); [destruct (truthy _)|]; reflexivity. }
  destruct (is_analysis_line (strip raw)); [|reflexivity].
  apply collect_analysis_prices.
Qed.

Lemma for_each_keeps {cm : CaseMap} (proj : parse_dict -> option Q)
    (skip : pystr -> bool) (lines rest : list pystr) (d : parse_dict) :
  (forall raw d0, skip (strip raw) = false ->
                  proj (fst (parse_line lines raw d0)) = proj d0) ->
  Forall (fun l => skip (strip l) = false) rest ->
  proj (fst (for_each rest (parse_line lines) d)) = proj d.
Proof.
  intros Hkeep Hrest. revert d.
  induction Hrest as [|l rest Hl _ IH]; intros d; simpl; [reflexivity|].
  unfold bind. specialize (Hkeep l d Hl).
  destruct (parse_line lines l d) as [d' [[]|e]]; simpl in *.
  - rewrite IH. exact Hkeep.
  - exact Hkeep.
Qed.

(** The state in which the loop reaches a line that no analysis line
    precedes. *)
Lemma for_each_reaches {cm : CaseMap} (lines before rest : list pystr)
    (d : parse_dict) :
  Forall (fun l => is_analysis_line (strip l) = false) before ->
  exists d0, for_each (before ++ rest) (parse_line lines) d
             = for_each rest (parse_line lines) d0.
Proof.
  intros Hb.
  destruct (for_each_invariant_ok (fun _ => True)
              (fun l => is_analysis_line (strip l) = false)
              (parse_line lines) before) with (s := d) as (d0 & Hrun & _);
    [|exact Hb|exact I|].
  - intros x s Hx _.
    destruct (parse_line_keeps_analysis lines x s Hx) as (d' & -> & _). eauto.
  - exists d0. rewrite for_each_app. unfold bind. rewrite Hrun. reflexivity.
Qed.

Lemma forallb_Forall_true {A} (f : A -> bool) (l : list A) :
  forallb f l = true -> Forall (fun x => f x = true) l.
Proof.
  induction l as [|x l IH]; simpl; intros H; constructor.
  - destruct (f x); [reflexivity|discriminate].
  - apply IH. destruct (f x); [exact H|discriminate].
Qed.

Lemma forallb_Forall_false {A} (f : A -> bool) (l : list A) :
  forallb (fun x => negb (f x)) l = true -> Forall (fun x => f x = false) l.
Proof.
  intros H. apply forallb_Forall_true in H.
  eapply Forall_impl; [exact H|]. intros x. simpl. destruct (f x); auto.
Qed.

(** The price of a labelled line that the loop reaches and that no later
    line overwrites: what [float] reads in the digits, dots and commas of
    the text after the last colon. *)
Lemma price_is_float_of_kept_characters (cm : CaseMap)
    (response_text : pystr) (before after : list pystr)
    (raw segment pre tok post : pystr) (v : Q) :
  split cp_newline (strip response_text) = before ++ raw :: after ->
  forallb (fun l => negb (is_analysis_line (strip l))) before = true ->
  last (split cp_colon (strip raw)) = Some segment ->
  strip segment = pre ++ tok ++ post ->
  forallb (fun c => negb (price_char c)) pre = true ->
  forallb (fun c => negb (price_char c)) post = true ->
  forallb price_char tok = true ->
  py_float (replace_comma tok) = Ok v ->
  exists d : parse_dict,
    _parse_response response_text = Ok d
    /\ (is_average_line (strip raw) = true ->
        forallb (fun l => negb (is_average_line (strip l))) after = true ->
        average_price d = Some v)
    /\ (is_average_line (strip raw) = false ->
        is_min_line (strip raw) = true ->
        forallb (fun l => negb (is_min_line (strip l))) after = true ->
        min_price d = Some v).
Proof.
  intros Hlines Hbefore Hseg Hshape Hpre Hpost Htok Hfloat.
  apply (forallb_Forall_false (fun l => is_analysis_line (strip l))) in Hbefore.
  apply forallb_Forall_false in Hpre, Hpost.
  apply forallb_Forall_true in Htok.
  destruct (parse_response_prices response_text) as (d & Hd & Havg & Hmin).
  exists d. split; [exact Hd|].
  rewrite Hlines in Havg, Hmin.
  set (lines := before ++ raw :: after) in *.
  destruct (for_each_reaches lines before (raw :: after) parse_initial Hbefore)
    as (d0 & Hreach).
  fold lines in Hreach. rewrite Hreach in Havg, Hmin. simpl in Havg, Hmin.
  unfold bind in Havg, Hmin.
  pose proof (price_str_single_token _ _ _ _ Hshape Hpre Hpost Htok) as Hstr.
  pose proof (py_float_truthy _ _ Hfloat) as Htruthy.
  split.
  - intros Hlabel Hafter. rewrite Havg. clear Havg Hmin.
    apply (forallb_Forall_false (fun l => is_average_line (strip l))) in Hafter.
    unfold parse_line at 1. rewrite Hlabel.
    destruct (extract_price_spec set_average_price (strip raw) d0) as (seg & Hs & ->).
    assert (seg = segment) as -> by congruence.
    rewrite Hstr, Hfloat, Htruthy.
    rewrite (for_each_keeps average_price is_average_line lines after); auto.
    intros; apply parse_line_keeps_average; assumption.
  - intros Hnot Hlabel Hafter. rewrite Hmin. clear Havg Hmin.
    apply (forallb_Forall_false (fun l => is_min_line (strip l))) in Hafter.
    unfold parse_line at 1. rewrite Hnot, Hlabel.
    destruct (extract_price_spec set_min_price (strip raw) d0) as (seg & Hs & ->).
    assert (seg = segment) as -> by congruence.
    rewrite Hstr, Hfloat, Htruthy.
    rewrite (for_each_keeps min_price is_min_line lines after); auto.
    intros; apply parse_line_keeps_min; assumption.
Qed.

Lemma isdecimal_price_char (c : codepoint) :
  isdecimal c = true -> price_char c = true.
Proof. unfold price_char, isdigit. intros ->. reflexivity. Qed.

Lemma isdecimal_not_separator (c : codepoint) :
  isdecimal c = true -> (c =? cp_comma) = false /\ (c =? cp_dot) = false.
Proof.
  intros H. split.
  - destruct (N.eqb_spec c cp_comma) as [->|]; [|reflexivity].
    vm_compute in H. discriminate.
  - destruct (N.eqb_spec c cp_dot) as [->|]; [|reflexivity].
    vm_compute in H. discriminate.
Qed.

Lemma not_price_char_not_decimal (c : codepoint) :
  price_char c = false -> isdecimal c = false.
Proof.
  intros H. destruct (isdecimal c) eqn:Hd; [|reflexivity].
  rewrite (isdecimal_price_char c Hd) in H. discriminate.
Qed.

Lemma not_price_char_not_separator (c : codepoint) :
  price_char c = false -> is_separator c = false.
Proof.
  unfold price_char, is_separator. intros H.
  destruct (isdigit c); [discriminate|]. simpl in H.
  destruct (c =? cp_dot); [discriminate|].
  destruct (c =? cp_comma); [discriminate|reflexivity].
Qed.

Lemma span_decimal_spec (s ip rest : pystr) :
  span_decimal s = (ip, rest) ->
  s = ip ++ rest
  /\ forallb isdecimal ip = true
  /\ match rest with [] => True | c :: _ => isdecimal c = false end.
Proof.
  revert ip rest. induction s as [|c r IH]; simpl; intros ip rest.
  - intros [= <- <-]. auto.
  - destruct (isdecimal c) eqn:Hc.
    + destruct (span_decimal r) as [ds rest0]. intros [= <- <-].
      destruct (IH _ _ eq_refl) as (-> & Hds & Hrest).
      simpl. rewrite Hc. auto.
    + intros [= <- <-]. simpl. rewrite Hc. auto.
Qed.

Lemma span_decimal_app (ip rest : pystr) :
  forallb isdecimal ip = true ->
  match rest with [] => True | c :: _ => isdecimal c = false end ->
  span_decimal (ip ++ rest) = (ip, rest).
Proof.
  induction ip as [|a ip IH]; simpl; intros Hip Hrest.
  - destruct rest as [|c r]; simpl; [reflexivity|]. rewrite Hrest. reflexivity.
  - destruct (isdecimal a); [|discriminate]. simpl in Hip.
    rewrite (IH Hip Hrest). reflexivity.
Qed.

Lemma from_first_digit_app (pre s : pystr) :
  forallb (fun c => negb (price_char c)) pre = true ->
  from_first_digit (pre ++ s) = from_first_digit s.
Proof.
  induction pre as [|c pre IH]; simpl; intros H; [reflexivity|].
  destruct (price_char c) eqn:Hc; [discriminate|]. simpl in H.
  rewrite (not_price_char_not_decimal c Hc). apply IH, H.
Qed.

Lemma decimal_digits_total (s : pystr) (acc : N) :
  forallb isdecimal s = true -> exists n, decimal_digits s acc = Some n.
Proof.
  revert acc. induction s as [|c r IH]; simpl; intros acc H; [eauto|].
  unfold isdecimal in H. destruct (decimal_value c); [|discriminate].
  apply IH, H.
Qed.

Lemma replace_comma_decimal (s : pystr) :
  forallb isdecimal s = true -> replace_comma s = s.
Proof.
  induction s as [|c r IH]; intros H; [reflexivity|].
  simpl in H. destruct (isdecimal c) eqn:Hc; [|discriminate]. simpl in H.
  unfold replace_comma in *. cbn [map].
  destruct (isdecimal_not_separator c Hc) as [-> _].
  f_equal. apply IH, H.
Qed.

Lemma split1_no_dot (s : pystr) :
  forallb isdecimal s = true -> split1 cp_dot s = [s].
Proof.
  induction s as [|c r IH]; simpl; intros H; [reflexivity|].
  destruct (isdecimal c) eqn:Hc; [|discriminate]. simpl in H.
  destruct (isdecimal_not_separator c Hc) as [_ ->].
  rewrite (IH H). reflexivity.
Qed.

Lemma split1_dot (ip fp : pystr) :
  forallb isdecimal ip = true -> split1 cp_dot (ip ++ cp_dot :: fp) = [ip; fp].
Proof.
  induction ip as [|c r IH]; simpl; intros H; [reflexivity|].
  destruct (isdecimal c) eqn:Hc; [|discriminate]. simpl in H.
  destruct (isdecimal_not_separator c Hc) as [_ ->].
  rewrite (IH H). reflexivity.
Qed.

Lemma forallb_decimal_price (s : pystr) :
  forallb isdecimal s = true -> forallb price_char s = true.
Proof.
  induction s as [|c r IH]; simpl; intros H; [reflexivity|].
  destruct (isdecimal c) eqn:Hc; [|discriminate]. simpl in H.
  rewrite (isdecimal_price_char c Hc), (IH H). reflexivity.
Qed.

(** A numeric token that stands alone between texts without digits, dots
    and commas: [float] reads the token, and the value is that of the first
    numeric token of the whole text. *)
Lemma single_token_value (pre tok post : pystr) :
  forallb (fun c => negb (price_char c)) pre = true ->
  forallb (fun c => negb (price_char c)) post = true ->
  numeric_token tok = true ->
  exists v,
    py_float (replace_comma tok) = Ok v
    /\ spec_first_numeric_token (pre ++ tok ++ post) = Some v
    /\ forallb price_char tok = true.
Proof.
  intros Hpre Hpost Htok. unfold numeric_token in Htok.
  destruct (span_decimal tok) as [ip rest] eqn:Hspan.
  destruct (span_decimal_spec _ _ _ Hspan) as (-> & Hip & Hrest).
  apply andb_prop in Htok as [Hne Hshape].
  destruct ip as [|d ip]; [discriminate|]. clear Hne.
  assert (Hd : isdecimal d = true).
  { simpl in Hip. destruct (isdecimal d); [reflexivity|discriminate]. }
  assert (Hpost1 : match post with [] => True | c :: _ => isdecimal c = false end).
  { destruct post as [|c post]; [exact I|]. simpl in Hpost.
    destruct (price_char c) eqn:Hc; [discriminate|].
    apply not_price_char_not_decimal, Hc. }
  assert (Hpost2 : match post with [] => True | c :: _ => is_separator c = false end).
  { destruct post as [|c post]; [exact I|]. simpl in Hpost.
    destruct (price_char c) eqn:Hc; [discriminate|].
    apply not_price_char_not_separator, Hc. }
  unfold spec_first_numeric_token.
  rewrite from_first_digit_app by exact Hpre.
  change (from_first_digit (((d :: ip) ++ rest) ++ post))
    with (from_first_digit (d :: (ip ++ rest) ++ post)).
  cbn [from_first_digit]. rewrite Hd.
  change (d :: (ip ++ rest) ++ post) with (((d :: ip) ++ rest) ++ post).
  set (ipd := d :: ip) in *.
  destruct rest as [|sep fp].
  - (* digits only *)
    rewrite app_nil_r, (span_decimal_app ipd post Hip Hpost1).
    rewrite (replace_comma_decimal ipd Hip).
    unfold py_float. rewrite (split1_no_dot ipd Hip).
    destruct (decimal_digits_total ipd 0 Hip) as [n Hn]. rewrite Hn.
    exists (Qred (Z.of_N n # 1)).
    split; [reflexivity|]. split; [|apply forallb_decimal_price, Hip].
    destruct post as [|c post]; [reflexivity|]. unfold is_separator in Hpost2.
    rewrite Hpost2. reflexivity.
  - (* digits, a separator, digits *)
    apply andb_prop in Hshape as [Hsep Hfp].
    assert (Hrep : replace_comma (ipd ++ sep :: fp) = ipd ++ cp_dot :: fp).
    { assert (Happ : replace_comma (ipd ++ sep :: fp)
                     = replace_comma ipd
                       ++ (if sep =? cp_comma then cp_dot else sep)
                          :: replace_comma fp)
        by (unfold replace_comma; rewrite map_app; reflexivity).
      rewrite Happ, (replace_comma_decimal ipd Hip),
        (replace_comma_decimal fp Hfp).
      unfold is_separator in Hsep.
      destruct (sep =? cp_comma) eqn:E1; [reflexivity|]. simpl in Hsep.
      apply N.eqb_eq in Hsep. subst sep. reflexivity. }
    rewrite Hrep. unfold py_float. rewrite (split1_dot ipd fp Hip).
    assert (Hall : forallb isdecimal (ipd ++ fp) = true)
      by (rewrite forallb_app, Hip, Hfp; reflexivity).
    destruct (decimal_digits_total (ipd ++ fp) 0 Hall) as [n Hn]. rewrite Hn.
    exists (Qred (Z.of_N n # pow10 (length fp))).
    split; [reflexivity|]. split.
    + rewrite <- app_assoc.
      rewrite (span_decimal_app ipd ((sep :: fp) ++ post) Hip).
      * change ((sep :: fp) ++ post) with (sep :: fp ++ post).
        cbv beta iota zeta.
        unfold is_separator in Hsep. rewrite Hsep.
        rewrite (span_decimal_app fp post Hfp Hpost1).
        destruct fp as [|f fp].
        -- rewrite app_nil_r in Hn. rewrite Hn. reflexivity.
        -- rewrite Hn. reflexivity.
      * simpl. destruct (isdecimal sep) eqn:Hs; [|reflexivity].
        destruct (isdecimal_not_separator sep Hs) as [E1 E2].
        unfold is_separator in Hsep. rewrite E1, E2 in Hsep. discriminate.
    + rewrite forallb_app, (forallb_decimal_price ipd Hip). simpl.
      rewrite (forallb_decimal_price fp Hfp).
      unfold price_char. unfold is_separator in Hsep.
      destruct (sep =? cp_comma), (sep =? cp_dot); simpl in *;
        try discriminate; rewrite ?orb_true_r; reflexivity.
Qed.

(** X27.  For every case mapping and every response text: take a line
    that no analysis line precedes, and the trimmed text after the last
    colon of that line; when that text holds one numeric token [tok]
    (digits, or digits, a comma or dot, and digits) and no other digit, dot
    or comma, then the first numeric token of that text has a value [v],
    comma read as decimal separator, and
      - if the line carries the average-price label and no later line does,
        the parser returns [v] as the average price;
      - if the line carries the minimum-price label, not the average one,
        and no later line carries the minimum-price label, the parser
        returns [v] as the minimum price. *)
Theorem price_is_single_numeric_token (cm : CaseMap)
    (response_text : pystr) (before after : list pystr)
    (raw segment pre tok post : pystr) :
  split cp_newline (strip response_text) = before ++ raw :: after ->
  forallb (fun l => negb (is_analysis_line (strip l))) before = true ->
  last (split cp_colon (strip raw)) = Some segment ->
  strip segment = pre ++ tok ++ post ->
  forallb (fun c => negb (price_char c)) pre = true ->
  forallb (fun c => negb (price_char c)) post = true ->
  numeric_token tok = true ->
  exists (d : parse_dict) (v : Q),
    _parse_response response_text = Ok d
    /\ spec_first_numeric_token (strip segment) = Some v
    /\ (is_average_line (strip raw) = true ->
        forallb (fun l => negb (is_average_line (strip l))) after = true ->
        average_price d = Some v)
    /\ (is_average_line (strip raw) = false ->
        is_min_line (strip raw) = true ->
        forallb (fun l => negb (is_min_line (strip l))) after = true ->
        min_price d = Some v).
Proof.
  intros Hlines Hbefore Hseg Hshape Hpre Hpost Htok.
  destruct (single_token_value pre tok post Hpre Hpost Htok)
    as (v & Hfloat & Hfirst & Hchars).
  destruct (price_is_float_of_kept_characters cm response_text before after
              raw segment pre tok post v Hlines Hbefore Hseg Hshape Hpre
              Hpost Hchars Hfloat) as (d & Hd & Havg & Hmin).
  exists d, v. rewrite Hshape. auto.
Qed.

(* ===================================================================== *)
(** * Properties of the extended items                                    *)
(* ===================================================================== *)

Lemma validate_market_analysis_short (v : pystr) :
  (length (strip v) < 10)%nat -> validate_market_analysis (Some v) = None.
Proof.
  intros Hlen. unfold validate_market_analysis.
  destruct (length (strip v) =? 0)%nat; [reflexivity|].
  destruct (Nat.ltb_spec (length (strip v)) 10); [reflexivity|lia].
Qed.

Lemma validate_market_analysis_long (v : option pystr) (a : pystr) :
  validate_market_analysis v = Some a -> (10 <= length a)%nat.
Proof.
  unfold validate_market_analysis. destruct v as [s|]; [|discriminate].
  destruct (length (strip s) =? 0)%nat; [discriminate|].
  destruct (Nat.ltb_spec (length (strip s)) 10); [discriminate|].
  intros [= <-]. assumption.
Qed.

Lemma unit_validator_default (cls : Sheet) (u : option pystr) :
  unit_validator cls u = handle_none_unit u.
Proof. destruct cls; reflexivity. Qed.

(** The constructor accepts absent market fields, whatever the item. *)
Lemma new_extended_item_plain {St} (cls : Sheet) (item : DocumentItem) (s : St) :
  exists r,
    new_extended_item cls (item_name item) (item_quantity item)
      (item_unit item) (item_price item) (item_total item) None None None s
    = (s, Ok r)
    /\ corresponds item r /\ no_market_data r /\ ext_class r = cls.
Proof.
  eexists. split; [reflexivity|]. simpl.
  repeat split. apply unit_validator_default.
Qed.

(** [process_single_item] never raises: it returns an extended item of the
    input item, without market data when the lookup has failed, and with an
    analysis that is absent or at least ten characters long. *)
Lemma process_single_item_ok {St} (document_type : Sheet)
    (item : DocumentItem) (lookup : res market_data) (s : St) :
  exists r,
    process_single_item document_type item lookup s = (s, Ok r)
    /\ corresponds item r
    /\ ext_class r = class_for document_type
    /\ (lookup_failed lookup -> no_market_data r)
    /\ (forall md, lookup = Ok md ->
         (length (strip (analysis md)) < 10)%nat -> market_analysis r = None)
    /\ (forall a, market_analysis r = Some a -> (10 <= length a)%nat).
Proof.
  destruct (new_extended_item_plain (class_for document_type) item s)
    as (plain & Hplain & Hcorr & Hno & Hcls).
  assert (Hfallback :
    exists r, (s, Ok plain) = (s, Ok r)
      /\ corresponds item r /\ ext_class r = class_for document_type
      /\ (lookup_failed lookup -> no_market_data r)
      /\ (forall md, lookup = Ok md ->
           (length (strip (analysis md)) < 10)%nat -> market_analysis r = None)
      /\ (forall a, market_analysis r = Some a -> (10 <= length a)%nat)).
  { exists plain. destruct Hno as (? & ? & Hna).
    repeat split; try assumption; try apply Hcorr; auto.
    intros a Ha. congruence. }
  unfold process_single_item, try_except, any_exception, bind, lift.
  destruct lookup as [md|e]; cbv beta iota; [|rewrite Hplain; exact Hfallback].
  unfold new_extended_item at 1. unfold bind, lift, ret.
  destruct (validate_market_prices (average_price md)) as [avg|]; cbv beta iota;
    [|rewrite Hplain; exact Hfallback].
  destruct (validate_market_prices (min_price md)) as [mn|]; cbv beta iota;
    [|rewrite Hplain; exact Hfallback].
  eexists. split; [reflexivity|]. cbn.
  split; [repeat split; apply unit_validator_default|].
  split; [reflexivity|].
  split; [intros []|].
  split.
  - intros md' [= <-] Hshort. unfold if_truthy.
    destruct (truthy (analysis md)); [|reflexivity].
    apply validate_market_analysis_short, Hshort.
  - intros a. apply validate_market_analysis_long.
Qed.

(* ===================================================================== *)
(** * Properties of the runs of extend_items                              *)
(* ===================================================================== *)

Local Open Scope nat_scope.

Lemma count_insert {A} (f : A -> bool) (l : list A) (i : nat) (x y : A) :
  l !! i = Some x ->
  (length (List.filter f (<[i:=y]> l)) + Nat.b2n (f x)
   = length (List.filter f l) + Nat.b2n (f y))%nat.
Proof.
  revert i. induction l as [|a l IH]; intros [|i] Hi; simpl in *;
    try discriminate.
  - injection Hi as ->. destruct (f x), (f y); simpl; lia.
  - specialize (IH i Hi). destruct (f a); simpl; lia.
Qed.

Section RunProperties.
Variable items : list DocumentItem.
Variable document_type : Sheet.
Variable perplexity_service : market_client.
Variable k : nat.

Let Inv := run_invariant items document_type perplexity_service k.
Let step' := step items document_type perplexity_service.
Let run' := run items document_type perplexity_service.

Lemma initial_invariant : Inv (initial_state items k).
Proof.
  assert (Hw : forall l : list DocumentItem,
             List.filter is_waiting (map (fun _ => Waiting) l)
             = map (fun _ => Waiting) l).
  { induction l; simpl; congruence. }
  assert (Hf : forall l : list DocumentItem,
             List.filter is_in_flight (map (fun _ => Waiting) l) = []).
  { induction l; simpl; congruence. }
  assert (Hl : forall (l : list DocumentItem) i t,
             map (fun _ => Waiting) l !! i = Some t -> t = Waiting).
  { intros l i t. rewrite list_lookup_fmap.
    destruct (l !! i); simpl; congruence. }
  split; simpl.
  - apply length_map.
  - unfold in_flight; simpl. rewrite Hf. simpl. lia.
  - unfold waiting; simpl. rewrite Hw, length_map. reflexivity.
  - reflexivity.
  - intros i e H. apply Hl in H. discriminate.
  - intros i r H. apply Hl in H. discriminate.
  - intros i item Hitem Hnw. exfalso. apply Hnw.
    rewrite list_lookup_fmap, Hitem. reflexivity.
Qed.

Lemma step_invariant (st : run_state) (ev : event) :
  Inv st -> Inv (step' st ev).
Proof.
  intros HI. subst step'. unfold step.
  destruct (enabled st ev) eqn:En; [|exact HI].
  destruct HI as [Hlen Hslots Hcalls Hraised Hfailed Hdone Hissued].
  destruct ev as [i|i]; simpl in En.
  - destruct (tasks st !! i) as [[| | |]|] eqn:Ht; try discriminate.
    apply Nat.ltb_lt in En.
    assert (Hi : (i < length (tasks st))%nat) by (eapply lookup_lt_Some; eauto).
    destruct (lookup_lt_is_Some_2 items i) as [item Hitem]; [lia|].
    rewrite Hitem.
    pose proof (count_insert is_in_flight _ i _ InFlight Ht) as Hc1.
    pose proof (count_insert is_waiting _ i _ InFlight Ht) as Hc2.
    simpl in Hc1, Hc2.
    split; simpl.
    + rewrite length_insert. exact Hlen.
    + unfold in_flight in *; simpl. lia.
    + unfold waiting in *; simpl. rewrite length_app. simpl. lia.
    + exact Hraised.
    + intros j e. destruct (decide (i = j)) as [<-|Hne].
      * rewrite list_lookup_insert_eq by exact Hi. discriminate.
      * rewrite list_lookup_insert_ne by exact Hne. apply Hfailed.
    + intros j r. destruct (decide (i = j)) as [<-|Hne].
      * rewrite list_lookup_insert_eq by exact Hi. discriminate.
      * rewrite list_lookup_insert_ne by exact Hne. apply Hdone.
    + intros j item' Hitem'. destruct (decide (i = j)) as [<-|Hne].
      * intros _. assert (item' = item) as -> by congruence.
        apply elem_of_app. right. apply list_elem_of_singleton. reflexivity.
      * rewrite list_lookup_insert_ne by exact Hne. intros Hnw.
        apply elem_of_app. left. eapply Hissued; eauto.
  - destruct (tasks st !! i) as [[| | |]|] eqn:Ht; try discriminate.
    assert (Hi : (i < length (tasks st))%nat) by (eapply lookup_lt_Some; eauto).
    destruct (lookup_lt_is_Some_2 items i) as [item Hitem]; [lia|].
    rewrite Hitem.
    destruct (process_single_item_ok document_type item (perplexity_service i) tt)
      as (r & Hr & _).
    rewrite Hr. simpl.
    pose proof (count_insert is_in_flight _ i _ (Done r) Ht) as Hc1.
    pose proof (count_insert is_waiting _ i _ (Done r) Ht) as Hc2.
    simpl in Hc1, Hc2.
    split; simpl.
    + rewrite length_insert. exact Hlen.
    + unfold in_flight in *; simpl. lia.
    + unfold waiting in *; simpl. lia.
    + exact Hraised.
    + intros j e. destruct (decide (i = j)) as [<-|Hne].
      * rewrite list_lookup_insert_eq by exact Hi. discriminate.
      * rewrite list_lookup_insert_ne by exact Hne. apply Hfailed.
    + intros j r'. destruct (decide (i = j)) as [<-|Hne].
      * rewrite list_lookup_insert_eq by exact Hi. intros [= <-].
        exists item. rewrite Hr. split; [exact Hitem|reflexivity].
      * rewrite list_lookup_insert_ne by exact Hne. apply Hdone.
    + intros j item' Hitem'. destruct (decide (i = j)) as [<-|Hne].
      * intros _. apply (Hissued i item' Hitem'). rewrite Ht. discriminate.
      * rewrite list_lookup_insert_ne by exact Hne. apply Hissued, Hitem'.
Qed.

Lemma run_invariant_preserved (schedule : list event) (st : run_state) :
  Inv st -> Inv (run' st schedule).
Proof.
  revert st. induction schedule as [|ev rest IH]; intros st HI; simpl.
  - exact HI.
  - apply IH, step_invariant, HI.
Qed.

Lemma reachable_invariant (schedule : list event) :
  Inv (run' (initial_state items k) schedule).
Proof. apply run_invariant_preserved, initial_invariant. Qed.

(** A step that is possible takes one unit of the work left. *)
Lemma step_work_left (st : run_state) (ev : event) :
  Inv st -> enabled st ev = true ->
  (work_left (step' st ev) + 1 = work_left st)%nat.
Proof.
  intros HI En. subst step'. unfold step. rewrite En.
  destruct HI as [Hlen _ _ _ _ _ _].
  destruct ev as [i|i]; simpl in En.
  - destruct (tasks st !! i) as [[| | |]|] eqn:Ht; try discriminate.
    pose proof (count_insert is_in_flight _ i _ InFlight Ht) as Hc1.
    pose proof (count_insert is_waiting _ i _ InFlight Ht) as Hc2.
    simpl in Hc1, Hc2. unfold work_left, waiting, in_flight in *; simpl. lia.
  - destruct (tasks st !! i) as [[| | |]|] eqn:Ht; try discriminate.
    assert (Hi : (i < length (tasks st))%nat) by (eapply lookup_lt_Some; eauto).
    destruct (lookup_lt_is_Some_2 items i) as [item Hitem]; [lia|].
    rewrite Hitem.
    destruct (process_single_item_ok document_type item (perplexity_service i) tt)
      as (r & Hr & _).
    rewrite Hr. simpl.
    pose proof (count_insert is_in_flight _ i _ (Done r) Ht) as Hc1.
    pose proof (count_insert is_waiting _ i _ (Done r) Ht) as Hc2.
    simpl in Hc1, Hc2. unfold work_left, waiting, in_flight in *; simpl. lia.
Qed.

Lemma unfinished_task (ts : list task_state) :
  forallb is_finished ts = false ->
  exists i, ts !! i = Some Waiting \/ ts !! i = Some InFlight.
Proof.
  induction ts as [|t ts IH]; simpl; [discriminate|].
  destruct t; simpl; intros H.
  - exists 0%nat. left. reflexivity.
  - exists 0%nat. right. reflexivity.
  - destruct (IH H) as [i Hi]. exists (S i). exact Hi.
  - destruct (IH H) as [i Hi]. exists (S i). exact Hi.
Qed.

Lemma in_flight_task (ts : list task_state) :
  (0 < length (List.filter is_in_flight ts))%nat ->
  exists i, ts !! i = Some InFlight.
Proof.
  induction ts as [|t ts IH]; simpl; [lia|].
  destruct t; simpl; intros H;
    try (destruct (IH H) as [i Hi]; exists (S i); exact Hi).
  exists 0%nat. reflexivity.
Qed.

(** With at least one slot, a run that is not over can go on. *)
Lemma progress (st : run_state) :
  Inv st -> (1 <= k)%nat -> all_finished st = false ->
  exists ev, enabled st ev = true.
Proof.
  intros HI Hk Hnot.
  destruct (Nat.eq_dec (in_flight st) 0) as [Hz|Hnz].
  - destruct (unfinished_task _ Hnot) as [i [Hi|Hi]].
    + exists (Acquire i). simpl. rewrite Hi.
      apply Nat.ltb_lt. pose proof (inv_slots _ _ _ _ _ HI). lia.
    + exists (Complete i). simpl. rewrite Hi. reflexivity.
  - destruct (in_flight_task (tasks st)) as [i Hi];
      [unfold in_flight in Hnz; lia|].
    exists (Complete i). simpl. rewrite Hi. reflexivity.
Qed.

(** With at least one slot, every run can be continued to its end, in as
    many steps as there is work left. *)
Lemma completion (st : run_state) :
  Inv st -> (1 <= k)%nat ->
  exists rest, length rest = work_left st
               /\ all_finished (run' st rest) = true.
Proof.
  intros HI Hk.
  remember (work_left st) as n eqn:Hn. revert st HI Hn.
  induction n as [|n IH]; intros st HI Hn.
  - exists []. split; [reflexivity|]. simpl.
    destruct (all_finished st) eqn:Hf; [reflexivity|].
    destruct (progress st HI Hk Hf) as [ev Hev].
    pose proof (step_work_left st ev HI Hev). lia.
  - destruct (all_finished st) eqn:Hf.
    + exfalso. unfold all_finished in Hf.
      unfold work_left, waiting, in_flight in Hn.
      assert (Hz : forall ts, forallb is_finished ts = true ->
                   length (List.filter is_waiting ts) = 0%nat
                   /\ length (List.filter is_in_flight ts) = 0%nat).
      { induction ts as [|t ts IHts]; simpl; [auto|].
        destruct t; simpl; try discriminate; exact IHts. }
      destruct (Hz _ Hf). lia.
    + destruct (progress st HI Hk Hf) as [ev Hev].
      pose proof (step_work_left st ev HI Hev) as Hw.
      destruct (IH (step' st ev)) as (rest & Hlen & Hfin).
      * apply step_invariant, HI.
      * lia.
      * exists (ev :: rest). split; [simpl; lia|exact Hfin].
Qed.

(** With at least one slot, a run made of possible steps only, as long as
    the work left, ends with every task finished: the event loop cannot
    avoid the end. *)
Lemma possible_steps_finish (schedule : list event) (st : run_state) :
  Inv st -> (1 <= k)%nat ->
  length schedule = work_left st ->
  (forall first ev rest, schedule = first ++ ev :: rest ->
     enabled (run' st first) ev = true) ->
  all_finished (run' st schedule) = true.
Proof.
  revert st. induction schedule as [|ev rest IH]; intros st HI Hk Hlen Hen.
  - simpl. destruct (all_finished st) eqn:Hf; [reflexivity|].
    destruct (progress st HI Hk Hf) as [ev Hev].
    pose proof (step_work_left st ev HI Hev). simpl in Hlen. lia.
  - simpl. pose proof (Hen [] ev rest eq_refl) as Hev. simpl in Hev.
    pose proof (step_work_left st ev HI Hev) as Hw.
    apply IH.
    + apply step_invariant, HI.
    + exact Hk.
    + simpl in Hlen. subst step'. lia.
    + intros first ev' rest' Hsplit.
      apply (Hen (ev :: first) ev' rest'). rewrite Hsplit. reflexivity.
Qed.

(** The results of a run that is over: one per item, in the order of the
    items, each the item that [process_single_item] builds. *)
Lemma finished_results (st : run_state) :
  Inv st -> all_finished st = true ->
  length (results (tasks st)) = length items
  /\ forall i item, items !! i = Some item ->
       exists r, results (tasks st) !! i = Some r
         /\ snd (process_single_item document_type item
                   (perplexity_service i) tt) = Ok r.
Proof.
  intros HI Hfin.
  assert (Hall : forall ts : list task_state,
            forallb is_finished ts = true ->
            (forall i e, ts !! i <> Some (Failed e)) ->
            length (results ts) = length ts
            /\ forall i t, ts !! i = Some t ->
                 exists r, t = Done r /\ results ts !! i = Some r).
  { induction ts as [|t ts IHts]; simpl; intros Hf Hnf.
    - split; [reflexivity|]. intros i t H. destruct i; discriminate.
    - destruct t; simpl in Hf; try discriminate.
      + destruct IHts as [IHl IHi]; [exact Hf|intros i e; apply (Hnf (S i))|].
        unfold results in *; simpl. split; [simpl; lia|].
        intros [|i] t H; simpl in *.
        * injection H as <-. eauto.
        * apply IHi, H.
      + exfalso. apply (Hnf 0%nat e). reflexivity. }
  destruct (Hall (tasks st) Hfin (inv_failed _ _ _ _ _ HI)) as [Hl Hi].
  split; [rewrite Hl; apply (inv_length _ _ _ _ _ HI)|].
  intros i item Hitem.
  destruct (lookup_lt_is_Some_2 (tasks st) i) as [t Ht].
  { rewrite (inv_length _ _ _ _ _ HI). eapply lookup_lt_Some, Hitem. }
  destruct (Hi i t Ht) as (r & -> & Hr).
  exists r. split; [exact Hr|].
  destruct (inv_done _ _ _ _ _ HI i r Ht) as (item' & Hitem' & Hbuilt).
  congruence.
Qed.

End RunProperties.

Section Sequential.
Variable items : list DocumentItem.
Variable document_type : Sheet.
Variable perplexity_service : market_client.
Variable k : nat.
Hypothesis one_slot : 1 <= k.

Let Inv := run_invariant items document_type perplexity_service k.
Let step' := step items document_type perplexity_service.
Let run' := run items document_type perplexity_service.

Lemma step_other_task (st : run_state) (i j : nat) (ev : event) :
  ev = Acquire j \/ ev = Complete j -> i <> j ->
  tasks (step' st ev) !! i = tasks st !! i.
Proof.
  intros Hev Hne. subst step'. unfold step.
  destruct (enabled st ev); [|reflexivity].
  destruct Hev as [-> | ->]; simpl.
  - apply list_lookup_insert_ne. congruence.
  - destruct (items !! j); [|reflexivity].
    destruct (snd _); simpl; apply list_lookup_insert_ne; congruence.
Qed.

Lemma step_acquire (st : run_state) (j : nat) :
  Inv st -> in_flight st = 0 -> tasks st !! j = Some Waiting ->
  let st1 := step' st (Acquire j) in
  enabled st (Acquire j) = true
  /\ tasks st1 !! j = Some InFlight
  /\ in_flight st1 = 1.
Proof.
  intros HI Hz Hw. subst step'.
  assert (En : enabled st (Acquire j) = true).
  { simpl. rewrite Hw. apply Nat.ltb_lt.
    pose proof (inv_slots _ _ _ _ _ HI). lia. }
  cbn zeta. unfold step. rewrite En. simpl.
  split; [reflexivity|]. split.
  - apply list_lookup_insert_eq. eapply lookup_lt_Some, Hw.
  - pose proof (count_insert is_in_flight _ j _ InFlight Hw) as Hc.
    simpl in Hc. unfold in_flight in *. simpl. lia.
Qed.

Lemma step_complete (st : run_state) (j : nat) :
  Inv st -> in_flight st = 1 -> tasks st !! j = Some InFlight ->
  enabled st (Complete j) = true
  /\ in_flight (step' st (Complete j)) = 0.
Proof.
  intros HI Hone Hf. subst step'.
  assert (En : enabled st (Complete j) = true) by (simpl; rewrite Hf; reflexivity).
  split; [exact En|].
  unfold step. rewrite En.
  destruct (lookup_lt_is_Some_2 items j) as [item Hitem].
  { rewrite <- (inv_length _ _ _ _ _ HI). eapply lookup_lt_Some, Hf. }
  rewrite Hitem.
  destruct (process_single_item_ok document_type item (perplexity_service j) tt)
    as (r & Hr & _).
  rewrite Hr. simpl.
  pose proof (count_insert is_in_flight _ j _ (Done r) Hf) as Hc.
  simpl in Hc. unfold in_flight in *. simpl. lia.
Qed.

(** Taking the tasks from [j] on in turn uses two steps per task. *)
Lemma sequential_run (n j : nat) (st : run_state) :
  Inv st -> in_flight st = 0 ->
  (forall i, j <= i < j + n -> tasks st !! i = Some Waiting) ->
  let st' := run' st (flat_map (fun i => [Acquire i; Complete i]) (seq j n)) in
  Inv st' /\ work_left st' + 2 * n = work_left st.
Proof.
  revert j st. induction n as [|n IH]; intros j st HI Hz Hw; cbn zeta.
  - simpl. split; [exact HI|lia].
  - simpl.
    destruct (step_acquire st j HI Hz) as (En1 & Hj1 & Hone); [apply Hw; lia|].
    pose proof (step_invariant items document_type perplexity_service k st
                  (Acquire j) HI) as HI1.
    pose proof (step_work_left items document_type perplexity_service k st
                  (Acquire j) HI En1) as Hw1.
    set (st1 := step items document_type perplexity_service st (Acquire j)) in *.
    destruct (step_complete st1 j HI1 Hone Hj1) as (En2 & Hz2).
    pose proof (step_invariant items document_type perplexity_service k st1
                  (Complete j) HI1) as HI2.
    pose proof (step_work_left items document_type perplexity_service k st1
                  (Complete j) HI1 En2) as Hw2.
    set (st2 := step items document_type perplexity_service st1 (Complete j)) in *.
    destruct (IH (S j) st2 HI2 Hz2) as [HI' Hwl].
    + intros i Hi.
      unfold st2. rewrite (step_other_task st1 i j) by (eauto; lia).
      unfold st1. rewrite (step_other_task st i j) by (eauto; lia).
      apply Hw. lia.
    + split; [exact HI'|]. cbn zeta in Hwl.
      change (fold_left (step items document_type perplexity_service)
                (flat_map (fun i => [Acquire i; Complete i]) (seq (S j) n))
                st2)
        with (run' st2 (flat_map (fun i => [Acquire i; Complete i])
                          (seq (S j) n))).
      clearbody st1 st2. lia.
Qed.

(** The schedule that takes the items in turn ends with every task
    finished. *)
Lemma sequential_schedule_finishes :
  all_finished (run' (initial_state items k)
                  (sequential_schedule (length items))) = true.
Proof.
  pose proof (initial_invariant items document_type perplexity_service k) as HI0.
  destruct (sequential_run (length items) 0 (initial_state items k) HI0)
    as [HI Hwl].
  - pose proof (inv_slots _ _ _ _ _ HI0) as Hs. simpl in Hs. lia.
  - intros i Hi. simpl. rewrite list_lookup_fmap.
    destruct (lookup_lt_is_Some_2 items i) as [item ->]; [lia|reflexivity].
  - cbn zeta in Hwl. unfold sequential_schedule.
    destruct (all_finished _) eqn:Hf; [reflexivity|]. exfalso.
    destruct (progress items document_type perplexity_service k _ HI one_slot Hf)
      as [ev Hev].
    pose proof (step_work_left items document_type perplexity_service k _ ev
                  HI Hev) as Hstep.
    pose proof (inv_calls _ _ _ _ _ HI0) as Hc.
    pose proof (inv_slots _ _ _ _ _ HI0) as Hs.
    change (length (calls (initial_state items k))) with 0 in Hc.
    change (sem_value (initial_state items k)) with k in Hs.
    unfold work_left, run' in *. lia.
Qed.

End Sequential.

Lemma class_for_id (s : Sheet) : class_for s = s.
Proof. destruct s; reflexivity. Qed.

Lemma run_app (items : list DocumentItem) (s : Sheet)
    (perplexity_service : market_client) (st : run_state)
    (first rest : list event) :
  run items s perplexity_service st (first ++ rest)
  = run items s perplexity_service (run items s perplexity_service st first) rest.
Proof. unfold run. apply fold_left_app. Qed.

(** With no slot nothing is ever admitted: the run stays where it began. *)
Lemma zero_limit_run (items : list DocumentItem) (s : Sheet)
    (perplexity_service : market_client) (schedule : list event) :
  run items s perplexity_service (initial_state items 0) schedule
  = initial_state items 0.
Proof.
  induction schedule as [|ev rest IH]; [reflexivity|].
  change (run items s perplexity_service (initial_state items 0) (ev :: rest))
    with (run items s perplexity_service
            (step items s perplexity_service (initial_state items 0) ev) rest).
  assert (Hno : enabled (initial_state items 0) ev = false).
  { destruct ev as [i|i]; simpl.
    - destruct (map (fun _ => Waiting) items !! i) as [[| | |]|]; reflexivity.
    - rewrite list_lookup_fmap. destruct (items !! i); reflexivity. }
  unfold step. rewrite Hno. exact IH.
Qed.

(** Without tasks there is nothing to run. *)
Lemma run_no_tasks (items : list DocumentItem) (s : Sheet)
    (perplexity_service : market_client) (schedule : list event)
    (st : run_state) :
  tasks st = [] -> run items s perplexity_service st schedule = st.
Proof.
  intros Hnil. induction schedule as [|ev rest IH]; [reflexivity|].
  change (run items s perplexity_service st (ev :: rest))
    with (run items s perplexity_service
            (step items s perplexity_service st ev) rest).
  assert (Hno : enabled st ev = false).
  { destruct ev as [i|i]; simpl; rewrite Hnil, lookup_nil; reflexivity. }
  unfold step. rewrite Hno. exact IH.
Qed.

(** What [extend_items] does on a non-empty list with a supported type and
    a limit that the semaphore accepts. *)
Lemma extend_items_outcome (item : DocumentItem) (items : list DocumentItem)
    (s : Sheet) (perplexity_service : market_client) (max_concurrent : Z)
    (schedule : list event) :
  (0 <= max_concurrent)%Z ->
  fst (extend_items (item :: items) (IsSheet s) perplexity_service
         max_concurrent schedule)
  = gather (run (item :: items) s perplexity_service
              (initial_state (item :: items) (Z.to_nat max_concurrent))
              schedule).
Proof.
  intros Hk. unfold extend_items.
  destruct (Z.ltb_spec max_concurrent 0); [lia|reflexivity].
Qed.

Lemma extend_items_calls (item : DocumentItem) (items : list DocumentItem)
    (s : Sheet) (perplexity_service : market_client) (max_concurrent : Z)
    (schedule : list event) :
  (0 <= max_concurrent)%Z ->
  snd (extend_items (item :: items) (IsSheet s) perplexity_service
         max_concurrent schedule)
  = calls (run (item :: items) s perplexity_service
             (initial_state (item :: items) (Z.to_nat max_concurrent))
             schedule).
Proof.
  intros Hk. unfold extend_items.
  destruct (Z.ltb_spec max_concurrent 0); [lia|reflexivity].
Qed.

(** C1 (as amended).  For every list of items, every supported document
    type, every market client (any mix of lookups that answer and lookups
    that raise), every limit of at least one (any limit when the list is
    empty) and every schedule of the event loop: [extend_items] never
    raises; the run can always be brought to its end, where the call
    returns; and what it returns has one extended item per input item, the
    i-th built from the i-th input item, of the class of the document type,
    with the three market fields absent when the lookup of that item has
    failed. *)
Theorem extend_items_returns_all (items : list DocumentItem) (s : Sheet)
    (perplexity_service : market_client) (max_concurrent : Z)
    (schedule : list event) :
  items = [] \/ (1 <= max_concurrent)%Z ->
  (forall e, fst (extend_items items (IsSheet s) perplexity_service
                    max_concurrent schedule) <> Raised e)
  /\ (exists rest l,
        fst (extend_items items (IsSheet s) perplexity_service max_concurrent
               (schedule ++ rest)) = Returned l)
  /\ (forall l,
        fst (extend_items items (IsSheet s) perplexity_service max_concurrent
               schedule) = Returned l ->
        length l = length items
        /\ forall i item, items !! i = Some item ->
             exists r, l !! i = Some r
               /\ corresponds item r
               /\ ext_class r = s
               /\ (lookup_failed (perplexity_service i) -> no_market_data r)).
Proof.
  intros Hk. destruct items as [|item0 items0].
  { simpl. split; [discriminate|]. split; [exists [], []; reflexivity|].
    intros l [= <-]. split; [reflexivity|]. intros i item H. discriminate. }
  destruct Hk as [Hk|Hk]; [discriminate Hk|].
  rewrite (extend_items_outcome item0 items0 s perplexity_service
             max_concurrent schedule) by lia.
  remember (item0 :: items0) as items eqn:Hitems.
  remember (Z.to_nat max_concurrent) as k eqn:Hkn.
  pose proof (reachable_invariant items s perplexity_service k schedule) as HI.
  set (st := run items s perplexity_service (initial_state items k) schedule) in *.
  split; [|split].
  - intros e. unfold gather. rewrite (inv_raised _ _ _ _ _ HI).
    destruct (all_finished st); discriminate.
  - destruct (completion items s perplexity_service k st HI) as (rest & _ & Hfin);
      [lia|].
    exists rest. eexists.
    rewrite Hitems, (extend_items_outcome item0 items0) by lia.
    rewrite <- Hitems, <- Hkn, run_app. fold st.
    pose proof (run_invariant_preserved items s perplexity_service k rest st HI)
      as HI'.
    unfold gather. rewrite (inv_raised _ _ _ _ _ HI'), Hfin. reflexivity.
  - intros l. unfold gather. rewrite (inv_raised _ _ _ _ _ HI).
    destruct (all_finished st) eqn:Hfin; [|discriminate].
    intros [= <-].
    destruct (finished_results items s perplexity_service k st HI Hfin)
      as [Hlen Hith].
    split; [exact Hlen|].
    intros i item Hitem. destruct (Hith i item Hitem) as (r & Hr & Hbuilt).
    exists r. split; [exact Hr|].
    destruct (process_single_item_ok s item (perplexity_service i) tt)
      as (r' & Hr' & Hcorr & Hcls & Hfail & _).
    rewrite Hr' in Hbuilt. simpl in Hbuilt. injection Hbuilt as <-.
    rewrite class_for_id in Hcls. auto.
Qed.

(** Two runs that both return, under whatever schedules, return the same
    list. *)
Lemma extend_items_schedule_independent (items : list DocumentItem)
    (s : Sheet) (perplexity_service : market_client) (max_concurrent : Z)
    (schedule1 schedule2 : list event) (l1 l2 : list ExtendedItem) :
  fst (extend_items items (IsSheet s) perplexity_service max_concurrent
         schedule1) = Returned l1 ->
  fst (extend_items items (IsSheet s) perplexity_service max_concurrent
         schedule2) = Returned l2 ->
  l1 = l2.
Proof.
  destruct items as [|item0 items0]; [simpl; congruence|].
  destruct (Z.ltb_spec max_concurrent 0) as [Hneg|Hk].
  { unfold extend_items. destruct (Z.ltb_spec max_concurrent 0); [|lia].
    discriminate. }
  rewrite !extend_items_outcome by exact Hk.
  remember (item0 :: items0) as items eqn:Hitems.
  remember (Z.to_nat max_concurrent) as k eqn:Hkn.
  pose proof (reachable_invariant items s perplexity_service k schedule1) as HI1.
  pose proof (reachable_invariant items s perplexity_service k schedule2) as HI2.
  unfold gather.
  rewrite (inv_raised _ _ _ _ _ HI1), (inv_raised _ _ _ _ _ HI2).
  destruct (all_finished _) eqn:Hf1; [|discriminate].
  destruct (all_finished (run _ _ _ _ schedule2)) eqn:Hf2; [|discriminate].
  intros [= <-] [= <-].
  destruct (finished_results _ _ _ _ _ HI1 Hf1) as [Hl1 Hi1].
  destruct (finished_results _ _ _ _ _ HI2 Hf2) as [Hl2 Hi2].
  apply list_eq. intros i.
  destruct (items !! i) as [item|] eqn:Hitem.
  - destruct (Hi1 i item Hitem) as (r1 & -> & Hb1).
    destruct (Hi2 i item Hitem) as (r2 & -> & Hb2). congruence.
  - apply lookup_ge_None in Hitem.
    rewrite !(proj2 (lookup_ge_None _ _)) by lia. reflexivity.
Qed.

(** C9 (as amended).  An invocation of [extend_items] with a limit
    [max_concurrent] that is not negative is, at every point (after every
    schedule of the event loop), in the state [st] that the run has
    reached: its outcome and the calls it has issued are those of [st].  In
    [st] the number of market-client calls in flight is at most
    [max_concurrent].  With a limit of at least one, as long as some task
    is unfinished some step is possible, every possible step takes one unit
    of the work left, and the invocation can be continued, in as many steps
    as there is work left, until it returns one item per input item, having
    issued the call of every item (one call per item).  With the limit zero
    no call is ever issued, and on a list that is not empty the invocation
    stays suspended. *)
Theorem extend_items_bounded_concurrency (items : list DocumentItem)
    (s : Sheet) (perplexity_service : market_client) (max_concurrent : Z)
    (schedule : list event) :
  (0 <= max_concurrent)%Z ->
  let st := run items s perplexity_service
              (initial_state items (Z.to_nat max_concurrent)) schedule in
  extend_items items (IsSheet s) perplexity_service max_concurrent schedule
  = (gather st, calls st)
  /\ (Z.of_nat (in_flight st) <= max_concurrent)%Z
  /\ ((1 <= max_concurrent)%Z ->
      (all_finished st = false -> exists ev, enabled st ev = true)
      /\ (forall ev, enabled st ev = true ->
            work_left (step items s perplexity_service st ev) + 1
            = work_left st)
      /\ exists rest l,
           let final := extend_items items (IsSheet s) perplexity_service
                          max_concurrent (schedule ++ rest) in
           length rest = work_left st
           /\ fst final = Returned l
           /\ length l = length items
           /\ length (snd final) = length items
           /\ forall i item, items !! i = Some item ->
                call_args item ∈ snd final)
  /\ (max_concurrent = 0%Z ->
      calls st = [] /\ (items <> [] -> gather st = Pending)).
Proof.
  intros Hk st.
  assert (Hlink : forall sch,
            extend_items items (IsSheet s) perplexity_service max_concurrent sch
            = (gather (run items s perplexity_service
                         (initial_state items (Z.to_nat max_concurrent)) sch),
               calls (run items s perplexity_service
                        (initial_state items (Z.to_nat max_concurrent)) sch))).
  { intros sch. destruct items as [|item0 items0].
    - rewrite run_no_tasks by reflexivity. reflexivity.
    - unfold extend_items.
      destruct (Z.ltb_spec max_concurrent 0); [lia|reflexivity]. }
  pose proof (reachable_invariant items s perplexity_service
                (Z.to_nat max_concurrent) schedule) as HI.
  fold st in HI.
  split; [apply Hlink|]. split; [|split].
  - pose proof (inv_slots _ _ _ _ _ HI). lia.
  - intros Hk1. split; [|split].
    + apply (progress items s perplexity_service _ st HI). lia.
    + intros ev. apply (step_work_left items s perplexity_service _ st ev HI).
    + destruct (completion items s perplexity_service _ st HI)
        as (rest & Hlen & Hfin); [lia|].
      pose proof (run_invariant_preserved items s perplexity_service _ rest st HI)
        as HI'.
      exists rest, (results (tasks (run items s perplexity_service st rest))).
      cbn zeta. rewrite Hlink, run_app. fold st.
      cbn [fst snd].
      split; [exact Hlen|]. split.
      { unfold gather. rewrite (inv_raised _ _ _ _ _ HI'), Hfin. reflexivity. }
      split.
      { apply (finished_results items s perplexity_service _ _ HI' Hfin). }
      assert (Hnw : forall ts, forallb is_finished ts = true ->
                    (length (List.filter is_waiting ts) = 0
                     /\ forall i, ts !! i <> Some Waiting)).
      { induction ts as [|t ts IHts]; simpl.
        - intros _. split; [reflexivity|]. intros i. rewrite lookup_nil. discriminate.
        - destruct t; simpl; try discriminate; intros Hf;
            destruct (IHts Hf) as [Hz Hn]; (split; [exact Hz|]);
            intros [|i]; simpl; try discriminate; apply Hn. }
      destruct (Hnw _ Hfin) as [Hz Hn].
      split.
      * pose proof (inv_calls _ _ _ _ _ HI') as Hc. unfold waiting in Hc. lia.
      * intros i item Hitem. apply (inv_issued _ _ _ _ _ HI' i item Hitem), Hn.
  - intros Hzero. subst st. rewrite Hzero. change (Z.to_nat 0) with 0.
    rewrite zero_limit_run. split; [reflexivity|].
    intros Hne. destruct items as [|item0 items0]; [contradiction|reflexivity].
Qed.

(** With a limit of zero nothing is ever admitted: on a non-empty list the
    call stays suspended under every schedule. *)
Remark zero_limit_never_returns (item : DocumentItem)
    (items : list DocumentItem) (s : Sheet)
    (perplexity_service : market_client) (schedule : list event) :
  fst (extend_items (item :: items) (IsSheet s) perplexity_service 0 schedule)
  = Pending.
Proof.
  rewrite extend_items_outcome by lia.
  remember (item :: items) as l eqn:Hl.
  assert (Hstay : forall st,
            sem_value st = 0 -> in_flight st = 0 ->
            run l s perplexity_service st schedule = st).
  { induction schedule as [|ev rest IH]; intros st Hs Hf; simpl; [reflexivity|].
    assert (Hno : enabled st ev = false).
    { destruct ev as [i|i]; simpl.
      - destruct (tasks st !! i) as [[| | |]|]; try reflexivity.
        rewrite Hs. reflexivity.
      - destruct (tasks st !! i) as [[| | |]|] eqn:Ht; try reflexivity.
        exfalso. unfold in_flight in Hf.
        apply list_elem_of_lookup_2 in Ht.
        assert (InFlight ∈ List.filter is_in_flight (tasks st)) as Hin.
        { apply list_elem_of_In, List.filter_In. split; [|reflexivity].
          apply list_elem_of_In, Ht. }
        destruct (List.filter is_in_flight (tasks st)); [|discriminate].
        apply not_elem_of_nil in Hin. exact Hin. }
    unfold step. rewrite Hno. apply IH; assumption. }
  change (Z.to_nat 0) with 0.
  pose proof (initial_invariant l s perplexity_service 0) as HI.
  rewrite Hstay.
  - unfold gather. simpl. subst l. reflexivity.
  - reflexivity.
  - pose proof (inv_slots _ _ _ _ _ HI). lia.
Qed.

(** C4 (as amended).  For every non-empty list of items and every value of
    the document type that is neither [Sheet.MATERIALS] nor [Sheet.JOBS],
    [extend_items] raises [ValueError] and no call to the market client has
    been made, whatever the client, the limit and the schedule. *)
Theorem extend_items_rejects_unknown_type (items : list DocumentItem)
    (document_type : pyvalue) (perplexity_service : market_client)
    (max_concurrent : Z) (schedule : list event) :
  items <> [] ->
  (forall s, document_type <> IsSheet s) ->
  extend_items items document_type perplexity_service max_concurrent schedule
  = (Raised ValueError, []).
Proof.
  intros Hne Hdt. destruct items as [|item rest]; [contradiction|].
  destruct document_type as [s| |v]; [|reflexivity|reflexivity].
  exfalso. apply (Hdt s). reflexivity.
Qed.

(** C7.  For every extended item that the enrichment returns: when the
    lookup of its input item has answered with an analysis that, trimmed,
    is shorter than 10 characters (empty and blank texts included), the
    [market_analysis] of the item is absent; and a [market_analysis] that
    is present is at least 10 characters long.  The validator itself maps
    every such short text to [None]. *)
Theorem short_analysis_is_absent (items : list DocumentItem) (s : Sheet)
    (perplexity_service : market_client) (max_concurrent : Z)
    (schedule : list event) (l : list ExtendedItem) :
  fst (extend_items items (IsSheet s) perplexity_service max_concurrent
         schedule) = Returned l ->
  (forall i r md, l !! i = Some r -> perplexity_service i = Ok md ->
      length (strip (analysis md)) < 10 -> market_analysis r = None)
  /\ (forall i r a, l !! i = Some r -> market_analysis r = Some a ->
        10 <= length a)
  /\ (forall v, length (strip v) < 10 ->
        validate_market_analysis (Some v) = None).
Proof.
  intros Hret.
  assert (Hbuilt : forall i r, l !! i = Some r ->
            exists item, snd (process_single_item s item (perplexity_service i) tt)
                         = Ok r).
  { destruct items as [|item0 items0].
    { simpl in Hret. injection Hret as <-. intros i r H. discriminate. }
    destruct (Z.ltb_spec max_concurrent 0) as [Hneg|Hk].
    { unfold extend_items in Hret.
      destruct (Z.ltb_spec max_concurrent 0); [discriminate|lia]. }
    rewrite extend_items_outcome in Hret by exact Hk.
    remember (item0 :: items0) as items eqn:Hitems.
    pose proof (reachable_invariant items s perplexity_service
                  (Z.to_nat max_concurrent) schedule) as HI.
    unfold gather in Hret. rewrite (inv_raised _ _ _ _ _ HI) in Hret.
    destruct (all_finished _) eqn:Hfin; [|discriminate].
    injection Hret as <-.
    destruct (finished_results _ _ _ _ _ HI Hfin) as [Hlen Hith].
    intros i r Hr.
    destruct (lookup_lt_is_Some_2 items i) as [item Hitem].
    { rewrite <- Hlen. eapply lookup_lt_Some, Hr. }
    destruct (Hith i item Hitem) as (r' & Hr' & Hb).
    exists item. congruence. }
  split; [|split].
  - intros i r md Hr Hmd Hshort.
    destruct (Hbuilt i r Hr) as (item & Hb).
    destruct (process_single_item_ok s item (perplexity_service i) tt)
      as (r' & Hr' & _ & _ & _ & Hs & _).
    rewrite Hr' in Hb. simpl in Hb. injection Hb as <-.
    apply (Hs md Hmd Hshort).
  - intros i r a Hr Ha.
    destruct (Hbuilt i r Hr) as (item & Hb).
    destruct (process_single_item_ok s item (perplexity_service i) tt)
      as (r' & Hr' & _ & _ & _ & _ & Hlong).
    rewrite Hr' in Hb. simpl in Hb. injection Hb as <-.
    apply Hlong, Ha.
  - apply validate_market_analysis_short.
Qed.

(* ===================================================================== *)
(** * Properties of the pipeline                                          *)
(* ===================================================================== *)

Lemma built_result_invariant (r : ProcessingResult) :
  built_result r -> result_invariant r.
Proof.
  intros [msg|a url Hurl|a excel json]; unfold result_invariant; simpl.
  - repeat split.
  - left. repeat split. discriminate.
  - right. repeat split; discriminate.
Qed.

Section Rules.
Context {A B : Type}.
Variable q : effect -> bool.

Lemma spec_ret (P : A -> Prop) (a : A) : P a -> spec q P (ret a).
Proof.
  intros Ha rt. split; [|exact Ha].
  exists []. rewrite app_nil_r. split; reflexivity.
Qed.

Lemma spec_raise (P : A -> Prop) (e : exn) : spec q P (raise e).
Proof.
  intros rt. split; [|exact I].
  exists []. rewrite app_nil_r. split; reflexivity.
Qed.

Lemma spec_lift (P : A -> Prop) (r : res A) :
  (forall a, r = Ok a -> P a) -> spec q P (lift r).
Proof.
  intros Hr rt. split.
  - exists []. rewrite app_nil_r. split; reflexivity.
  - simpl. destruct r; [apply Hr; reflexivity|exact I].
Qed.

Lemma spec_bind (P1 : A -> Prop) (P2 : B -> Prop) (m : M runtime A)
    (k : A -> M runtime B) :
  spec q P1 m -> (forall a, P1 a -> spec q P2 (k a)) -> spec q P2 (bind m k).
Proof.
  intros Hm Hk rt. unfold bind.
  destruct (Hm rt) as [(added & Htr & Hq) Hres].
  destruct (m rt) as [rt1 [a|e]]; simpl in *.
  - destruct (Hk a Hres rt1) as [(added' & Htr' & Hq') Hres'].
    split; [|exact Hres'].
    exists (added ++ added'). rewrite Htr', Htr, app_assoc.
    split; [reflexivity|]. rewrite forallb_app, Hq, Hq'. reflexivity.
  - split; [|exact I]. exists added. split; assumption.
Qed.

Lemma spec_try (P : A -> Prop) (catches : exn -> bool) (body : M runtime A)
    (handler : exn -> M runtime A) :
  spec q P body -> (forall e, spec q P (handler e)) ->
  spec q P (try_except catches body handler).
Proof.
  intros Hb Hh rt. unfold try_except.
  destruct (Hb rt) as [(added & Htr & Hq) Hres].
  destruct (body rt) as [rt1 [a|e]]; simpl in *.
  - split; [|exact Hres]. exists added. split; assumption.
  - destruct (catches e).
    + destruct (Hh e rt1) as [(added' & Htr' & Hq') Hres'].
      split; [|exact Hres'].
      exists (added ++ added'). rewrite Htr', Htr, app_assoc.
      split; [reflexivity|]. rewrite forallb_app, Hq, Hq'. reflexivity.
    + simpl. split; [|exact I]. exists added. split; assumption.
Qed.

Lemma spec_weaken (P P' : A -> Prop) (m : M runtime A) :
  spec q P m -> (forall a, P a -> P' a) -> spec q P' m.
Proof.
  intros Hm Himp rt. destruct (Hm rt) as [Htr Hres]. split; [exact Htr|].
  destruct (snd (m rt)); [apply Himp, Hres|exact I].
Qed.

Lemma total_try (body : M runtime A) (handler : exn -> M runtime A) :
  (forall e, total (handler e)) ->
  total (try_except any_exception body handler).
Proof.
  intros Hh rt. unfold try_except, any_exception.
  destruct (body rt) as [rt1 [a|e]]; simpl; [eauto|apply Hh].
Qed.

End Rules.

Lemma spec_emit (q : effect -> bool) (e : effect) :
  q e = true -> spec q (fun _ => True) (emit e).
Proof.
  intros He rt. split; [|exact I].
  exists [e]. simpl. rewrite He. split; reflexivity.
Qed.

Lemma spec_create_file (q : effect -> bool) (path : pystr) :
  spec q (fun _ => True) (create_file path).
Proof.
  intros rt. split; [|exact I].
  exists []. simpl. rewrite app_nil_r. split; reflexivity.
Qed.

Lemma total_ret {A} (a : A) : total (ret a : M runtime A).
Proof. intros rt. exists a. reflexivity. Qed.

Lemma spec_build_rows (q : effect -> bool) (l : list any_item) :
  spec q (fun _ => True) (build_rows l).
Proof.
  induction l as [|a rest IH]; simpl.
  - apply spec_ret. exact I.
  - eapply spec_bind; [apply spec_lift; intros; exact I|]. intros _ _.
    eapply spec_bind; [exact IH|]. intros n _. apply spec_ret. exact I.
Qed.

Lemma spec_for_each {X} (q : effect -> bool) (xs : list X)
    (body : X -> M runtime unit) :
  (forall x, spec q (fun _ => True) (body x)) ->
  spec q (fun _ => True) (for_each xs body).
Proof.
  intros Hb. induction xs as [|x rest IH]; simpl.
  - apply spec_ret. exact I.
  - eapply spec_bind; [apply Hb|]. intros _ _. exact IH.
Qed.

Section LocalStorage.
Variable q : effect -> bool.
Hypothesis q_excel : forall path, q (SaveExcel path) = true.
Hypothesis q_json : forall path, q (SaveJson path) = true.

Variable w : world.
Variable analysis_ : DocumentAnalysis.
Variable user_id : Z.
Variable first_name file_path file_name : pystr.
Variable selected_project : option pystr.
Variable document_type : option Sheet.

Lemma create_local_excel_spec :
  spec q (fun _ => True)
    (_create_local_excel w analysis_ user_id first_name selected_project
       document_type)
  /\ total (_create_local_excel w analysis_ user_id first_name
              selected_project document_type).
Proof.
  split; [|apply total_try; intros; apply total_ret].
  apply spec_try; [|intros; apply spec_ret; exact I].
  eapply spec_bind; [apply spec_lift; intros; exact I|]. intros _ _.
  eapply spec_bind; [apply spec_build_rows|]. intros _ _.
  eapply spec_bind; [apply spec_emit, q_excel|]. intros _ _.
  eapply spec_bind; [apply spec_lift; intros; exact I|]. intros _ _.
  eapply spec_bind; [apply spec_create_file|]. intros _ _.
  apply spec_ret. exact I.
Qed.

Lemma save_local_json_spec :
  spec q (fun _ => True)
    (_save_local_json w analysis_ user_id selected_project document_type)
  /\ total (_save_local_json w analysis_ user_id selected_project
              document_type).
Proof.
  split; [|apply total_try; intros; apply total_ret].
  apply spec_try; [|intros; apply spec_ret; exact I].
  eapply spec_bind; [apply spec_lift; intros; exact I|]. intros _ _.
  eapply spec_bind; [apply spec_emit, q_json|]. intros _ _.
  eapply spec_bind; [apply spec_lift; intros; exact I|]. intros _ _.
  eapply spec_bind; [apply spec_create_file|]. intros _ _.
  apply spec_ret. exact I.
Qed.

(** The local fallback never raises; it returns the two local artifacts
    or a failure, and touches nothing but the two local files. *)
Lemma local_storage_spec :
  spec q (fun r => built_result r /\ local_or_failure r)
    (_process_with_local_storage w analysis_ user_id first_name file_path
       file_name selected_project document_type)
  /\ total (_process_with_local_storage w analysis_ user_id first_name
              file_path file_name selected_project document_type).
Proof.
  split; [|apply total_try; intros; apply total_ret].
  assert (Hfail : forall msg, built_result (failure_result msg)
                              /\ local_or_failure (failure_result msg)).
  { intros msg. split; [constructor|left; eauto]. }
  apply spec_try; [|intros; apply spec_ret, Hfail].
  eapply spec_bind; [apply create_local_excel_spec|]. intros [excel|] _.
  - eapply spec_bind; [apply save_local_json_spec|]. intros [json|] _.
    + apply spec_ret. split; [constructor|right; eauto].
    + apply spec_ret, Hfail.
  - apply spec_ret, Hfail.
Qed.

End LocalStorage.

Lemma add_data_to_spreadsheet_spec (w : world) (analysis_ : DocumentAnalysis)
    (user_id : Z) (first_name : pystr) (spreadsheet_id : option pystr)
    (sheet_name : pystr) :
  spec any_effect (fun _ => True)
    (add_data_to_spreadsheet w analysis_ user_id first_name spreadsheet_id
       sheet_name)
  /\ total (add_data_to_spreadsheet w analysis_ user_id first_name
              spreadsheet_id sheet_name).
Proof.
  split; [|apply total_try; intros; apply total_ret].
  apply spec_try; [|intros; apply spec_ret; exact I].
  eapply spec_bind; [apply spec_emit; reflexivity|]. intros _ _.
  destruct (negb (w_sheets_client w)); [apply spec_ret; exact I|].
  destruct spreadsheet_id as [id|]; [|apply spec_ret; exact I].
  destruct (negb (truthy id)); [apply spec_ret; exact I|].
  eapply spec_bind; [apply spec_emit; reflexivity|]. intros _ _.
  eapply spec_bind; [apply spec_lift; intros; exact I|]. intros _ _.
  eapply spec_bind; [apply spec_emit; reflexivity|]. intros _ _.
  eapply spec_bind; [apply spec_lift; intros; exact I|]. intros _ _.
  eapply spec_bind; [apply spec_build_rows|]. intros n _.
  eapply (spec_bind _ (fun _ => True)).
  - destruct (0 <? n).
    + eapply spec_bind; [apply spec_emit; reflexivity|]. intros _ _.
      apply spec_lift; intros; exact I.
    + apply spec_ret. exact I.
  - intros _ _. apply spec_ret. exact I.
Qed.

(** Without a usable identifier, [add_data_to_spreadsheet] obtains its
    client, makes no request to the spreadsheet service, and returns
    [None]. *)
Lemma add_data_unresolved (w : world) (analysis_ : DocumentAnalysis)
    (user_id : Z) (first_name : pystr) (spreadsheet_id : option pystr)
    (sheet_name : pystr) (rt : runtime) :
  truthy_opt spreadsheet_id = false ->
  add_data_to_spreadsheet w analysis_ user_id first_name spreadsheet_id
    sheet_name rt
  = ({| trace := trace rt ++ [SheetsCredentials]; files := files rt |},
     Ok None).
Proof.
  intros Hid. unfold add_data_to_spreadsheet, try_except, bind, emit, modify, ret.
  simpl. destruct (w_sheets_client w); simpl; [|reflexivity].
  destruct spreadsheet_id as [[|c r]|]; simpl in *; try discriminate; reflexivity.
Qed.

Lemma truthy_or_default (x : option pystr) :
  truthy_opt x = true -> truthy (or_default x []) = true.
Proof.
  destruct x as [s|]; simpl; [|discriminate].
  intros H. rewrite H. exact H.
Qed.

(** [_process_with_google_services] never raises and returns a result built
    in one of the three ways. *)
Lemma google_services_spec (w : world) (analysis_ : DocumentAnalysis)
    (user_id : Z) (first_name file_path file_name : pystr)
    (selected_project : option pystr) (document_type : option Sheet) :
  spec any_effect built_result
    (_process_with_google_services w analysis_ user_id first_name file_path
       file_name selected_project document_type)
  /\ total (_process_with_google_services w analysis_ user_id first_name
              file_path file_name selected_project document_type).
Proof.
  assert (Hlocal := local_storage_spec any_effect (fun _ => eq_refl)
                      (fun _ => eq_refl) w analysis_ user_id first_name
                      file_path file_name selected_project document_type).
  destruct Hlocal as [Hspec Htotal].
  assert (Hspec' : spec any_effect built_result
            (_process_with_local_storage w analysis_ user_id first_name
               file_path file_name selected_project document_type)).
  { eapply spec_weaken; [exact Hspec|]. intros r [Hr _]. exact Hr. }
  split; [|apply total_try; intros; exact Htotal].
  apply spec_try; [|intros; exact Hspec'].
  eapply spec_bind; [apply spec_lift; intros; exact I|]. intros sheet_name _.
  eapply spec_bind; [apply add_data_to_spreadsheet_spec|]. intros sheet_url _.
  destruct (truthy_opt sheet_url) eqn:Hurl; simpl; [|exact Hspec'].
  apply spec_ret. constructor. apply truthy_or_default, Hurl.
Qed.

Lemma spec_enrich (q : effect -> bool) (w : world)
    (analysis_ : DocumentAnalysis) (document_type : option Sheet) :
  (forall name unit_, q (MarketSearch name unit_) = true) ->
  spec q (fun _ => True) (enrich w analysis_ document_type).
Proof.
  intros Hq. unfold enrich.
  destruct (extend_items _ _ _ _ _) as [result issued].
  eapply spec_bind.
  - apply spec_for_each. intros c. apply spec_emit, Hq.
  - intros _ _. destruct result; [apply spec_ret|apply spec_raise|apply spec_raise];
      exact I.
Qed.

(** The pipeline never raises and returns a result built in one of the
    three ways. *)
Lemma pipeline_spec (w : world) (file_path file_name : pystr) (user_id : Z)
    (first_name : pystr) (nik_name selected_project : option pystr)
    (document_type : option Sheet) (is_image : bool) :
  spec any_effect built_result
    (_process_document_pipeline w file_path file_name user_id first_name
       nik_name selected_project document_type is_image)
  /\ total (_process_document_pipeline w file_path file_name user_id
              first_name nik_name selected_project document_type is_image).
Proof.
  split; [|apply total_try; intros; apply total_ret].
  apply spec_try; [|intros; apply spec_ret; constructor].
  destruct (negb (w_gemini_configured w)); [apply spec_ret; constructor|].
  eapply (spec_bind _ (fun _ => True)).
  { destruct is_image;
      (eapply spec_bind; [apply spec_emit; reflexivity|]; intros _ _;
       apply spec_lift; intros; exact I). }
  intros [analysis0|] _; [|apply spec_ret; constructor].
  eapply (spec_bind _ (fun _ => True)).
  { destruct (_ && _); [|apply spec_ret; exact I].
    apply spec_try; [apply spec_enrich; reflexivity|].
    intros; apply spec_ret; exact I. }
  intros analysis1 _. apply google_services_spec.
Qed.

(** C2.  In every world and for every input, [_process_document_pipeline]
    returns a [ProcessingResult] (it never raises), and so does
    [_process_with_google_services]; each result returned satisfies the
    invariant: on success exactly one of the remote link and the pair of
    local paths is there, with [is_local_processing] true exactly in the
    local case; on failure none of the three is there. *)
Theorem processing_result_invariant (w : world) (file_path file_name : pystr)
    (user_id : Z) (first_name : pystr) (nik_name selected_project : option pystr)
    (document_type : option Sheet) (is_image : bool)
    (analysis_ : DocumentAnalysis) (rt : runtime) :
  (exists rt' r,
     _process_document_pipeline w file_path file_name user_id first_name
       nik_name selected_project document_type is_image rt = (rt', Ok r)
     /\ result_invariant r)
  /\ (exists rt' r,
        _process_with_google_services w analysis_ user_id first_name
          file_path file_name selected_project document_type rt = (rt', Ok r)
        /\ result_invariant r).
Proof.
  split.
  - destruct (pipeline_spec w file_path file_name user_id first_name nik_name
                selected_project document_type is_image) as [Hspec Htotal].
    destruct (Htotal rt) as [r Hr]. destruct (Hspec rt) as [_ Hres].
    rewrite Hr in Hres.
    destruct (_process_document_pipeline _ _ _ _ _ _ _ _ _ rt) as [rt' r'].
    simpl in Hr. subst r'. exists rt', r.
    split; [reflexivity|apply built_result_invariant, Hres].
  - destruct (google_services_spec w analysis_ user_id first_name file_path
                file_name selected_project document_type) as [Hspec Htotal].
    destruct (Htotal rt) as [r Hr]. destruct (Hspec rt) as [_ Hres].
    rewrite Hr in Hres.
    destruct (_process_with_google_services _ _ _ _ _ _ _ _ rt) as [rt' r'].
    simpl in Hr. subst r'. exists rt', r.
    split; [reflexivity|apply built_result_invariant, Hres].
Qed.

Lemma local_or_failure_no_link (r : ProcessingResult) :
  local_or_failure r -> google_sheet_url r = None.
Proof.
  intros [(msg & ->)|(a & excel & json & ->)]; reflexivity.
Qed.

Section Unresolved.
Variable w : world.
Variable selected_project : option pystr.
Hypothesis unresolved :
  truthy_opt (resolve_spreadsheet_id w selected_project) = false.

Variable user_id : Z.
Variable first_name file_path file_name : pystr.
Variable document_type : option Sheet.

(** With an unresolved identifier, [_process_with_google_services] is the
    local fallback, entered after at most the local set-up of the
    spreadsheet client. *)
Lemma google_services_unresolved (analysis_ : DocumentAnalysis)
    (rt : runtime) :
  exists pre,
    (pre = [] \/ pre = [SheetsCredentials])
    /\ _process_with_google_services w analysis_ user_id first_name
         file_path file_name selected_project document_type rt
       = _process_with_local_storage w analysis_ user_id first_name
           file_path file_name selected_project document_type
           {| trace := trace rt ++ pre; files := files rt |}.
Proof.
  destruct (local_storage_spec any_effect (fun _ => eq_refl)
              (fun _ => eq_refl) w analysis_ user_id first_name file_path
              file_name selected_project document_type) as [_ Htotal].
  unfold _process_with_google_services, try_except, any_exception, bind, lift.
  destruct document_type as [s|]; simpl.
  - exists [SheetsCredentials]. split; [right; reflexivity|].
    rewrite add_data_unresolved by exact unresolved. simpl.
    destruct (Htotal {| trace := trace rt ++ [SheetsCredentials];
                        files := files rt |}) as [r Hr].
    destruct (_process_with_local_storage _ _ _ _ _ _ _ _ _) as [rt' r'].
    simpl in Hr. subst r'. reflexivity.
  - exists []. split; [left; reflexivity|].
    rewrite app_nil_r. destruct rt; reflexivity.
Qed.

Lemma google_services_unresolved_spec (analysis_ : DocumentAnalysis) :
  spec not_remote_sheet local_or_failure
    (_process_with_google_services w analysis_ user_id first_name
       file_path file_name selected_project document_type).
Proof.
  intros rt.
  destruct (google_services_unresolved analysis_ rt) as (pre & Hpre & ->).
  destruct (local_storage_spec not_remote_sheet (fun _ => eq_refl)
              (fun _ => eq_refl) w analysis_ user_id first_name file_path
              file_name selected_project document_type) as [Hspec _].
  destruct (Hspec {| trace := trace rt ++ pre; files := files rt |})
    as [(added & Htr & Hq) Hres].
  split.
  - exists (pre ++ added). rewrite Htr. simpl. rewrite app_assoc.
    split; [reflexivity|]. rewrite forallb_app, Hq.
    destruct Hpre as [->| ->]; reflexivity.
  - destruct (snd _); [apply Hres|exact I].
Qed.

Lemma pipeline_unresolved_spec (nik_name : option pystr) (is_image : bool) :
  spec not_remote_sheet local_or_failure
    (_process_document_pipeline w file_path file_name user_id first_name
       nik_name selected_project document_type is_image).
Proof.
  assert (Hfail : forall msg, local_or_failure (failure_result msg))
    by (intros msg; left; eauto).
  apply spec_try; [|intros; apply spec_ret, Hfail].
  destruct (negb (w_gemini_configured w)); [apply spec_ret, Hfail|].
  eapply (spec_bind _ (fun _ => True)).
  { destruct is_image;
      (eapply spec_bind; [apply spec_emit; reflexivity|]; intros _ _;
       apply spec_lift; intros; exact I). }
  intros [analysis0|] _; [|apply spec_ret, Hfail].
  eapply (spec_bind _ (fun _ => True)).
  { destruct (_ && _); [|apply spec_ret; exact I].
    apply spec_try; [apply spec_enrich; reflexivity|].
    intros; apply spec_ret; exact I. }
  intros analysis1 _. apply google_services_unresolved_spec.
Qed.

End Unresolved.

(** C3.  Whenever the identifier of the remote spreadsheet of the selected
    project cannot be resolved (no project, or no identifier in the
    mapping): [_process_with_google_services] is [_process_with_local_storage]
    entered after at most the local set-up of the spreadsheet client; and
    the whole pipeline returns a result that is a failure or carries the two
    local artifacts, never a remote link, having made no request to the
    remote spreadsheet (no open, no header, no append). *)
Theorem unresolved_project_goes_local (w : world)
    (file_path file_name : pystr) (user_id : Z) (first_name : pystr)
    (nik_name selected_project : option pystr) (document_type : option Sheet)
    (is_image : bool) (analysis_ : DocumentAnalysis) (rt : runtime) :
  truthy_opt (resolve_spreadsheet_id w selected_project) = false ->
  (exists pre,
     (pre = [] \/ pre = [SheetsCredentials])
     /\ _process_with_google_services w analysis_ user_id first_name
          file_path file_name selected_project document_type rt
        = _process_with_local_storage w analysis_ user_id first_name
            file_path file_name selected_project document_type
            {| trace := trace rt ++ pre; files := files rt |})
  /\ (exists rt' r added,
        _process_document_pipeline w file_path file_name user_id first_name
          nik_name selected_project document_type is_image rt = (rt', Ok r)
        /\ local_or_failure r
        /\ google_sheet_url r = None
        /\ trace rt' = trace rt ++ added
        /\ forallb not_remote_sheet added = true).
Proof.
  intros Hun. split.
  - apply google_services_unresolved, Hun.
  - destruct (pipeline_spec w file_path file_name user_id first_name nik_name
                selected_project document_type is_image) as [_ Htotal].
    destruct (Htotal rt) as [r Hr].
    destruct (pipeline_unresolved_spec w selected_project Hun user_id
                first_name file_path file_name document_type nik_name
                is_image rt) as [(added & Htr & Hq) Hres].
    rewrite Hr in Hres.
    destruct (_process_document_pipeline _ _ _ _ _ _ _ _ _ rt) as [rt' r'].
    simpl in *. subst r'. exists rt', r, added.
    repeat split; try assumption. apply local_or_failure_no_link, Hres.
Qed.

(** C5.  When no Gemini service is configured, the pipeline returns at
    once: the result is a failure whose message contains "недоступен", and
    the run has made no call at all (the trace and the files are as they
    were), so nothing was sent over the network and nothing was retried. *)
Theorem no_gemini_service_fails_fast (w : world) (file_path file_name : pystr)
    (user_id : Z) (first_name : pystr) (nik_name selected_project : option pystr)
    (document_type : option Sheet) (is_image : bool) (rt : runtime) :
  w_gemini_configured w = false ->
  exists r msg,
    _process_document_pipeline w file_path file_name user_id first_name
      nik_name selected_project document_type is_image rt = (rt, Ok r)
    /\ success r = false
    /\ error_message r = Some msg
    /\ contains (py "недоступен") msg = true.
Proof.
  intros Hg.
  unfold _process_document_pipeline, try_except, any_exception, ret.
  rewrite Hg. simpl negb. cbv iota.
  eexists. eexists. split; [reflexivity|].
  split; [reflexivity|]. split; [reflexivity|].
  vm_compute. reflexivity.
Qed.

(* ===================================================================== *)
(** * Properties of the upload handlers                                   *)
(* ===================================================================== *)

Section QuietRules.
Context {A B : Type}.

Lemma quiet_ret (a : A) : quiet (ret a).
Proof.
  intros rt. split; [exists []; simpl; rewrite app_nil_r; reflexivity|].
  reflexivity.
Qed.

Lemma quiet_raise (e : exn) : quiet (raise e : M runtime A).
Proof.
  intros rt. split; [exists []; simpl; rewrite app_nil_r; reflexivity|].
  reflexivity.
Qed.

Lemma quiet_lift (r : res A) : quiet (lift r).
Proof.
  intros rt. split; [exists []; simpl; rewrite app_nil_r; reflexivity|].
  reflexivity.
Qed.

Lemma quiet_bind (m : M runtime A) (k : A -> M runtime B) :
  quiet m -> (forall a, quiet (k a)) -> quiet (bind m k).
Proof.
  intros Hm Hk rt. unfold bind.
  destruct (Hm rt) as [(added & Htr) Hf].
  destruct (m rt) as [rt1 [a|e]]; simpl in *.
  - destruct (Hk a rt1) as [(added' & Htr') Hf'].
    split; [|etrans; eassumption].
    exists (added ++ added'). rewrite Htr', Htr, app_assoc. reflexivity.
  - split; [eauto|exact Hf].
Qed.

Lemma quiet_try (catches : exn -> bool) (body : M runtime A)
    (handler : exn -> M runtime A) :
  quiet body -> (forall e, quiet (handler e)) ->
  quiet (try_except catches body handler).
Proof.
  intros Hb Hh rt. unfold try_except.
  destruct (Hb rt) as [(added & Htr) Hf].
  destruct (body rt) as [rt1 [a|e]]; simpl in *.
  - split; [eauto|exact Hf].
  - destruct (catches e); [|split; [eauto|exact Hf]].
    destruct (Hh e rt1) as [(added' & Htr') Hf'].
    split; [|etrans; eassumption].
    exists (added ++ added'). rewrite Htr', Htr, app_assoc. reflexivity.
Qed.

End QuietRules.

Lemma quiet_emit (e : effect) : quiet (emit e).
Proof.
  intros rt. split; [exists [e]; reflexivity|reflexivity].
Qed.

Lemma quiet_get : quiet (get : M runtime runtime).
Proof.
  intros rt. split; [exists []; simpl; rewrite app_nil_r; reflexivity|].
  reflexivity.
Qed.

Lemma quiet_remove_file (path : pystr) : quiet (remove_file path).
Proof.
  intros rt. split; [exists []; simpl; rewrite app_nil_r; reflexivity|].
  simpl. apply subseteq_difference_l. reflexivity.
Qed.

Lemma quiet_unlink (w : world) (path : pystr) : quiet (unlink w path).
Proof.
  unfold unlink.
  apply quiet_bind; [apply quiet_emit|]. intros _.
  apply quiet_bind; [apply quiet_get|]. intros rt.
  destruct (bool_decide _); [|apply quiet_raise].
  destruct (w_unlink_refused w path); [apply quiet_raise|apply quiet_remove_file].
Qed.

Ltac quiet_steps :=
  repeat first
    [ apply quiet_ret | apply quiet_raise | apply quiet_lift | apply quiet_emit
    | apply quiet_get | apply quiet_remove_file | apply quiet_unlink
    | apply quiet_try; [|intros ?] | apply quiet_bind; [|intros ?] ].

Lemma quiet_send_success (w : world) (result : ProcessingResult) :
  quiet (_send_success_result w result).
Proof.
  unfold _send_success_result.
  apply quiet_try; [|intros ?; quiet_steps].
  apply quiet_bind; [quiet_steps|]. intros analysis_.
  apply quiet_bind; [quiet_steps|]. intros _.
  apply quiet_bind; [quiet_steps|]. intros _.
  apply quiet_bind.
  - destruct (is_local_processing result); [|quiet_steps].
    destruct (local_excel_path result) as [excel|]; [|quiet_steps].
    apply quiet_bind; [quiet_steps|]. intros rt.
    destruct (bool_decide _); quiet_steps.
  - intros _. apply quiet_bind; [|intros ?; quiet_steps].
    destruct (da_items analysis_); quiet_steps.
Qed.

Lemma quiet_send_error (w : world) (msg : option pystr) :
  quiet (_send_error_result w msg).
Proof. unfold _send_error_result. quiet_steps. Qed.

Lemma quiet_report_handler_error (w : world) : quiet (report_handler_error w).
Proof. unfold report_handler_error. quiet_steps. Qed.

(** The guarded [file_path.unlink()]: it is recorded, it raises nothing
    past its [except], and unless the operating system refuses, the file is
    not there afterwards. *)
Lemma unlink_caught (w : world) (path : pystr) (rt : runtime) :
  exists rt',
    try_except any_exception (unlink w path) (fun _ => ret tt) rt = (rt', Ok tt)
    /\ trace rt' = trace rt ++ [Unlink path]
    /\ files rt' ⊆ files rt
    /\ (w_unlink_refused w path = false -> path ∉ files rt').
Proof.
  unfold unlink, try_except, any_exception, bind, emit, modify, get,
    remove_file, raise, ret. simpl.
  destruct (bool_decide (path ∈ files rt)) eqn:Hin.
  - destruct (w_unlink_refused w path) eqn:Href; simpl.
    + eexists. repeat split; simpl; [reflexivity|discriminate].
    + eexists. repeat split; simpl.
      * apply subseteq_difference_l. reflexivity.
      * intros _. apply not_elem_of_difference. right.
        apply elem_of_singleton. reflexivity.
  - simpl. apply bool_decide_eq_false in Hin.
    eexists. repeat split; simpl; [reflexivity|]. intros _. exact Hin.
Qed.

(** From the call of the pipeline on: the pipeline returns a result, the
    temporary file is unlinked next, and no later step brings it back. *)
Lemma run_pipeline_and_report_cleanup (w : world) (sess : session)
    (file_path file_name : pystr) (user_id : Z) (first_name : pystr)
    (username : option pystr) (is_image : bool) (rt : runtime) :
  exists rt2 result after,
    _process_document_pipeline w file_path file_name user_id first_name
      username (selected_project sess) (document_type sess) is_image rt
    = (rt2, Ok result)
    /\ trace (fst (run_pipeline_and_report w sess file_path file_name user_id
                     first_name username is_image rt))
       = trace rt2 ++ Unlink file_path :: after
    /\ (w_unlink_refused w file_path = false ->
        file_path ∉ files (fst (run_pipeline_and_report w sess file_path
                                  file_name user_id first_name username
                                  is_image rt))).
Proof.
  destruct (pipeline_spec w file_path file_name user_id first_name username
              (selected_project sess) (document_type sess) is_image)
    as [_ Htotal].
  destruct (Htotal rt) as [result Hres].
  destruct (_process_document_pipeline _ _ _ _ _ _ _ _ _ rt) as [rt2 r] eqn:Hpipe.
  simpl in Hres. subst r.
  exists rt2, result.
  destruct (unlink_caught w file_path rt2) as (rt3 & Hunlink & Htr3 & Hf3 & Hgone).
  set (rest :=
         (try_except any_exception
            (emit BotDeleteMessage ;;; lift (w_delete_message w))
            (fun _ => ret tt) ;;;
          if success result then _send_success_result w result
          else _send_error_result w (error_message result))).
  assert (Heq : run_pipeline_and_report w sess file_path file_name user_id
                  first_name username is_image rt = rest rt3).
  { unfold run_pipeline_and_report. unfold bind at 1. rewrite Hpipe.
    unfold bind at 1. rewrite Hunlink. reflexivity. }
  rewrite Heq.
  assert (Hq : quiet rest).
  { subst rest. apply quiet_bind; [quiet_steps|]. intros _.
    destruct (success result);
      [apply quiet_send_success|apply quiet_send_error]. }
  destruct (Hq rt3) as [(added & Htr) Hf].
  exists added. split; [reflexivity|]. split.
  - rewrite Htr, Htr3, <- app_assoc. reflexivity.
  - intros Href Hin. apply (Hgone Href).
    apply (proj1 (elem_of_subseteq _ _) Hf), Hin.
Qed.

(** Both handlers have this shape: the steps before the pipeline, the
    pipeline with the clean-up and the report, and the [except] around
    them. *)
Lemma handler_cleanup (w : world) (sess : session)
    (file_path file_name : pystr) (user_id : Z) (first_name : pystr)
    (username : option pystr) (is_image : bool) (rt : runtime) :
  reaches_pipeline w = true ->
  let handler :=
    try_except any_exception
      (emit BotSetState ;;;
       lift (w_set_state w) ;;;
       emit BotAnswer ;;;
       lift (w_answer w) ;;;
       emit BotGetFile ;;;
       lift (w_get_file w) ;;;
       download_file w file_path ;;;
       emit BotGetData ;;;
       lift (w_get_data w) ;;;
       run_pipeline_and_report w sess file_path file_name user_id first_name
         username is_image)
      (fun _ => report_handler_error w) in
  exists rt1 rt2 result after,
    file_path ∈ files rt1
    /\ _process_document_pipeline w file_path file_name user_id first_name
         username (selected_project sess) (document_type sess) is_image rt1
       = (rt2, Ok result)
    /\ trace (fst (handler rt)) = trace rt2 ++ Unlink file_path :: after
    /\ (w_unlink_refused w file_path = false ->
        file_path ∉ files (fst (handler rt))).
Proof.
  intros Hreach handler. subst handler. unfold reaches_pipeline in Hreach.
  destruct (w_set_state w) as [[]|] eqn:H1; try discriminate.
  destruct (w_answer w) as [[]|] eqn:H2; try discriminate.
  destruct (w_get_file w) as [[]|] eqn:H3; try discriminate.
  destruct (w_download w) as [[]|] eqn:H4; try discriminate.
  destruct (w_get_data w) as [[]|] eqn:H5; try discriminate.
  remember (run_pipeline_and_report w sess file_path file_name user_id
              first_name username is_image) as tail eqn:Htail.
  set (rt1 := {| trace := ((((trace rt ++ [BotSetState]) ++ [BotAnswer])
                            ++ [BotGetFile]) ++ [BotDownload file_path])
                          ++ [BotGetData];
                 files := files rt ∪ {[ file_path ]} |}).
  assert (Hbody :
    try_except any_exception
      (emit BotSetState ;;; lift (Ok tt) ;;; emit BotAnswer ;;; lift (Ok tt) ;;;
       emit BotGetFile ;;; lift (Ok tt) ;;; download_file w file_path ;;;
       emit BotGetData ;;; lift (Ok tt) ;;; tail)
      (fun _ => report_handler_error w) rt
    = match tail rt1 with
      | (rt', Ok a) => (rt', Ok a)
      | (rt', Raise e) => report_handler_error w rt'
      end).
  { unfold try_except, any_exception, bind, emit, lift, download_file,
      modify, create_file. rewrite H4. reflexivity. }
  rewrite Hbody. clear Hbody.
  destruct (run_pipeline_and_report_cleanup w sess file_path file_name user_id
              first_name username is_image rt1)
    as (rt2 & result & after & Hpipe & Htr & Hgone).
  rewrite <- Htail in Htr, Hgone.
  exists rt1, rt2, result.
  destruct (tail rt1) as [rt' [a|e]]; simpl in Htr, Hgone.
  - exists after. split; [|split; [exact Hpipe|split; assumption]].
    simpl. apply elem_of_union. right. apply elem_of_singleton. reflexivity.
  - destruct (quiet_report_handler_error w rt') as [(added & Hadd) Hsub].
    exists (after ++ added).
    split; [simpl; apply elem_of_union; right; apply elem_of_singleton;
            reflexivity|].
    split; [exact Hpipe|]. split.
    + rewrite Hadd, Htr, <- app_assoc. reflexivity.
    + intros Href Hin. apply (Hgone Href).
      apply (proj1 (elem_of_subseteq _ _) Hsub), Hin.
Qed.

(** X28.  In the photo handler and in the document handler, in every world
    in which the steps before the pipeline succeed (so that the pipeline is
    called, on the downloaded file): the pipeline returns a result, success
    or failure; the very next effect is the unlink of the temporary file;
    and, unless the operating system refuses that unlink, the temporary
    file does not exist when the handler ends, whatever happens after. *)
Theorem temporary_file_is_removed (w : world) (sess : session) (user_id : Z)
    (first_name : pystr) (username : option pystr)
    (file_id file_name : pystr) (is_image : bool) (rt : runtime) :
  reaches_pipeline w = true ->
  (let path := photo_file_path user_id file_id in
   let final := fst (process_document_photo w sess user_id first_name
                       username file_id rt) in
   exists rt1 rt2 result after,
     path ∈ files rt1
     /\ _process_document_pipeline w path (photo_file_name user_id file_id)
          user_id first_name username (selected_project sess)
          (document_type sess) true rt1 = (rt2, Ok result)
     /\ trace final = trace rt2 ++ Unlink path :: after
     /\ (w_unlink_refused w path = false -> path ∉ files final))
  /\ (let path := document_file_path user_id file_name in
      let final := fst (process_document_file w sess user_id first_name
                          username file_name is_image rt) in
      exists rt1 rt2 result after,
        path ∈ files rt1
        /\ _process_document_pipeline w path file_name user_id first_name
             username (selected_project sess) (document_type sess) is_image
             rt1 = (rt2, Ok result)
        /\ trace final = trace rt2 ++ Unlink path :: after
        /\ (w_unlink_refused w path = false -> path ∉ files final)).
Proof.
  intros Hreach. split.
  - exact (handler_cleanup w sess (photo_file_path user_id file_id)
             (photo_file_name user_id file_id) user_id first_name username
             true rt Hreach).
  - exact (handler_cleanup w sess (document_file_path user_id file_name)
             file_name user_id first_name username is_image rt Hreach).
Qed.

Local Close Scope nat_scope.

(* ===================================================================== *)
(** * The properties at sample inputs                                     *)
(* ===================================================================== *)

(** With the limit of the pipeline, the schedule that takes the items in
    turn returns. *)
Lemma sequential_schedule_returns (items : list DocumentItem) (s : Sheet)
    (perplexity_service : market_client) (max_concurrent : Z) :
  (1 <= max_concurrent)%Z ->
  exists l,
    fst (extend_items items (IsSheet s) perplexity_service max_concurrent
           (sequential_schedule (length items))) = Returned l.
Proof.
  intros Hk. destruct items as [|item0 items0]; [exists []; reflexivity|].
  rewrite extend_items_outcome by lia.
  remember (item0 :: items0) as items eqn:Hitems.
  pose proof (reachable_invariant items s perplexity_service
                (Z.to_nat max_concurrent)
                (sequential_schedule (length items))) as HI.
  unfold gather. rewrite (inv_raised _ _ _ _ _ HI).
  rewrite sequential_schedule_finishes by lia. eauto.
Qed.

(** C10 at the example of the specification. *)
Lemma parse_response_total_witness :
  exists d : parse_dict,
    @_parse_response latin_cyrillic spec_example = Ok d
    /\ prices_nonneg d
    /\ (@no_analysis_label latin_cyrillic spec_example ->
        analysis d = strip spec_example)
    /\ (forall e, snd (@parse_body latin_cyrillic spec_example parse_initial)
                  = Raise e -> analysis d = strip spec_example).
Proof.
  exact (parse_response_total latin_cyrillic spec_example).
Defined.

(** C6 at the failing input, a labelled line with a second number: the
    first numeric token of the line is 280 and the parser returns 28050,
    the digits of both numbers read as one; the same line without the
    second number gives 280. *)
Lemma later_numbers_change_the_price :
  @is_average_line latin_cyrillic (strip line_with_two_numbers) = true
  /\ spec_first_numeric_token line_with_two_numbers = Some (280 # 1)
  /\ (exists d, @_parse_response latin_cyrillic line_with_two_numbers = Ok d
                /\ average_price d = Some (28050 # 1))
  /\ (exists d, @_parse_response latin_cyrillic line_with_one_number = Ok d
                /\ average_price d = Some (280 # 1))
  /\ Some (28050 # 1) <> spec_first_numeric_token line_with_two_numbers.
Proof.
  split; [vm_compute; reflexivity|].
  split; [vm_compute; reflexivity|].
  split; [eexists; split; vm_compute; reflexivity|].
  split; [eexists; split; vm_compute; reflexivity|].
  vm_compute. discriminate.
Qed.

(** C1 at two items, the first lookup answering and the second failing,
    under the schedule that starts both calls before either ends. *)
Lemma extend_items_returns_all_witness :
  (sample_items = [] \/ (1 <= 2)%Z)
  /\ exists l,
       fst (extend_items sample_items (IsSheet MATERIALS) sample_client 2
              [Acquire 1; Acquire 0; Complete 1; Complete 0]) = Returned l
       /\ length l = length sample_items
       /\ forall i item, sample_items !! i = Some item ->
            exists r, l !! i = Some r
              /\ corresponds item r
              /\ ext_class r = MATERIALS
              /\ (lookup_failed (sample_client i) -> no_market_data r).
Proof.
  split; [right; lia|].
  destruct (extend_items_returns_all sample_items MATERIALS sample_client 2
              [Acquire 1; Acquire 0; Complete 1; Complete 0])
    as (_ & _ & Hret); [right; lia|].
  eexists. split; [vm_compute; reflexivity|].
  apply Hret. vm_compute. reflexivity.
Defined.

(** C1 as the specification words it fails where the limit is below one:
    on one item, with the limit 0 the call stays suspended under every
    schedule and returns nothing, and with the limit -1 it raises. *)
Lemma limit_below_one_returns_no_items :
  (forall schedule l,
      fst (extend_items [sample_cement] (IsSheet MATERIALS) sample_client 0
             schedule) <> Returned l)
  /\ (forall schedule,
        fst (extend_items [sample_cement] (IsSheet MATERIALS) sample_client
               (-1) schedule) = Raised ValueError).
Proof.
  split.
  - intros schedule l. rewrite zero_limit_never_returns. discriminate.
  - intros schedule. reflexivity.
Qed.

(** C9 as amended, at two items and the limit 1: after an attempt to start
    both calls, the invocation is suspended with one call issued and in
    flight, and it can be continued until it returns two items, with two
    calls issued. *)
Lemma extend_items_bounded_concurrency_witness :
  (0 <= 1)%Z
  /\ (let st := run sample_items MATERIALS sample_client
                  (initial_state sample_items (Z.to_nat 1))
                  [Acquire 0; Acquire 1] in
      extend_items sample_items (IsSheet MATERIALS) sample_client 1
        [Acquire 0; Acquire 1] = (Pending, [call_args sample_cement])
      /\ in_flight st = 1%nat
      /\ (Z.of_nat (in_flight st) <= 1)%Z
      /\ exists rest l,
           fst (extend_items sample_items (IsSheet MATERIALS) sample_client 1
                  ([Acquire 0; Acquire 1] ++ rest)) = Returned l
           /\ length l = 2%nat
           /\ length (snd (extend_items sample_items (IsSheet MATERIALS)
                             sample_client 1 ([Acquire 0; Acquire 1] ++ rest)))
              = 2%nat).
Proof.
  split; [lia|]. cbv zeta.
  pose proof (extend_items_bounded_concurrency sample_items MATERIALS
                sample_client 1 [Acquire 0; Acquire 1]) as H.
  cbv zeta in H. destruct H as (Hlink & Hbound & Hlive & _); [lia|].
  split; [vm_compute; reflexivity|].
  split; [vm_compute; reflexivity|].
  split; [exact Hbound|].
  destruct Hlive as (_ & _ & rest & l & _ & Hret & Hl & Hc & _); [lia|].
  exists rest, l. split; [exact Hret|]. split; [exact Hl|exact Hc].
Defined.

(** C9 as the specification words it fails where the limit is below one:
    on one item, with the limit 0 the invocation stays suspended under
    every schedule and no call is ever issued, so that the item is never
    scheduled; with the limit -1 the invocation raises before any call. *)
Lemma zero_limit_schedules_nothing :
  (forall schedule,
      extend_items [sample_cement] (IsSheet MATERIALS) sample_client 0 schedule
      = (Pending, []))
  /\ ~ (exists schedule,
          call_args sample_cement
          ∈ snd (extend_items [sample_cement] (IsSheet MATERIALS) sample_client
                   0 schedule))
  /\ (forall schedule,
        extend_items [sample_cement] (IsSheet MATERIALS) sample_client (-1)
          schedule = (Raised ValueError, [])).
Proof.
  assert (forall schedule,
             extend_items [sample_cement] (IsSheet MATERIALS) sample_client 0
               schedule = (Pending, [])) as Hall.
  { intros schedule. unfold extend_items.
    change (0 <? 0)%Z with false. cbv iota.
    change (Z.to_nat 0) with 0%nat. rewrite zero_limit_run. reflexivity. }
  split; [exact Hall|]. split; [|intros schedule; reflexivity].
  intros [schedule Hin]. rewrite Hall in Hin. simpl in Hin.
  apply elem_of_nil in Hin. exact Hin.
Qed.

(** C4 as the specification words it fails on the empty list: with a document type
    that is no [Sheet], [extend_items] returns the empty list and raises
    nothing. *)
Lemma empty_list_is_not_rejected :
  extend_items [] PyNone sample_client 2 [] = (Returned [], [])
  /\ fst (extend_items [] PyNone sample_client 2 []) <> Raised ValueError.
Proof.
  split; [reflexivity|discriminate].
Qed.

(** C4 as amended, at one item and the document type [None]. *)
Lemma extend_items_rejects_unknown_type_witness :
  [sample_cement] <> []
  /\ extend_items [sample_cement] PyNone sample_client 2
       (sequential_schedule 1) = (Raised ValueError, []).
Proof.
  split; [discriminate|].
  apply extend_items_rejects_unknown_type; [discriminate|].
  intros s. discriminate.
Defined.

(** C7 at an item whose lookup answers with the analysis "  n/a  ". *)
Lemma short_analysis_is_absent_witness :
  exists l r,
    fst (extend_items [sample_cement] (IsSheet MATERIALS) sample_client 2
           (sequential_schedule 1)) = Returned l
    /\ l !! 0%nat = Some r
    /\ market_analysis r = None.
Proof.
  eexists. eexists.
  split; [vm_compute; reflexivity|].
  split; [reflexivity|].
  refine (proj1 (short_analysis_is_absent [sample_cement] MATERIALS
                   sample_client 2 (sequential_schedule 1) _ _)
            0%nat _ _ _ _ _).
  - vm_compute. reflexivity.
  - reflexivity.
  - reflexivity.
  - vm_compute. lia.
Defined.

(** C2 in a world where the project has a sheet and everything succeeds. *)
Lemma processing_result_invariant_witness :
  exists rt' r,
    _process_document_pipeline
      (sample_world true {[ py "template_test" := py "abc" ]})
      (py "temp_image.jpg") (py "image.jpg") 7 (py "Ann") None
      (Some (py "template_test")) (Some MATERIALS) true empty_runtime
    = (rt', Ok r)
    /\ result_invariant r.
Proof.
  exact (proj1 (processing_result_invariant
                  (sample_world true {[ py "template_test" := py "abc" ]})
                  (py "temp_image.jpg") (py "image.jpg") 7 (py "Ann") None
                  (Some (py "template_test")) (Some MATERIALS) true
                  sample_analysis empty_runtime)).
Defined.

(** C3 in a world whose project mapping is empty. *)
Lemma unresolved_project_goes_local_witness :
  truthy_opt (resolve_spreadsheet_id (sample_world true ∅)
                (Some (py "template_test"))) = false
  /\ exists rt' r added,
       _process_document_pipeline (sample_world true ∅)
         (py "temp_image.jpg") (py "image.jpg") 7 (py "Ann") None
         (Some (py "template_test")) (Some MATERIALS) true empty_runtime
       = (rt', Ok r)
       /\ local_or_failure r
       /\ google_sheet_url r = None
       /\ trace rt' = trace empty_runtime ++ added
       /\ forallb not_remote_sheet added = true.
Proof.
  split; [vm_compute; reflexivity|].
  apply (unresolved_project_goes_local (sample_world true ∅)
           (py "temp_image.jpg") (py "image.jpg") 7 (py "Ann") None
           (Some (py "template_test")) (Some MATERIALS) true
           sample_analysis empty_runtime).
  vm_compute. reflexivity.
Defined.

(** C5 in a world without Gemini service. *)
Lemma no_gemini_service_fails_fast_witness :
  w_gemini_configured (sample_world false ∅) = false
  /\ exists r msg,
       _process_document_pipeline (sample_world false ∅)
         (py "temp_image.jpg") (py "image.jpg") 7 (py "Ann") None
         (Some (py "template_test")) (Some MATERIALS) true empty_runtime
       = (empty_runtime, Ok r)
       /\ success r = false
       /\ error_message r = Some msg
       /\ contains (py "недоступен") msg = true.
Proof.
  split; [reflexivity|].
  apply no_gemini_service_fails_fast. reflexivity.
Defined.

(** X28 in a world where every step succeeds: the temporary file of the
    photo handler is gone when the handler ends. *)
Lemma temporary_file_is_removed_witness :
  reaches_pipeline (sample_world true ∅) = true
  /\ photo_file_path 7 (py "AgAD") ∉
       files (fst (process_document_photo (sample_world true ∅)
                     sample_session 7 (py "Ann") None (py "AgAD")
                     empty_runtime)).
Proof.
  split; [reflexivity|].
  destruct (proj1 (temporary_file_is_removed (sample_world true ∅)
                     sample_session 7 (py "Ann") None (py "AgAD")
                     (py "scan.pdf") false empty_runtime eq_refl))
    as (rt1 & rt2 & result & after & _ & _ & _ & Hgone).
  apply Hgone. reflexivity.
Defined.

(** X27 at the example of the specification: the average price is the
    number 280,5 that follows the colon of the first line. *)
Lemma price_is_single_numeric_token_witness :
  exists (d : parse_dict) (v : Q),
    @_parse_response latin_cyrillic spec_example = Ok d
    /\ spec_first_numeric_token (strip (py " 280,5 грн")) = Some v
    /\ v = 561 # 2
    /\ average_price d = Some v.
Proof.
  destruct (price_is_single_numeric_token latin_cyrillic spec_example
              [] [py "МИНИМАЛЬНАЯ ЦЕНА: 240 грн"; py "АНАЛИЗ: test source X"]
              (py "СРЕДНЯЯ ЦЕНА: 280,5 грн") (py " 280,5 грн")
              [] (py "280,5") (py " грн"))
    as (d & v & Hd & Hv & Havg & _); try (vm_compute; reflexivity).
  exists d, v. split; [exact Hd|]. split; [exact Hv|]. split.
  - vm_compute in Hv. congruence.
  - apply Havg; vm_compute; reflexivity.
Defined.

(* ===================================================================== *)
(** * Further properties of the market-response parser                    *)
(* ===================================================================== *)

Lemma lstrip_app_nonspace (l : pystr) (c : codepoint) :
  isspace c = false -> lstrip (l ++ [c]) = lstrip l ++ [c].
Proof.
  intros Hc. induction l as [|a l IH]; simpl.
  - rewrite Hc. reflexivity.
  - destruct (isspace a); [exact IH|reflexivity].
Qed.


Lemma lstrip_head (s : pystr) :
  match lstrip s with
  | [] => True
  | c :: _ => isspace c = false
  end.
Proof.
  induction s as [|a s IH]; simpl; [exact I|].
  destruct (isspace a) eqn:E; [exact IH|exact E].
Qed.

Lemma rstrip_cons_nonspace (c : codepoint) (r : pystr) :
  isspace c = false -> rstrip (c :: r) = c :: rstrip r.
Proof.
  intros Hc. unfold rstrip. simpl.
  rewrite lstrip_app_nonspace by exact Hc.
  rewrite rev_app_distr. reflexivity.
Qed.





Lemma unlabelled_spec {cm : CaseMap} (l : pystr) :
  unlabelled l = true ->
  is_average_line (strip l) = false
  /\ is_min_line (strip l) = false
  /\ is_analysis_line (strip l) = false.
Proof.
  unfold unlabelled.
  destruct (is_average_line (strip l)), (is_min_line (strip l)),
    (is_analysis_line (strip l)); simpl; intros H; try discriminate; auto.
Qed.

(** The loop passes lines without label and changes nothing. *)
Lemma for_each_unlabelled {cm : CaseMap} (lines rest : list pystr)
    (d : parse_dict) :
  forallb unlabelled rest = true ->
  for_each rest (parse_line lines) d = (d, Ok tt).
Proof.
  intros H. apply forallb_Forall_true in H.
  induction H as [|l rest Hl _ IH]; simpl; [reflexivity|].
  destruct (unlabelled_spec l Hl) as (Ha & Hm & Hn).
  unfold bind, parse_line. rewrite Ha, Hm, Hn. exact IH.
Qed.

(** X1.  A response in which no line carries one of the three labels (the
    empty and the blank response included) gives a dictionary without
    prices whose analysis is the whole trimmed response. *)
Theorem parse_response_without_labels (cm : CaseMap) (response_text : pystr) :
  forallb unlabelled (split cp_newline (strip response_text)) = true ->
  _parse_response response_text
  = Ok {| average_price := None; min_price := None;
          analysis := strip response_text |}.
Proof.
  intros H.
  unfold _parse_response, try_except, parse_body, bind, get, modify, ret.
  rewrite (for_each_unlabelled _ _ parse_initial H). reflexivity.
Qed.




(* ===================================================================== *)
(** * Properties of search_market_price and of the enrichment             *)
(* ===================================================================== *)

Lemma parse_response_nonneg {cm : CaseMap} (text : pystr) (d : parse_dict) :
  _parse_response text = Ok d -> prices_nonneg d.
Proof.
  intros Hd. destruct (parse_response_prices text) as (d' & Hd' & Ha & Hm).
  assert (d' = d) as -> by congruence.
  set (lines := split cp_newline (strip text)) in *.
  assert (Hinv : prices_nonneg
                   (fst (for_each lines (parse_line lines) parse_initial))).
  { apply (for_each_invariant prices_nonneg).
    - intros x s. apply parse_line_nonneg.
    - split; intros q; discriminate. }
  destruct Hinv as [H1 H2].
  split; intros q Hq; [apply H1|apply H2]; congruence.
Qed.

(** What [search_market_price] returns never holds a negative price. *)
Lemma search_market_price_nonneg {cm : CaseMap} (reply : api_reply)
    (md : market_data) :
  search_market_price reply = Ok md -> prices_nonneg md.
Proof.
  destruct reply as [e| |[text|e]]; simpl; try discriminate.
  - intros [= <-]. split; intros q; discriminate.
  - apply parse_response_nonneg.
Qed.

Lemma validate_market_prices_nonneg (v : option Q) :
  (forall q, v = Some q -> (0 <= q)%Q) -> validate_market_prices v = Ok v.
Proof.
  destruct v as [q|]; [|reflexivity]. intros H.
  unfold validate_market_prices, Qneg_bool.
  rewrite (proj2 (Qle_bool_iff 0 q)) by (apply H; reflexivity). reflexivity.
Qed.

(** With prices that are not negative the constructor accepts the market
    data, and the item keeps them. *)
Lemma process_single_item_data {St} (document_type : Sheet)
    (item : DocumentItem) (md : market_data) (s : St) :
  prices_nonneg md ->
  exists r,
    process_single_item document_type item (Ok md) s = (s, Ok r)
    /\ average_market_price r = average_price md
    /\ min_market_price r = min_price md
    /\ market_analysis r = validate_market_analysis (if_truthy (analysis md)).
Proof.
  intros [Ha Hm].
  unfold process_single_item, try_except, bind, lift, new_extended_item, ret.
  rewrite (validate_market_prices_nonneg _ Ha),
    (validate_market_prices_nonneg _ Hm).
  eexists. split; [reflexivity|]. simpl. auto.
Qed.

(** What a run of [extend_items] that returns has returned: one item per
    input item, each the one that [process_single_item] builds from the
    input item and the answer to its lookup. *)
Lemma extend_items_returned (items : list DocumentItem) (s : Sheet)
    (perplexity_service : market_client) (max_concurrent : Z)
    (schedule : list event) (l : list ExtendedItem) :
  fst (extend_items items (IsSheet s) perplexity_service max_concurrent
         schedule) = Returned l ->
  length l = length items
  /\ forall i item, items !! i = Some item ->
       exists r, l !! i = Some r
         /\ snd (process_single_item s item (perplexity_service i) tt) = Ok r.
Proof.
  intros Hret. destruct items as [|item0 items0].
  { simpl in Hret. injection Hret as <-. split; [reflexivity|].
    intros i item H. discriminate. }
  destruct (Z.ltb_spec max_concurrent 0) as [Hneg|Hk].
  { unfold extend_items in Hret.
    destruct (Z.ltb_spec max_concurrent 0); [discriminate|lia]. }
  rewrite extend_items_outcome in Hret by exact Hk.
  remember (item0 :: items0) as items eqn:Hitems.
  pose proof (reachable_invariant items s perplexity_service
                (Z.to_nat max_concurrent) schedule) as HI.
  unfold gather in Hret. rewrite (inv_raised _ _ _ _ _ HI) in Hret.
  destruct (all_finished _) eqn:Hfin; [|discriminate].
  injection Hret as <-.
  apply (finished_results _ _ _ _ _ HI Hfin).
Qed.

(** X4.  In the pipeline the lookups of [extend_items] are calls of
    [search_market_price].  In every list that the enrichment returns, the
    item at each position carries what the exchange of its lookup has come
    to: no market data when the exchange or the reading of the first choice
    has failed; no prices and the analysis "Информация не найдена" when the
    body has no choice; and for a text, the two prices that
    [_parse_response] reads in it, unchanged, with the analysis that the
    validator makes of the parsed one.  The constructor never refuses what
    the parser has read. *)
Theorem market_data_reaches_the_items (cm : CaseMap)
    (items : list DocumentItem) (s : Sheet) (replies : nat -> api_reply)
    (max_concurrent : Z) (schedule : list event) (l : list ExtendedItem) :
  fst (extend_items items (IsSheet s) (perplexity_client replies)
         max_concurrent schedule) = Returned l ->
  forall i r, l !! i = Some r ->
    match replies i with
    | RequestFailed _ | FirstChoice (Raise _) => no_market_data r
    | NoChoices =>
        average_market_price r = None
        /\ min_market_price r = None
        /\ market_analysis r = Some (py "Информация не найдена")
    | FirstChoice (Ok response_text) =>
        exists d, _parse_response response_text = Ok d
          /\ average_market_price r = average_price d
          /\ min_market_price r = min_price d
          /\ market_analysis r
             = validate_market_analysis (if_truthy (analysis d))
    end.
Proof.
  intros Hret i r Hr.
  destruct (extend_items_returned _ _ _ _ _ _ Hret) as [Hlen Hith].
  destruct (lookup_lt_is_Some_2 items i) as [item Hitem].
  { rewrite <- Hlen. eapply lookup_lt_Some, Hr. }
  destruct (Hith i item Hitem) as (r' & Hr' & Hb).
  assert (r' = r) as -> by congruence.
  unfold perplexity_client, search_market_price in Hb.
  pose proof (search_market_price_nonneg (replies i)) as Hnonneg.
  unfold search_market_price in Hnonneg.
  destruct (replies i) as [e| |[text|e]]; cbv beta iota in Hb, Hnonneg.
  - destruct (process_single_item_ok s item (Raise e) tt)
      as (r0 & Hr0 & _ & _ & Hfail & _).
    rewrite Hr0 in Hb. injection Hb as <-. apply Hfail. exact I.
  - destruct (process_single_item_data s item not_found tt
                (Hnonneg _ eq_refl)) as (r0 & Hr0 & Ha & Hm & Hmarket).
    rewrite Hr0 in Hb. injection Hb as <-.
    split; [exact Ha|]. split; [exact Hm|]. rewrite Hmarket.
    vm_compute. reflexivity.
  - destruct (_parse_response text) as [d|e] eqn:Hd.
    + destruct (process_single_item_data s item d tt (Hnonneg _ eq_refl))
        as (r0 & Hr0 & Ha & Hm & Hmarket).
      apply (f_equal snd) in Hr0. simpl in Hr0.
      pose proof (eq_trans (eq_sym Hr0) Hb) as E. injection E as ->.
      exists d. auto.
    + exfalso.
      unfold _parse_response in Hd.
      destruct (try_except _ _ _ _) as [d [[]|e']] eqn:Hrun;
        [discriminate|].
      unfold try_except, any_exception, modify in Hrun.
      destruct (parse_body text parse_initial) as [d1 [[]|e1]];
        discriminate.
  - destruct (process_single_item_ok s item (Raise e) tt)
      as (r0 & Hr0 & _ & _ & Hfail & _).
    rewrite Hr0 in Hb. injection Hb as <-. apply Hfail. exact I.
Qed.

Lemma finished_not_waiting (ts : list task_state) :
  forallb is_finished ts = true -> length (List.filter is_waiting ts) = 0%nat.
Proof.
  induction ts as [|t ts IH]; simpl; [reflexivity|].
  destruct t; simpl; try discriminate; exact IH.
Qed.

(** X5.  [extend_single_item] with a supported type never raises (the
    [result[0]] always finds its item), returns under the schedule that
    admits the one task and delivers its answer, and what it returns is the
    item that [process_single_item] builds, from one call to the market
    client; with any other value of the type it raises [ValueError] before
    any call, for every item. *)
Theorem extend_single_item_returns (item : DocumentItem)
    (document_type : pyvalue) (perplexity_service : market_client)
    (schedule : list event) :
  match document_type with
  | IsSheet s =>
      (forall e, fst (extend_single_item item document_type perplexity_service
                        schedule) <> RaisedItem e)
      /\ (exists r,
            extend_single_item item document_type perplexity_service
              [Acquire 0; Complete 0] = (ReturnedItem r, [call_args item]))
      /\ (forall r,
            fst (extend_single_item item document_type perplexity_service
                   schedule) = ReturnedItem r ->
            snd (process_single_item s item (perplexity_service 0%nat) tt)
            = Ok r
            /\ corresponds item r
            /\ ext_class r = s
            /\ (lookup_failed (perplexity_service 0%nat) -> no_market_data r)
            /\ snd (extend_single_item item document_type perplexity_service
                      schedule) = [call_args item])
  | _ =>
      extend_single_item item document_type perplexity_service schedule
      = (RaisedItem ValueError, [])
  end.
Proof.
  destruct document_type as [s| |v]; [|reflexivity|reflexivity].
  assert (Hshape : forall sch,
            match fst (extend_items [item] (IsSheet s) perplexity_service 2 sch)
            with
            | Returned l =>
                exists r, l = [r]
                  /\ snd (process_single_item s item (perplexity_service 0%nat) tt)
                     = Ok r
                  /\ snd (extend_items [item] (IsSheet s) perplexity_service 2
                            sch) = [call_args item]
            | Raised _ => False
            | Pending => True
            end).
  { intros sch.
    destruct (fst (extend_items [item] (IsSheet s) perplexity_service 2 sch))
      as [l|e|] eqn:E; [| |exact I].
    - destruct (extend_items_returned _ _ _ _ _ _ E) as [Hlen Hith].
      destruct (Hith 0%nat item eq_refl) as (r & Hr & Hb).
      exists r. split; [|split; [exact Hb|]].
      + destruct l as [|r0 [|r1 l]]; simpl in Hlen, Hr; try discriminate.
        congruence.
      + rewrite extend_items_outcome in E by lia.
        rewrite extend_items_calls by lia.
        pose proof (reachable_invariant [item] s perplexity_service
                      (Z.to_nat 2) sch) as HI.
        unfold gather in E. rewrite (inv_raised _ _ _ _ _ HI) in E.
        destruct (all_finished _) eqn:Hfin; [|discriminate].
        pose proof (inv_calls _ _ _ _ _ HI) as Hc.
        unfold waiting in Hc. rewrite (finished_not_waiting _ Hfin) in Hc.
        simpl in Hc.
        assert (Hin : call_args item ∈ calls
                  (run [item] s perplexity_service
                     (initial_state [item] (Z.to_nat 2)) sch)).
        { apply (inv_issued _ _ _ _ _ HI 0%nat item eq_refl).
          intros Hw.
          assert (Hf : is_finished Waiting = true).
          { unfold all_finished in Hfin.
            rewrite forallb_forall in Hfin. apply Hfin.
            apply list_elem_of_In. eapply list_elem_of_lookup_2, Hw. }
          discriminate. }
        destruct (calls _) as [|c [|c' cs]]; simpl in Hc; try lia.
        apply list_elem_of_singleton in Hin. congruence.
    - rewrite extend_items_outcome in E by lia.
      pose proof (reachable_invariant [item] s perplexity_service
                    (Z.to_nat 2) sch) as HI.
      unfold gather in E. rewrite (inv_raised _ _ _ _ _ HI) in E.
      destruct (all_finished _); discriminate. }
  split; [|split].
  - intros e. specialize (Hshape schedule). unfold extend_single_item.
    destruct (extend_items [item] (IsSheet s) perplexity_service 2 schedule)
      as [[l|e0|] issued]; simpl in *.
    + destruct Hshape as (r & -> & _). discriminate.
    + contradiction.
    + discriminate.
  - destruct (sequential_schedule_returns [item] s perplexity_service 2)
      as [l Hl]; [lia|].
    change (sequential_schedule (length [item]))
      with [Acquire 0; Complete 0] in Hl.
    specialize (Hshape [Acquire 0; Complete 0]). unfold extend_single_item.
    destruct (extend_items [item] (IsSheet s) perplexity_service 2
                [Acquire 0; Complete 0]) as [result issued]; simpl in *.
    subst result. destruct Hshape as (r & -> & _ & ->). exists r. reflexivity.
  - intros r. specialize (Hshape schedule). unfold extend_single_item.
    destruct (extend_items [item] (IsSheet s) perplexity_service 2 schedule)
      as [[l|e0|] issued]; simpl in *; try discriminate.
    destruct Hshape as (r0 & -> & Hb & ->). intros [= <-].
    split; [exact Hb|].
    destruct (process_single_item_ok s item (perplexity_service 0%nat) tt)
      as (r' & Hr' & Hcorr & Hcls & Hfail & _).
    rewrite Hr' in Hb. simpl in Hb. injection Hb as <-.
    rewrite class_for_id in Hcls. auto.
Qed.

(** X6.  A limit below one, on a list that is not empty: with a negative
    limit the semaphore refuses its value and [extend_items] raises
    [ValueError]; with the limit zero no task is ever admitted and the call
    stays suspended under every schedule.  In both cases no call to the
    market client is made. *)
Theorem limits_below_one (item : DocumentItem) (items : list DocumentItem)
    (s : Sheet) (perplexity_service : market_client) (max_concurrent : Z)
    (schedule : list event) :
  (max_concurrent <= 0)%Z ->
  extend_items (item :: items) (IsSheet s) perplexity_service max_concurrent
    schedule
  = (if (max_concurrent <? 0)%Z then Raised ValueError else Pending, []).
Proof.
  intros Hk. unfold extend_items.
  destruct (Z.ltb_spec max_concurrent 0) as [Hneg|Hpos]; [reflexivity|].
  assert (max_concurrent = 0%Z) as -> by lia.
  change (Z.to_nat 0) with 0%nat. rewrite zero_limit_run. reflexivity.
Qed.

(** X7.  The list that [extend_items] returns is the list of what
    [process_single_item] builds item by item: it depends neither on the
    order in which the event loop has run the tasks nor on the limit of the
    semaphore, so that two runs that return return the same list. *)
Theorem result_is_schedule_independent (items : list DocumentItem)
    (s : Sheet) (perplexity_service : market_client)
    (max_concurrent1 max_concurrent2 : Z) (schedule1 schedule2 : list event)
    (l1 l2 : list ExtendedItem) :
  fst (extend_items items (IsSheet s) perplexity_service max_concurrent1
         schedule1) = Returned l1 ->
  fst (extend_items items (IsSheet s) perplexity_service max_concurrent2
         schedule2) = Returned l2 ->
  map Ok l1
  = imap (fun i item =>
            snd (process_single_item s item (perplexity_service i) tt)) items
  /\ l1 = l2.
Proof.
  assert (Hmap : forall k sch l,
            fst (extend_items items (IsSheet s) perplexity_service k sch)
            = Returned l ->
            map Ok l
            = imap (fun i item =>
                      snd (process_single_item s item (perplexity_service i) tt))
                items).
  { intros k sch l Hret.
    destruct (extend_items_returned _ _ _ _ _ _ Hret) as [Hlen Hith].
    apply list_eq. intros i.
    rewrite list_lookup_fmap, list_lookup_imap.
    destruct (items !! i) as [item|] eqn:Hitem; simpl.
    - destruct (Hith i item Hitem) as (r & -> & ->). reflexivity.
    - apply lookup_ge_None in Hitem.
      rewrite (proj2 (lookup_ge_None l i)) by lia. reflexivity. }
  intros H1 H2. split; [eapply Hmap, H1|].
  pose proof (Hmap _ _ _ H1) as E1. pose proof (Hmap _ _ _ H2) as E2.
  rewrite <- E2 in E1.
  clear -E1. revert l2 E1.
  induction l1 as [|a l1 IH]; intros [|b l2] E; simpl in E;
    try discriminate; [reflexivity|].
  injection E as -> E. f_equal. apply IH, E.
Qed.

Lemma build_rows_units {St} (l : list any_item) (st : St) :
  forallb has_unit l = true -> build_rows l st = (st, Ok (length l)).
Proof.
  induction l as [|a l IH]; simpl; [reflexivity|].
  unfold has_unit at 1, bind, lift, unit_lower.
  destruct (item_unit (base_item a)); simpl; [|discriminate].
  intros H. rewrite (IH H). reflexivity.
Qed.

Lemma build_rows_missing_unit {St} (l : list any_item) (st : St) :
  forallb has_unit l = false -> build_rows l st = (st, Raise AttributeError).
Proof.
  induction l as [|a l IH]; simpl; [discriminate|].
  unfold has_unit at 1, bind, lift, unit_lower.
  destruct (item_unit (base_item a)); simpl; [|reflexivity].
  intros H. rewrite (IH H). reflexivity.
Qed.

(** X8.  Every item that the enrichment returns has a unit (the default
    unit where the analysed item had none), so that the rows of the
    spreadsheet and of the Excel table can be built from the enriched list,
    one per item; from a list with an item that has no unit they cannot:
    [item.unit.lower()] raises [AttributeError]. *)
Theorem enriched_items_make_rows {St} (items : list DocumentItem) (s : Sheet)
    (perplexity_service : market_client) (max_concurrent : Z)
    (schedule : list event) (l : list ExtendedItem) (st : St) :
  fst (extend_items items (IsSheet s) perplexity_service max_concurrent
         schedule) = Returned l ->
  build_rows (map Enriched l) st = (st, Ok (length items))
  /\ (forallb has_unit (map Plain items) = false ->
      build_rows (map Plain items) st = (st, Raise AttributeError)).
Proof.
  intros Hret.
  destruct (extend_items_returned _ _ _ _ _ _ Hret) as [Hlen Hith].
  split; [|apply build_rows_missing_unit].
  rewrite <- Hlen, <- (length_map Enriched l). apply build_rows_units.
  apply forallb_forall. intros a Ha.
  apply in_map_iff in Ha. destruct Ha as (r & <- & Hr).
  apply list_elem_of_In, list_elem_of_lookup_1 in Hr. destruct Hr as [i Hi].
  destruct (lookup_lt_is_Some_2 items i) as [item Hitem].
  { rewrite <- Hlen. eapply lookup_lt_Some, Hi. }
  destruct (Hith i item Hitem) as (r' & Hr' & Hb).
  assert (r' = r) as -> by congruence.
  destruct (process_single_item_ok s item (perplexity_service i) tt)
    as (r0 & Hr0 & Hcorr & _).
  rewrite Hr0 in Hb. injection Hb as <-.
  destruct Hcorr as (_ & _ & Hu & _).
  unfold has_unit. simpl. rewrite Hu.
  destruct (item_unit item); reflexivity.
Qed.

(* ===================================================================== *)
(** * Further properties of the pipeline                                  *)
(* ===================================================================== *)

(** X9.  When Gemini is configured and its analysis gives no document (it
    answers [None], or the call raises), the pipeline ends there with a
    failure: it has made the Gemini request and nothing else, neither a
    market lookup nor a request to a spreadsheet nor a local file. *)
Theorem failed_analysis_ends_the_pipeline (w : world)
    (file_path file_name : pystr) (user_id : Z) (first_name : pystr)
    (nik_name selected_project : option pystr) (document_type : option Sheet)
    (is_image : bool) (rt : runtime) :
  w_gemini_configured w = true ->
  (forall a, gemini_answer w is_image <> Ok (Some a)) ->
  exists msg,
    _process_document_pipeline w file_path file_name user_id first_name
      nik_name selected_project document_type is_image rt
    = ({| trace := trace rt ++ [gemini_request is_image file_path];
          files := files rt |},
       Ok (failure_result msg)).
Proof.
  intros Hg Hno.
  unfold _process_document_pipeline, try_except, bind, emit, modify, lift, ret.
  rewrite Hg. unfold gemini_answer, gemini_request in *.
  destruct is_image; simpl.
  - destruct (w_analyze_invoice_image w) as [[a|]|e]; simpl.
    + exfalso. apply (Hno a). reflexivity.
    + eexists. reflexivity.
    + eexists. reflexivity.
  - destruct (w_analyze_document w) as [[a|]|e]; simpl.
    + exfalso. apply (Hno a). reflexivity.
    + eexists. reflexivity.
    + eexists. reflexivity.
Qed.

Lemma answered_ok (r : res unit) : answered r = true -> r = Ok tt.
Proof. destruct r as [[]|e]; [reflexivity|discriminate]. Qed.

(** What [add_data_to_spreadsheet] does for an identifier that is there. *)
Lemma add_data_to_spreadsheet_run (w : world) (analysis_ : DocumentAnalysis)
    (user_id : Z) (first_name id sheet_name : pystr) (rt : runtime) :
  truthy id = true ->
  if remote_steps_succeed w analysis_ then
    add_data_to_spreadsheet w analysis_ user_id first_name (Some id)
      sheet_name rt
    = ({| trace := trace rt ++ remote_requests id sheet_name analysis_;
          files := files rt |}, Ok (Some (w_spreadsheet_url w)))
  else
    exists added,
      add_data_to_spreadsheet w analysis_ user_id first_name (Some id)
        sheet_name rt
      = ({| trace := trace rt ++ added; files := files rt |}, Ok None).
Proof.
  intros Hid.
  unfold remote_steps_succeed, remote_requests, add_data_to_spreadsheet,
    try_except, bind, emit, modify, lift, ret.
  rewrite Hid.
  destruct (w_sheets_client w); simpl; [|eexists; reflexivity].
  destruct (w_open_by_key w) as [[]|e1]; simpl;
    [|eexists; rewrite <- ?app_assoc; reflexivity].
  destruct (w_prepare_sheet w) as [[]|e2]; simpl;
    [|eexists; rewrite <- ?app_assoc; reflexivity].
  destruct (forallb has_unit (da_items analysis_)) eqn:Hu; simpl.
  - rewrite (build_rows_units _ _ Hu).
    destruct (da_items analysis_) as [|a0 rest]; simpl.
    + rewrite <- ?app_assoc. reflexivity.
    + destruct (w_append_rows w) as [[]|e3]; simpl.
      * rewrite <- ?app_assoc. reflexivity.
      * eexists. rewrite <- ?app_assoc. reflexivity.
  - rewrite (build_rows_missing_unit _ _ Hu).
    eexists. rewrite <- ?app_assoc. reflexivity.
Qed.

(** X10.  When the project resolves to an identifier and every remote step
    succeeds, the result carries the link of the spreadsheet and nothing
    local: no file is created and no local artifact is written; the
    requests made are the client, the spreadsheet, the sheet named after
    the document type, and one request that appends a row per item, which
    is left out when the document has no item. *)
Theorem remote_success_writes_nothing_local (w : world)
    (analysis_ : DocumentAnalysis) (user_id : Z)
    (first_name file_path file_name : pystr)
    (selected_project : option pystr) (s : Sheet) (id : pystr)
    (rt : runtime) :
  resolve_spreadsheet_id w selected_project = Some id ->
  truthy id = true ->
  remote_steps_succeed w analysis_ = true ->
  truthy (w_spreadsheet_url w) = true ->
  _process_with_google_services w analysis_ user_id first_name file_path
    file_name selected_project (Some s) rt
  = ({| trace := trace rt ++ remote_requests id (Sheet_value s) analysis_;
        files := files rt |},
     Ok (remote_result analysis_ (w_spreadsheet_url w))).
Proof.
  intros Hres Hid Hsteps Hurl.
  pose proof (add_data_to_spreadsheet_run w analysis_ user_id first_name id
                (Sheet_value s) rt Hid) as Hrun.
  rewrite Hsteps in Hrun.
  unfold _process_with_google_services, try_except, bind, lift, value_of, ret.
  rewrite Hres, Hrun. cbv beta iota. unfold truthy_opt, or_default.
  rewrite Hurl. reflexivity.
Qed.

(** The local storage never raises. *)
Lemma local_storage_returns (w : world) (analysis_ : DocumentAnalysis)
    (user_id : Z) (first_name file_path file_name : pystr)
    (selected_project : option pystr) (document_type : option Sheet)
    (rt : runtime) :
  exists rt' r,
    _process_with_local_storage w analysis_ user_id first_name file_path
      file_name selected_project document_type rt = (rt', Ok r).
Proof.
  unfold _process_with_local_storage, try_except, any_exception.
  destruct (bind _ _ rt) as [rt' [r|e]]; [eauto|].
  unfold ret. eauto.
Qed.

(** X11.  When a remote step fails (no client, the spreadsheet or the sheet
    cannot be opened, the rows cannot be built or appended), the failure is
    not reported: [_process_with_google_services] is the local storage, run
    after the requests made so far, whatever the project and the type. *)
Theorem remote_failure_falls_back_to_local (w : world)
    (analysis_ : DocumentAnalysis) (user_id : Z)
    (first_name file_path file_name : pystr)
    (selected_project : option pystr) (document_type : option Sheet)
    (rt : runtime) :
  remote_steps_succeed w analysis_ = false ->
  exists added,
    _process_with_google_services w analysis_ user_id first_name file_path
      file_name selected_project document_type rt
    = _process_with_local_storage w analysis_ user_id first_name file_path
        file_name selected_project document_type
        {| trace := trace rt ++ added; files := files rt |}.
Proof.
  intros Hsteps.
  assert (Hsame : forall rt0 : runtime,
            {| trace := trace rt0 ++ []; files := files rt0 |} = rt0).
  { intros [t f]. simpl. rewrite app_nil_r. reflexivity. }
  destruct document_type as [s|].
  2:{ exists []. rewrite Hsame.
      unfold _process_with_google_services, try_except, bind, lift, value_of.
      reflexivity. }
  destruct (truthy_opt (resolve_spreadsheet_id w selected_project)) eqn:Hres.
  - destruct (resolve_spreadsheet_id w selected_project) as [id|] eqn:Hid;
      [|discriminate].
    simpl in Hres.
    pose proof (add_data_to_spreadsheet_run w analysis_ user_id first_name id
                  (Sheet_value s) rt Hres) as Hrun.
    rewrite Hsteps in Hrun. destruct Hrun as [added Hrun].
    exists added.
    unfold _process_with_google_services at 1, try_except at 1, bind, lift,
      value_of.
    rewrite Hid, Hrun. simpl.
    destruct (_process_with_local_storage _ _ _ _ _ _ _ _ _) as [rt' [r|e]] eqn:E;
      [reflexivity|].
    exfalso.
    destruct (local_storage_returns w analysis_ user_id first_name file_path
                file_name selected_project (Some s)
                {| trace := trace rt ++ added; files := files rt |})
      as (rt0 & r & Hr).
    rewrite E in Hr. discriminate.
  - exists [SheetsCredentials].
    unfold _process_with_google_services at 1, try_except at 1, bind, lift,
      value_of.
    rewrite (add_data_unresolved w analysis_ user_id first_name _
               (Sheet_value s) rt Hres). simpl.
    destruct (_process_with_local_storage _ _ _ _ _ _ _ _ _) as [rt' [r|e]] eqn:E;
      [reflexivity|].
    exfalso.
    destruct (local_storage_returns w analysis_ user_id first_name file_path
                file_name selected_project (Some s)
                {| trace := trace rt ++ [SheetsCredentials]; files := files rt |})
      as (rt0 & r & Hr).
    rewrite E in Hr. discriminate.
Qed.

(** X12.  When the Excel table has been written and the JSON file cannot
    be (its directory or the file itself), the local storage reports the
    failure "Не удалось сохранить JSON файл" and the Excel file stays on
    the disk: nothing removes it. *)
Theorem json_failure_leaves_the_excel_file (w : world)
    (analysis_ : DocumentAnalysis) (user_id : Z)
    (first_name file_path file_name : pystr)
    (selected_project : option pystr) (document_type : option Sheet)
    (rt : runtime) :
  answered (w_excel_mkdir w) = true ->
  forallb has_unit (da_items analysis_) = true ->
  answered (w_excel_save w) = true ->
  answered (w_json_mkdir w) && answered (w_json_save w) = false ->
  let excel := artifact_path (py "excel_data") (py ".xlsx") analysis_ user_id
                 selected_project document_type in
  exists rt',
    _process_with_local_storage w analysis_ user_id first_name file_path
      file_name selected_project document_type rt
    = (rt', Ok (failure_result (py "Не удалось сохранить JSON файл")))
    /\ files rt' = files rt ∪ {[ excel ]}
    /\ excel ∈ files rt'.
Proof.
  intros Hmk Hu Hsave Hjson excel.
  apply answered_ok in Hmk, Hsave.
  assert (Hgoal : exists rt',
            _process_with_local_storage w analysis_ user_id first_name
              file_path file_name selected_project document_type rt
            = (rt', Ok (failure_result (py "Не удалось сохранить JSON файл")))
            /\ files rt' = files rt ∪ {[ excel ]}).
  { unfold _process_with_local_storage, _create_local_excel, _save_local_json,
      try_except, bind, emit, modify, lift, create_file, ret.
    rewrite Hmk. simpl. rewrite (build_rows_units _ _ Hu). simpl.
    rewrite Hsave. simpl.
    destruct (w_json_mkdir w) as [[]|e1]; simpl.
    - destruct (w_json_save w) as [[]|e2]; simpl; [discriminate|].
      eexists. split; reflexivity.
    - eexists. split; reflexivity. }
  destruct Hgoal as (rt' & Hrun & Hfiles).
  exists rt'. split; [exact Hrun|]. split; [exact Hfiles|].
  rewrite Hfiles. apply elem_of_union_r, elem_of_singleton. reflexivity.
Qed.

Lemma set_items_same (analysis_ : DocumentAnalysis) :
  set_items analysis_ (da_items analysis_) = analysis_.
Proof. destruct analysis_. reflexivity. Qed.

Lemma for_each_emit_files {X} (xs : list X) (f : X -> effect) (rt : runtime) :
  exists rt', for_each xs (fun c => emit (f c)) rt = (rt', Ok tt)
              /\ files rt' = files rt.
Proof.
  revert rt. induction xs as [|x xs IH]; intros rt; simpl.
  - exists rt. split; reflexivity.
  - destruct (IH {| trace := trace rt ++ [f x]; files := files rt |})
      as (rt' & Hrun & Hf).
    exists rt'. split; [|exact Hf].
    unfold bind.
    change (emit (f x) rt)
      with ({| trace := trace rt ++ [f x]; files := files rt |}, Ok tt).
    exact Hrun.
Qed.

(** X13.  When Gemini has analysed the document, the market service is
    configured and the document type is set, the analysis that the pipeline
    stores holds one enriched item per analysed item, in the order of the
    analysis, each of the class of the document type and with the fields of
    its analysed item; no file has been touched before the storing. *)
Theorem pipeline_stores_enriched_items (w : world)
    (file_path file_name : pystr) (user_id : Z) (first_name : pystr)
    (nik_name selected_project : option pystr) (s : Sheet) (is_image : bool)
    (analysis0 : DocumentAnalysis) (rt : runtime) :
  w_gemini_configured w = true ->
  gemini_answer w is_image = Ok (Some analysis0) ->
  w_perplexity_configured w = true ->
  exists (l : list ExtendedItem) (rt1 : runtime),
    _process_document_pipeline w file_path file_name user_id first_name
      nik_name selected_project (Some s) is_image rt
    = _process_with_google_services w
        (set_items analysis0 (map Enriched l)) user_id first_name file_path
        file_name selected_project (Some s) rt1
    /\ files rt1 = files rt
    /\ length l = length (da_items analysis0)
    /\ forall i a, da_items analysis0 !! i = Some a ->
         exists r, l !! i = Some r
           /\ corresponds (base_item a) r
           /\ ext_class r = s.
Proof.
  intros Hg Hans Hp.
  assert (Hgem : forall rt0 : runtime,
            (if is_image
             then emit (GeminiImage file_path) ;;; lift (w_analyze_invoice_image w)
             else emit (GeminiDocument file_path) ;;; lift (w_analyze_document w))
              rt0
            = ({| trace := trace rt0 ++ [gemini_request is_image file_path];
                  files := files rt0 |}, Ok (Some analysis0))).
  { intros rt0. unfold gemini_answer, gemini_request in *.
    destruct is_image; unfold bind, emit, modify, lift; simpl; rewrite Hans;
      reflexivity. }
  assert (Htotal : forall a rt0,
            exists rt' r,
              _process_with_google_services w a user_id first_name file_path
                file_name selected_project (Some s) rt0 = (rt', Ok r)).
  { intros a rt0.
    destruct (proj2 (google_services_spec w a user_id first_name file_path
                       file_name selected_project (Some s)) rt0) as [r Hr].
    destruct (_process_with_google_services _ _ _ _ _ _ _ _ _) as [rt' r'].
    simpl in Hr. subst r'. eauto. }
  destruct (da_items analysis0) as [|a0 rest] eqn:Hitems.
  - exists [], {| trace := trace rt ++ [gemini_request is_image file_path];
                  files := files rt |}.
    split; [|split; [reflexivity|split; [reflexivity|]]].
    + unfold _process_document_pipeline, try_except at 1.
      rewrite Hg. cbv beta iota delta [negb].
      unfold bind at 1. rewrite Hgem.
      rewrite Hp, Hitems. cbv beta iota delta [andb].
      unfold bind at 1, ret at 1.
      change (map Enriched []) with (@nil any_item).
      rewrite <- Hitems, set_items_same.
      destruct (Htotal analysis0
                  {| trace := trace rt ++ [gemini_request is_image file_path];
                     files := files rt |}) as (rt' & r & ->).
      reflexivity.
    + intros i a H. discriminate.
  - destruct (sequential_schedule_returns (map base_item (da_items analysis0))
                s (w_market w) 2) as [l Hl]; [lia|].
    destruct (extend_items_returned _ _ _ _ _ _ Hl) as [Hlen Hith].
    destruct (extend_items (map base_item (da_items analysis0)) (IsSheet s)
                (w_market w) 2
                (sequential_schedule
                   (length (map base_item (da_items analysis0)))))
      as [result issued] eqn:Hext.
    simpl in Hl. subst result.
    destruct (for_each_emit_files issued
                (fun c => MarketSearch (fst c) (snd c))
                {| trace := trace rt ++ [gemini_request is_image file_path];
                   files := files rt |}) as (rt1 & Hemit & Hfiles).
    exists l, rt1.
    split; [|split; [exact Hfiles|split]].
    + unfold _process_document_pipeline, try_except at 1.
      rewrite Hg. cbv beta iota delta [negb].
      unfold bind at 1. rewrite Hgem.
      rewrite Hp. rewrite Hitems at 1. cbv beta iota delta [andb].
      unfold bind at 1, try_except at 1, enrich, as_pyvalue.
      rewrite Hext. unfold bind at 1. rewrite Hemit. unfold ret at 1.
      destruct (Htotal (set_items analysis0 (map Enriched l)) rt1)
        as (rt' & r & ->).
      reflexivity.
    + rewrite Hlen, length_map, Hitems. reflexivity.
    + intros i a Ha. rewrite <- Hitems in Ha.
      destruct (Hith i (base_item a)) as (r & Hr & Hb).
      { rewrite list_lookup_fmap, Ha. reflexivity. }
      exists r. split; [exact Hr|].
      destruct (process_single_item_ok s (base_item a) (w_market w i) tt)
        as (r' & Hr' & Hcorr & Hcls & _).
      rewrite Hr' in Hb. simpl in Hb. injection Hb as <-.
      rewrite class_for_id in Hcls. auto.
Qed.

(* ===================================================================== *)
(** * Further properties of the upload handlers                           *)
(* ===================================================================== *)

(** X14.  When the file has been downloaded and the reading of the
    conversation data then raises, the handler reports the error and ends
    without having run the pipeline: it never asks for the temporary file
    to be removed, and the file stays on the disk.  This holds for the
    photo handler and for the file handler. *)
Theorem early_failure_leaves_the_temporary_file (w : world) (sess : session)
    (user_id : Z) (first_name : pystr) (username : option pystr)
    (file_id file_name : pystr) (is_image : bool) (e : exn) (rt : runtime) :
  answered (w_set_state w) = true ->
  answered (w_answer w) = true ->
  answered (w_get_file w) = true ->
  answered (w_download w) = true ->
  w_get_data w = Raise e ->
  let report :=
    BotAnswer :: (if answered (w_error_answer w) then [BotClearState] else []) in
  (let path := photo_file_path user_id file_id in
   let final := fst (process_document_photo w sess user_id first_name
                       username file_id rt) in
   files final = files rt ∪ {[ path ]}
   /\ trace final
      = trace rt ++ [BotSetState; BotAnswer; BotGetFile; BotDownload path;
                     BotGetData] ++ report)
  /\ (let path := document_file_path user_id file_name in
      let final := fst (process_document_file w sess user_id first_name
                          username file_name is_image rt) in
      files final = files rt ∪ {[ path ]}
      /\ trace final
         = trace rt ++ [BotSetState; BotAnswer; BotGetFile; BotDownload path;
                        BotGetData] ++ report).
Proof.
  intros Hs Ha Hf Hd Hdata report. subst report.
  apply answered_ok in Hs, Ha, Hf, Hd.
  split.
  - unfold process_document_photo, try_except, bind, emit, modify, lift,
      download_file, create_file, report_handler_error.
    rewrite Hs, Ha, Hf, Hd, Hdata. simpl.
    destruct (w_error_answer w) as [[]|e1]; simpl;
      [destruct (w_clear_state w) as [[]|e2]; simpl|];
      (split; [reflexivity|rewrite <- ?app_assoc; reflexivity]).
  - unfold process_document_file, try_except, bind, emit, modify, lift,
      download_file, create_file, report_handler_error.
    rewrite Hs, Ha, Hf, Hd, Hdata. simpl.
    destruct (w_error_answer w) as [[]|e1]; simpl;
      [destruct (w_clear_state w) as [[]|e2]; simpl|];
      (split; [reflexivity|rewrite <- ?app_assoc; reflexivity]).
Qed.

(** X15.  [_send_success_result] removes the local Excel file exactly when
    the result is a local one, the file is there, both messages (the
    summary and the document) have been sent and the operating system does
    not refuse; the JSON file of the result is never removed; and for a
    remote result no file is touched. *)
Theorem local_excel_is_removed_once_sent (w : world)
    (analysis_ : DocumentAnalysis) (excel json url : pystr) (rt : runtime) :
  let final := fst (_send_success_result w
                      (local_result analysis_ excel json) rt) in
  files final
  = (if answered (w_send_result w) && answered (w_send_document w)
        && bool_decide (excel ∈ files rt)
        && negb (w_unlink_refused w excel)
     then files rt ∖ {[ excel ]} else files rt)
  /\ (json ∈ files rt -> json <> excel -> json ∈ files final)
  /\ files (fst (_send_success_result w (remote_result analysis_ url) rt))
     = files rt.
Proof.
  intros final.
  assert (Hfinal : files final
            = (if answered (w_send_result w) && answered (w_send_document w)
                  && bool_decide (excel ∈ files rt)
                  && negb (w_unlink_refused w excel)
               then files rt ∖ {[ excel ]} else files rt)).
  { subst final.
    unfold _send_success_result, unlink, remove_file, try_except, bind, emit,
      modify, lift, get, raise, ret.
    simpl.
    destruct (bool_decide (excel ∈ files rt)) eqn:Hin;
      destruct (w_send_result w) as [[]|e1], (w_send_document w) as [[]|e4],
        (w_error_answer w) as [[]|e2], (w_clear_state w) as [[]|e3],
        (da_items analysis_) as [|item0 items0];
      simpl; rewrite ?Hin; simpl;
      destruct (w_unlink_refused w excel); simpl;
      try destruct (w_send_items w) as [[]|e5]; reflexivity. }
  split; [exact Hfinal|]. split.
  - intros Hjson Hne. rewrite Hfinal.
    destruct (_ && _ && _ && _); [|exact Hjson].
    apply elem_of_difference. split; [exact Hjson|].
    intros Heq. apply elem_of_singleton in Heq. contradiction.
  - unfold _send_success_result, try_except, bind, emit, modify, lift, raise,
      ret.
    simpl.
    destruct (w_send_result w) as [[]|e1], (w_error_answer w) as [[]|e2],
      (w_clear_state w) as [[]|e3], (da_items analysis_) as [|item0 items0];
      simpl; try destruct (w_send_items w) as [[]|e5]; reflexivity.
Qed.

(** When the download breaks off and leaves the file it had begun, the
    handler ends in its [except] branch: the file is there at the end and
    no unlink has been asked for. *)
Lemma broken_download_run (w : world) (sess : session)
    (user_id : Z) (first_name : pystr) (username : option pystr)
    (file_id file_name : pystr) (is_image : bool) (e : exn) (rt : runtime) :
  answered (w_set_state w) = true ->
  answered (w_answer w) = true ->
  answered (w_get_file w) = true ->
  w_download w = Raise e ->
  w_download_leaves_file w = true ->
  let report :=
    BotAnswer :: (if answered (w_error_answer w) then [BotClearState] else []) in
  (let path := photo_file_path user_id file_id in
   let final := fst (process_document_photo w sess user_id first_name
                       username file_id rt) in
   files final = files rt ∪ {[ path ]}
   /\ trace final
      = trace rt ++ [BotSetState; BotAnswer; BotGetFile; BotDownload path]
          ++ report)
  /\ (let path := document_file_path user_id file_name in
      let final := fst (process_document_file w sess user_id first_name
                          username file_name is_image rt) in
      files final = files rt ∪ {[ path ]}
      /\ trace final
         = trace rt ++ [BotSetState; BotAnswer; BotGetFile; BotDownload path]
             ++ report).
Proof.
  intros Hs Ha Hf Hd Hleaves report. subst report.
  apply answered_ok in Hs, Ha, Hf.
  split.
  - unfold process_document_photo, try_except, bind, emit, modify, lift,
      download_file, create_file, report_handler_error, raise, ret.
    rewrite Hs, Ha, Hf, Hd, Hleaves. simpl.
    destruct (w_error_answer w) as [[]|e1]; simpl;
      [destruct (w_clear_state w) as [[]|e2]; simpl|];
      (split; [reflexivity|rewrite <- ?app_assoc; reflexivity]).
  - unfold process_document_file, try_except, bind, emit, modify, lift,
      download_file, create_file, report_handler_error, raise, ret.
    rewrite Hs, Ha, Hf, Hd, Hleaves. simpl.
    destruct (w_error_answer w) as [[]|e1]; simpl;
      [destruct (w_clear_state w) as [[]|e2]; simpl|];
      (split; [reflexivity|rewrite <- ?app_assoc; reflexivity]).
Qed.

(** C8 at a failing input: a photo, and a document, whose download breaks
    off after the temporary file has been created.  The handler answers
    with its error message and clears the state; it never asks for the
    temporary file to be removed, and the file is there when the handler
    ends. *)
Lemma broken_download_leaves_the_temporary_file :
  let w := sample_world_broken_download ClientError in
  let photo := photo_file_path 7 (py "AgAD") in
  let after_photo :=
    fst (process_document_photo w sample_session 7 (py "Ann") None
           (py "AgAD") empty_runtime) in
  let document := document_file_path 7 (py "scan.pdf") in
  let after_document :=
    fst (process_document_file w sample_session 7 (py "Ann") None
           (py "scan.pdf") false empty_runtime) in
  photo ∈ files after_photo
  /\ trace after_photo
     = [BotSetState; BotAnswer; BotGetFile; BotDownload photo; BotAnswer;
        BotClearState]
  /\ document ∈ files after_document
  /\ trace after_document
     = [BotSetState; BotAnswer; BotGetFile; BotDownload document; BotAnswer;
        BotClearState].
Proof.
  intros w photo after_photo document after_document.
  destruct (broken_download_run w sample_session 7 (py "Ann") None (py "AgAD")
              (py "scan.pdf") false ClientError empty_runtime
              eq_refl eq_refl eq_refl eq_refl eq_refl)
    as [[Hf1 Ht1] [Hf2 Ht2]].
  fold photo in Hf1, Ht1. fold document in Hf2, Ht2.
  fold w after_photo in Hf1, Ht1. fold w after_document in Hf2, Ht2.
  split; [rewrite Hf1; apply elem_of_union_r, elem_of_singleton; reflexivity|].
  split; [exact Ht1|].
  split; [rewrite Hf2; apply elem_of_union_r, elem_of_singleton; reflexivity|].
  exact Ht2.
Qed.

(* ===================================================================== *)
(** * The further properties at sample inputs                             *)
(* ===================================================================== *)

(** X1 at a response without labels. *)
Lemma parse_response_without_labels_witness :
  forallb (@unlabelled latin_cyrillic)
    (split cp_newline (strip (py "  цена неизвестна "))) = true
  /\ @_parse_response latin_cyrillic (py "  цена неизвестна ")
     = Ok {| average_price := None; min_price := None;
             analysis := strip (py "  цена неизвестна ") |}.
Proof.
  split; [vm_compute; reflexivity|].
  apply (parse_response_without_labels latin_cyrillic).
  vm_compute. reflexivity.
Defined.



(** X4 at two items, the second of which gets a body without choice. *)
Lemma market_data_reaches_the_items_witness :
  exists l r,
    fst (extend_items sample_items (IsSheet MATERIALS)
           (@perplexity_client latin_cyrillic sample_replies) 2
           (sequential_schedule 2)) = Returned l
    /\ l !! 1%nat = Some r
    /\ average_market_price r = None
    /\ min_market_price r = None
    /\ market_analysis r = Some (py "Информация не найдена").
Proof.
  eexists. eexists.
  split; [vm_compute; reflexivity|].
  split; [reflexivity|].
  refine (market_data_reaches_the_items latin_cyrillic sample_items MATERIALS
            sample_replies 2 (sequential_schedule 2) _ _ 1%nat _ _).
  - vm_compute. reflexivity.
  - reflexivity.
Defined.

(** X5 at one item, with a supported type and with none. *)
Lemma extend_single_item_returns_witness :
  (exists r,
     extend_single_item sample_cement (IsSheet MATERIALS) sample_client
       [Acquire 0; Complete 0] = (ReturnedItem r, [call_args sample_cement]))
  /\ extend_single_item sample_cement PyNone sample_client
       [Acquire 0; Complete 0] = (RaisedItem ValueError, []).
Proof.
  split.
  - exact (proj1 (proj2 (extend_single_item_returns sample_cement
                           (IsSheet MATERIALS) sample_client []))).
  - exact (extend_single_item_returns sample_cement PyNone sample_client
             [Acquire 0; Complete 0]).
Defined.

(** X6 at the limits zero and minus one. *)
Lemma limits_below_one_witness :
  (0 <= 0)%Z
  /\ extend_items sample_items (IsSheet MATERIALS) sample_client 0
       [Acquire 0; Complete 0] = (Pending, [])
  /\ extend_items sample_items (IsSheet MATERIALS) sample_client (-1)
       [Acquire 0; Complete 0] = (Raised ValueError, []).
Proof.
  split; [lia|]. split.
  - apply (limits_below_one sample_cement [sample_delivery] MATERIALS
             sample_client 0 [Acquire 0; Complete 0]). lia.
  - apply (limits_below_one sample_cement [sample_delivery] MATERIALS
             sample_client (-1) [Acquire 0; Complete 0]). lia.
Defined.

(** X7 at two runs: two slots with the second task admitted first, and one
    slot with the tasks in turn. *)
Lemma result_is_schedule_independent_witness :
  exists l1 l2,
    fst (extend_items sample_items (IsSheet MATERIALS) sample_client 2
           [Acquire 1; Acquire 0; Complete 1; Complete 0]) = Returned l1
    /\ fst (extend_items sample_items (IsSheet MATERIALS) sample_client 1
              (sequential_schedule 2)) = Returned l2
    /\ l1 = l2.
Proof.
  eexists. eexists.
  split; [vm_compute; reflexivity|].
  split; [vm_compute; reflexivity|].
  refine (proj2 (result_is_schedule_independent sample_items MATERIALS
                   sample_client 2 1
                   [Acquire 1; Acquire 0; Complete 1; Complete 0]
                   (sequential_schedule 2) _ _ _ _));
    vm_compute; reflexivity.
Defined.

(** X8 at two items, the second without unit. *)
Lemma enriched_items_make_rows_witness :
  exists l,
    fst (extend_items sample_items (IsSheet MATERIALS) sample_client 2
           (sequential_schedule 2)) = Returned l
    /\ build_rows (map Enriched l) tt = (tt, Ok 2%nat)
    /\ build_rows (map Plain sample_items) tt = (tt, Raise AttributeError).
Proof.
  eexists. split; [vm_compute; reflexivity|].
  match goal with
  | |- build_rows (map Enriched ?l) tt = _ /\ _ =>
      destruct (enriched_items_make_rows sample_items MATERIALS sample_client
                  2 (sequential_schedule 2) l tt) as [H1 H2]
  end.
  - vm_compute. reflexivity.
  - split; [exact H1|]. apply H2. reflexivity.
Defined.

(** X9 in a world where Gemini answers [None] to an image and raises on a
    document. *)
Lemma failed_analysis_ends_the_pipeline_witness :
  w_gemini_configured sample_world_no_analysis = true
  /\ (exists msg,
        _process_document_pipeline sample_world_no_analysis
          (py "temp_image.jpg") (py "image.jpg") 7 (py "Ann") None
          (Some (py "template_test")) (Some MATERIALS) true empty_runtime
        = ({| trace := [GeminiImage (py "temp_image.jpg")]; files := ∅ |},
           Ok (failure_result msg)))
  /\ (exists msg,
        _process_document_pipeline sample_world_no_analysis
          (py "temp_7_scan.pdf") (py "scan.pdf") 7 (py "Ann") None
          (Some (py "template_test")) (Some MATERIALS) false empty_runtime
        = ({| trace := [GeminiDocument (py "temp_7_scan.pdf")]; files := ∅ |},
           Ok (failure_result msg))).
Proof.
  split; [reflexivity|]. split.
  - apply (failed_analysis_ends_the_pipeline sample_world_no_analysis
             (py "temp_image.jpg") (py "image.jpg") 7 (py "Ann") None
             (Some (py "template_test")) (Some MATERIALS) true empty_runtime);
      [reflexivity|discriminate].
  - apply (failed_analysis_ends_the_pipeline sample_world_no_analysis
             (py "temp_7_scan.pdf") (py "scan.pdf") 7 (py "Ann") None
             (Some (py "template_test")) (Some MATERIALS) false empty_runtime);
      [reflexivity|discriminate].
Defined.

(** X10 in a world where the project resolves and every step succeeds. *)
Lemma remote_success_writes_nothing_local_witness :
  let w := sample_world true {[ py "template_test" := py "abc" ]} in
  resolve_spreadsheet_id w (Some (py "template_test")) = Some (py "abc")
  /\ remote_steps_succeed w sample_analysis = true
  /\ _process_with_google_services w sample_analysis 7 (py "Ann")
       (py "temp_image.jpg") (py "image.jpg") (Some (py "template_test"))
       (Some MATERIALS) empty_runtime
     = ({| trace := [SheetsCredentials; SheetsOpenByKey (py "abc");
                     SheetsPrepare (py "materials"); SheetsAppendRows 1];
           files := ∅ |},
        Ok (remote_result sample_analysis (w_spreadsheet_url w))).
Proof.
  intros w. split; [vm_compute; reflexivity|]. split; [reflexivity|].
  apply (remote_success_writes_nothing_local w sample_analysis 7 (py "Ann")
           (py "temp_image.jpg") (py "image.jpg") (Some (py "template_test"))
           MATERIALS (py "abc") empty_runtime);
    vm_compute; reflexivity.
Defined.

(** X11 in a world where the spreadsheet cannot be opened. *)
Lemma remote_failure_falls_back_to_local_witness :
  let w := sample_world_remote {[ py "template_test" := py "abc" ]}
             (Raise ClientError) in
  remote_steps_succeed w sample_analysis = false
  /\ exists added,
       _process_with_google_services w sample_analysis 7 (py "Ann")
         (py "temp_image.jpg") (py "image.jpg") (Some (py "template_test"))
         (Some MATERIALS) empty_runtime
       = _process_with_local_storage w sample_analysis 7 (py "Ann")
           (py "temp_image.jpg") (py "image.jpg") (Some (py "template_test"))
           (Some MATERIALS)
           {| trace := trace empty_runtime ++ added;
              files := files empty_runtime |}.
Proof.
  intros w. split; [reflexivity|].
  apply (remote_failure_falls_back_to_local w sample_analysis 7 (py "Ann")
           (py "temp_image.jpg") (py "image.jpg") (Some (py "template_test"))
           (Some MATERIALS) empty_runtime).
  reflexivity.
Defined.

(** X12 in a world where the JSON file cannot be written. *)
Lemma json_failure_leaves_the_excel_file_witness :
  let w := sample_world_with (Raise OSError) (Ok tt) in
  let excel := artifact_path (py "excel_data") (py ".xlsx") sample_analysis 7
                 (Some (py "template_test")) (Some MATERIALS) in
  answered (w_json_mkdir w) && answered (w_json_save w) = false
  /\ exists rt',
       _process_with_local_storage w sample_analysis 7 (py "Ann")
         (py "temp_image.jpg") (py "image.jpg") (Some (py "template_test"))
         (Some MATERIALS) empty_runtime
       = (rt', Ok (failure_result (py "Не удалось сохранить JSON файл")))
       /\ excel ∈ files rt'.
Proof.
  intros w excel. split; [reflexivity|].
  destruct (json_failure_leaves_the_excel_file w sample_analysis 7 (py "Ann")
              (py "temp_image.jpg") (py "image.jpg")
              (Some (py "template_test")) (Some MATERIALS) empty_runtime)
    as (rt' & Hrun & _ & Hin); try reflexivity.
  exists rt'. split; [exact Hrun|exact Hin].
Defined.

(** X13 in the world where every call succeeds: the one item of the
    analysis is stored enriched. *)
Lemma pipeline_stores_enriched_items_witness :
  let w := sample_world true ∅ in
  gemini_answer w true = Ok (Some sample_analysis)
  /\ exists (l : list ExtendedItem) (rt1 : runtime),
       _process_document_pipeline w (py "temp_image.jpg") (py "image.jpg") 7
         (py "Ann") None (Some (py "template_test")) (Some MATERIALS) true
         empty_runtime
       = _process_with_google_services w
           (set_items sample_analysis (map Enriched l)) 7 (py "Ann")
           (py "temp_image.jpg") (py "image.jpg") (Some (py "template_test"))
           (Some MATERIALS) rt1
       /\ length l = 1%nat.
Proof.
  intros w. split; [reflexivity|].
  destruct (pipeline_stores_enriched_items w (py "temp_image.jpg")
              (py "image.jpg") 7 (py "Ann") None (Some (py "template_test"))
              MATERIALS true sample_analysis empty_runtime)
    as (l & rt1 & Hrun & _ & Hlen & _); try reflexivity.
  exists l, rt1. split; [exact Hrun|exact Hlen].
Defined.

(** X14 in a world where the reading of the conversation data raises. *)
Lemma early_failure_leaves_the_temporary_file_witness :
  let w := sample_world_with (Ok tt) (Raise RuntimeError) in
  w_get_data w = Raise RuntimeError
  /\ photo_file_path 7 (py "AgAD")
       ∈ files (fst (process_document_photo w sample_session 7 (py "Ann")
                       None (py "AgAD") empty_runtime)).
Proof.
  intros w. split; [reflexivity|].
  destruct (proj1 (early_failure_leaves_the_temporary_file w sample_session 7
                     (py "Ann") None (py "AgAD") (py "scan.pdf") false
                     RuntimeError empty_runtime
                     eq_refl eq_refl eq_refl eq_refl eq_refl))
    as [Hfiles _].
  rewrite Hfiles. apply elem_of_union_r, elem_of_singleton. reflexivity.
Defined.

(** X15 on a disk that holds both artifacts: after the sending the JSON
    file is still there. *)
Lemma local_excel_is_removed_once_sent_witness :
  sample_json_path ∈ files runtime_with_artifacts
  /\ sample_json_path
       ∈ files (fst (_send_success_result (sample_world true ∅)
                       (local_result sample_analysis sample_excel_path
                          sample_json_path) runtime_with_artifacts)).
Proof.
  assert (Hin : sample_json_path ∈ files runtime_with_artifacts).
  { apply elem_of_union_r, elem_of_singleton. reflexivity. }
  split; [exact Hin|].
  apply (proj1 (proj2 (local_excel_is_removed_once_sent (sample_world true ∅)
                         sample_analysis sample_excel_path sample_json_path
                         [] runtime_with_artifacts))).
  - exact Hin.
  - intros H. vm_compute in H. discriminate H.
Defined.

(* ===================================================================== *)
(** * Properties of int(), str() and the user service                     *)
(* ===================================================================== *)

Lemma py_string_of_uint (d : Decimal.uint) :
  py (NilEmpty.string_of_uint d) = uint_codes d.
Proof.
  unfold py. induction d; simpl; try reflexivity; f_equal; exact IHd.
Qed.

Lemma str_of_Z_pos (p : positive) :
  str_of_Z (Z.pos p) = uint_codes (Pos.to_uint p).
Proof.
  unfold str_of_Z. simpl Z.to_int.
  unfold NilZero.string_of_int, NilZero.string_of_uint.
  pose proof (Unsigned.to_uint_nonnil p) as Hn.
  destruct (Pos.to_uint p); [contradiction|..]; apply py_string_of_uint.
Qed.

Lemma str_of_Z_neg (p : positive) :
  str_of_Z (Z.neg p) = cp_minus :: uint_codes (Pos.to_uint p).
Proof.
  unfold str_of_Z. simpl Z.to_int.
  unfold NilZero.string_of_int, NilZero.string_of_uint.
  pose proof (Unsigned.to_uint_nonnil p) as Hn.
  assert (Hminus : forall s, py (String "-" s) = cp_minus :: py s)
    by reflexivity.
  destruct (Pos.to_uint p); [contradiction|..];
    rewrite Hminus; f_equal; apply py_string_of_uint.
Qed.

Lemma uint_codes_plain (d : Decimal.uint) :
  forallb plain_digit (uint_codes d) = true.
Proof.
  induction d; [reflexivity|..];
    cbn [uint_codes forallb]; rewrite IHd; vm_compute; reflexivity.
Qed.

Lemma plain_digit_spec (c : codepoint) :
  plain_digit c = true ->
  isdecimal c = true /\ int_space c = false /\ (c =? cp_plus) = false
  /\ (c =? cp_minus) = false /\ (c =? cp_underscore) = false.
Proof.
  unfold plain_digit.
  destruct (isdecimal c), (int_space c), (c =? cp_plus), (c =? cp_minus),
    (c =? cp_underscore); simpl; intros H; try discriminate; auto.
Qed.

Lemma int_lstrip_id (s : pystr) :
  match s with
  | [] => True
  | c :: _ => int_space c = false
  end ->
  int_lstrip s = s.
Proof. destruct s as [|c r]; simpl; [reflexivity|]. intros ->. reflexivity. Qed.

(** A text that neither starts nor ends with a blank is its own trimmed
    form for [int]. *)
Lemma int_strip_id (s : pystr) :
  Forall (fun c => int_space c = false) s -> int_strip s = s.
Proof.
  intros H. unfold int_strip.
  rewrite (int_lstrip_id s) by (destruct H; auto).
  rewrite (int_lstrip_id (rev s)); [apply rev_involutive|].
  destruct (rev s) as [|c r] eqn:E; [exact I|].
  rewrite Forall_forall in H. apply H.
  apply list_elem_of_In, in_rev. rewrite E. left. reflexivity.
Qed.

Lemma int_body_digit (c d : N) (r : pystr) (acc : N) (count : nat) :
  plain_digit c = true -> decimal_value c = Some d ->
  int_body (c :: r) acc count = int_body r (acc * 10 + d) (S count).
Proof.
  intros Hc Hd. destruct (plain_digit_spec c Hc) as (_ & _ & _ & _ & Hu).
  simpl. rewrite Hu, Hd. reflexivity.
Qed.

Lemma int_body_codes (d : Decimal.uint) (acc : positive) (count : nat) :
  int_body (uint_codes d) (N.pos acc) count
  = Some (N.pos (Pos.of_uint_acc d acc), (count + length (uint_codes d))%nat).
Proof.
  revert acc count.
  induction d; intros acc count;
    [simpl; rewrite Nat.add_0_r; reflexivity|..];
    cbn [uint_codes Pos.of_uint_acc length];
    (erewrite int_body_digit; [|vm_compute; reflexivity|vm_compute; reflexivity]);
    match goal with
    | |- int_body _ ?a _ = Some (N.pos (Pos.of_uint_acc _ ?b), _) =>
        replace a with (N.pos b) by lia
    end;
    rewrite IHd; f_equal; f_equal; lia.
Qed.

Lemma int_body_codes_zero (d : Decimal.uint) (count : nat) :
  int_body (uint_codes d) 0 count
  = Some (Pos.of_uint d, (count + length (uint_codes d))%nat).
Proof.
  revert count.
  induction d; intros count;
    [simpl; rewrite Nat.add_0_r; reflexivity|..];
    cbn [uint_codes Pos.of_uint length];
    (erewrite int_body_digit; [|vm_compute; reflexivity|vm_compute; reflexivity]).
  - change (0 * 10 + 0) with 0. rewrite IHd. f_equal. f_equal. lia.
  - change (0 * 10 + 1) with (N.pos 1). rewrite int_body_codes.
    f_equal. f_equal. lia.
  - change (0 * 10 + 2) with (N.pos 2). rewrite int_body_codes.
    f_equal. f_equal. lia.
  - change (0 * 10 + 3) with (N.pos 3). rewrite int_body_codes.
    f_equal. f_equal. lia.
  - change (0 * 10 + 4) with (N.pos 4). rewrite int_body_codes.
    f_equal. f_equal. lia.
  - change (0 * 10 + 5) with (N.pos 5). rewrite int_body_codes.
    f_equal. f_equal. lia.
  - change (0 * 10 + 6) with (N.pos 6). rewrite int_body_codes.
    f_equal. f_equal. lia.
  - change (0 * 10 + 7) with (N.pos 7). rewrite int_body_codes.
    f_equal. f_equal. lia.
  - change (0 * 10 + 8) with (N.pos 8). rewrite int_body_codes.
    f_equal. f_equal. lia.
  - change (0 * 10 + 9) with (N.pos 9). rewrite int_body_codes.
    f_equal. f_equal. lia.
Qed.

(** [int] reads a numeral, with or without minus sign, as its value. *)
Lemma py_int_codes (d : Decimal.uint) :
  d <> Decimal.Nil ->
  (length (uint_codes d) <= int_max_str_digits)%nat ->
  py_int (uint_codes d) = Ok (Z.of_N (Pos.of_uint d))
  /\ py_int (cp_minus :: uint_codes d) = Ok (- Z.of_N (Pos.of_uint d))%Z.
Proof.
  intros Hd Hlen.
  pose proof (uint_codes_plain d) as Hplain.
  apply forallb_Forall_true in Hplain.
  assert (Hspace : Forall (fun c => int_space c = false) (uint_codes d)).
  { eapply Forall_impl; [exact Hplain|]. intros c Hc.
    apply (plain_digit_spec c Hc). }
  destruct (uint_codes d) as [|c r] eqn:E.
  { destruct d; discriminate || contradiction. }
  assert (Hc : plain_digit c = true) by (inversion Hplain; assumption).
  destruct (plain_digit_spec c Hc) as (Hdec & _ & Hplus & Hminus & _).
  assert (Hdigits : int_digits (c :: r)
                    = Some (Pos.of_uint d, length (c :: r))).
  { unfold int_digits. rewrite Hdec, <- E. rewrite int_body_codes_zero.
    reflexivity. }
  assert (Hlimit : (int_max_str_digits <? length (c :: r))%nat = false).
  { apply Nat.ltb_ge. exact Hlen. }
  split.
  - unfold py_int. rewrite (int_strip_id _ Hspace).
    rewrite Hplus, Hminus, Hdigits, Hlimit. reflexivity.
  - unfold py_int. rewrite int_strip_id.
    + change (cp_minus =? cp_plus) with false.
      change (cp_minus =? cp_minus) with true.
      cbv iota. rewrite Hdigits, Hlimit. reflexivity.
    + constructor; [reflexivity|exact Hspace].
Qed.

(** [int(str(n))] is [n], for every integer that [str] prints. *)
Lemma py_int_str (n : Z) (s : pystr) :
  py_str_int n = Ok s -> py_int s = Ok n.
Proof.
  unfold py_str_int.
  destruct (Nat.ltb_spec int_max_str_digits (length (str_of_Z (Z.abs n))))
    as [Hlong|Hlen]; [discriminate|].
  intros [= <-].
  destruct n as [|p|p].
  - vm_compute. reflexivity.
  - change (Z.abs (Z.pos p)) with (Z.pos p) in Hlen.
    rewrite str_of_Z_pos in *.
    destruct (py_int_codes (Pos.to_uint p)) as [H _];
      [apply Unsigned.to_uint_nonnil|exact Hlen|].
    rewrite H, DecimalPos.Unsigned.of_to. reflexivity.
  - change (Z.abs (Z.neg p)) with (Z.pos p) in Hlen.
    rewrite str_of_Z_pos in Hlen. rewrite str_of_Z_neg.
    destruct (py_int_codes (Pos.to_uint p)) as [_ H];
      [apply Unsigned.to_uint_nonnil|exact Hlen|].
    rewrite H, DecimalPos.Unsigned.of_to. reflexivity.
Qed.

(** [str] is injective on the integers that it prints. *)
Lemma py_str_int_inj (n m : Z) (s : pystr) :
  py_str_int n = Ok s -> py_str_int m = Ok s -> n = m.
Proof.
  intros Hn Hm. apply py_int_str in Hn, Hm. congruence.
Qed.

Lemma py_str_int_truthy (n : Z) (s : pystr) :
  py_str_int n = Ok s -> truthy s = true.
Proof.
  unfold py_str_int. destruct (_ <? _)%nat; [discriminate|]. intros [= <-].
  destruct n as [|p|p].
  - reflexivity.
  - rewrite str_of_Z_pos. pose proof (Unsigned.to_uint_nonnil p).
    destruct (Pos.to_uint p); [contradiction|..]; reflexivity.
  - rewrite str_of_Z_neg. reflexivity.
Qed.

Lemma remove_user_run (user_id : Z) (s : pystr) (st : user_service) :
  py_str_int user_id = Ok s ->
  exists written,
    UserService.remove_user user_id st
    = ({| us_data := without_user s (us_data st); us_written := written |},
       Ok tt).
Proof.
  intros Hs.
  unfold UserService.remove_user, UserService._save_data, without_user, bind,
    lift, get, modify, ret.
  rewrite Hs.
  destruct (id_to_username (us_data st) !! s) as [old|];
    [destruct (truthy old)|]; simpl; eexists; reflexivity.
Qed.

Lemma update_user_run (user_id : Z) (username : option pystr) (s : pystr)
    (st : user_service) :
  py_str_int user_id = Ok s ->
  exists written,
    UserService.update_user user_id username st
    = ({| us_data := updated_mapping s username (us_data st);
          us_written := written ++ [updated_mapping s username (us_data st)] |},
       Ok tt).
Proof.
  intros Hs. destruct (remove_user_run user_id s st Hs) as [written Hrun].
  unfold UserService.update_user, UserService._save_data, updated_mapping,
    with_user, bind, lift, modify, ret.
  rewrite Hs, Hrun.
  destruct username as [name|]; [destruct (truthy name)|]; simpl;
    exists written; reflexivity.
Qed.

Lemma user_service_raise (user_id : Z) (username : option pystr) (e : exn)
    (st : user_service) :
  py_str_int user_id = Raise e ->
  UserService.update_user user_id username st = (st, Raise e)
  /\ UserService.remove_user user_id st = (st, Raise e).
Proof.
  intros Hs.
  unfold UserService.update_user, UserService.remove_user, bind, lift.
  rewrite Hs. split; reflexivity.
Qed.

Lemma without_user_consistent (s : pystr) (m : UserMapping) :
  consistent m ->
  consistent (without_user s m)
  /\ id_to_username (without_user s m) !! s = None.
Proof.
  intros [Hinv Hne]. split; [|apply lookup_delete_eq].
  split.
  - intros name id. unfold without_user. simpl.
    destruct (id_to_username m !! s) as [old|] eqn:Hold.
    + destruct (truthy old) eqn:Ht.
      * intros Hl. destruct (decide (old = name)) as [->|Hn].
        { rewrite lookup_delete_eq in Hl. discriminate. }
        rewrite lookup_delete_ne in Hl by exact Hn.
        pose proof (Hinv _ _ Hl) as Hid.
        destruct (decide (s = id)) as [->|Hs]; [congruence|].
        rewrite lookup_delete_ne by exact Hs. exact Hid.
      * exfalso. apply (Hne s). rewrite Hold. destruct old; [reflexivity|].
        discriminate.
    + intros Hl. pose proof (Hinv _ _ Hl) as Hid.
      destruct (decide (s = id)) as [->|Hs]; [congruence|].
      rewrite lookup_delete_ne by exact Hs. exact Hid.
  - intros id. unfold without_user. simpl.
    destruct (decide (s = id)) as [->|Hs].
    + rewrite lookup_delete_eq. discriminate.
    + rewrite lookup_delete_ne by exact Hs. apply Hne.
Qed.

Lemma updated_mapping_consistent (s : pystr) (username : option pystr)
    (m : UserMapping) :
  consistent m -> consistent (updated_mapping s username m).
Proof.
  intros Hm. destruct (without_user_consistent s m Hm) as [[Hinv Hne] Hgone].
  unfold updated_mapping.
  destruct username as [name|]; [|split; assumption].
  destruct (truthy name) eqn:Ht; [|split; assumption].
  split.
  - intros n id. unfold with_user. simpl.
    destruct (decide (name = n)) as [->|Hn].
    + rewrite lookup_insert_eq. intros [= <-]. apply lookup_insert_eq.
    + rewrite lookup_insert_ne by exact Hn. intros Hl.
      pose proof (Hinv _ _ Hl) as Hid.
      destruct (decide (s = id)) as [->|Hs]; [congruence|].
      rewrite lookup_insert_ne by exact Hs. exact Hid.
  - intros id. unfold with_user. simpl.
    destruct (decide (s = id)) as [->|Hs].
    + rewrite lookup_insert_eq. intros [= ->]. discriminate.
    + rewrite lookup_insert_ne by exact Hs. apply Hne.
Qed.

(** X16.  The two dictionaries of the user service stay in agreement: when
    every name that leads to an identifier is the name stored for that
    identifier and no identifier has the empty name, this still holds
    after [update_user] and after [remove_user], whatever their arguments;
    and it holds for a service that starts without a readable file. *)
Theorem user_maps_stay_consistent (st : user_service) (user_id : Z)
    (username : option pystr) (file : stored UserMapping) :
  (consistent (us_data st) ->
   consistent (us_data (fst (UserService.update_user user_id username st)))
   /\ consistent (us_data (fst (UserService.remove_user user_id st))))
  /\ ((forall m, file <> Holds m) ->
      consistent (us_data (UserService.init file))).
Proof.
  split.
  - intros Hst. destruct (py_str_int user_id) as [s|e] eqn:Hs.
    + destruct (update_user_run user_id username s st Hs) as [w1 ->].
      destruct (remove_user_run user_id s st Hs) as [w2 ->].
      split; simpl.
      * apply updated_mapping_consistent, Hst.
      * apply without_user_consistent, Hst.
    + destruct (user_service_raise user_id username e st Hs) as [-> ->].
      split; exact Hst.
  - intros Hfile.
    assert (He : consistent UserService.empty_mapping).
    { split; simpl.
      - intros name id H. rewrite lookup_empty in H. discriminate.
      - intros id. rewrite lookup_empty. discriminate. }
    destruct file as [| |m|]; simpl; try exact He.
    exfalso. apply (Hfile m). reflexivity.
Qed.

(** X17.  After [update_user] with a name that is not empty, the name is
    what [get_username] gives for the identifier, the identifier is what
    [get_user_id] gives for the name ([int] reads back what [str] has
    printed), and the mapping in memory is the last one handed to
    [json.dump]; after
    [update_user] with [None] both lookups give [None]. *)
Theorem update_user_then_lookup (st : user_service) (user_id : Z)
    (name : pystr) :
  answered (py_str_int user_id) = true ->
  truthy name = true ->
  let st1 := fst (UserService.update_user user_id (Some name) st) in
  let st2 := fst (UserService.update_user user_id None st1) in
  snd (UserService.get_username user_id st1) = Ok (Some name)
  /\ snd (UserService.get_user_id name st1) = Ok (Some user_id)
  /\ last (us_written st1) = Some (us_data st1)
  /\ snd (UserService.get_username user_id st2) = Ok None
  /\ snd (UserService.get_user_id name st2) = Ok None.
Proof.
  intros Hp Hname st1 st2.
  destruct (py_str_int user_id) as [s|e] eqn:Hs; [|discriminate].
  destruct (update_user_run user_id (Some name) s st Hs) as [w1 H1].
  destruct (update_user_run user_id None s st1 Hs) as [w2 H2].
  assert (Hd1 : us_data st1 = with_user s name (without_user s (us_data st))).
  { subst st1. rewrite H1. simpl. rewrite Hname. reflexivity. }
  assert (Hd2 : us_data st2 = without_user s (us_data st1)).
  { subst st2. rewrite H2. reflexivity. }
  assert (Hfwd : id_to_username (us_data st1) !! s = Some name).
  { rewrite Hd1. apply lookup_insert_eq. }
  assert (Hback : username_to_id (us_data st1) !! name = Some s).
  { rewrite Hd1. apply lookup_insert_eq. }
  split; [|split; [|split; [|split]]].
  - unfold UserService.get_username, bind, lift, get, ret. rewrite Hs.
    simpl. rewrite Hfwd. reflexivity.
  - unfold UserService.get_user_id, bind, get, ret. simpl. rewrite Hback.
    rewrite (py_str_int_truthy _ _ Hs), (py_int_str _ _ Hs). reflexivity.
  - subst st1. rewrite H1. simpl. rewrite last_snoc. reflexivity.
  - unfold UserService.get_username, bind, lift, get, ret. rewrite Hs.
    simpl. rewrite Hd2. simpl. rewrite lookup_delete_eq. reflexivity.
  - unfold UserService.get_user_id, bind, get, ret. simpl. rewrite Hd2.
    unfold without_user. simpl. rewrite Hfwd, Hname, lookup_delete_eq.
    reflexivity.
Qed.

(** X18.  User names are not kept unique: when a second user takes the
    name of a first one, [get_username] still gives the name for both
    identifiers, while [get_user_id] gives the second identifier for the
    name, so that the two dictionaries are no inverses of each other. *)
Theorem username_taken_by_a_second_user (st : user_service) (id1 id2 : Z)
    (name : pystr) :
  answered (py_str_int id1) = true ->
  answered (py_str_int id2) = true ->
  id1 <> id2 ->
  truthy name = true ->
  let st1 := fst (UserService.update_user id1 (Some name) st) in
  let st2 := fst (UserService.update_user id2 (Some name) st1) in
  snd (UserService.get_username id1 st2) = Ok (Some name)
  /\ snd (UserService.get_username id2 st2) = Ok (Some name)
  /\ snd (UserService.get_user_id name st2) = Ok (Some id2).
Proof.
  intros Hp1 Hp2 Hne Hname st1 st2.
  destruct (py_str_int id1) as [s1|e] eqn:Hs1; [|discriminate].
  destruct (py_str_int id2) as [s2|e] eqn:Hs2; [|discriminate].
  assert (Hs : s2 <> s1).
  { intros ->. apply Hne. eapply py_str_int_inj; eassumption. }
  destruct (update_user_run id1 (Some name) s1 st Hs1) as [w1 H1].
  destruct (update_user_run id2 (Some name) s2 st1 Hs2) as [w2 H2].
  assert (Hd1 : us_data st1 = with_user s1 name (without_user s1 (us_data st))).
  { subst st1. rewrite H1. simpl. rewrite Hname. reflexivity. }
  assert (Hd2 : us_data st2 = with_user s2 name (without_user s2 (us_data st1))).
  { subst st2. rewrite H2. simpl. rewrite Hname. reflexivity. }
  split; [|split].
  - unfold UserService.get_username, bind, lift, get, ret. rewrite Hs1.
    simpl. rewrite Hd2. simpl.
    rewrite lookup_insert_ne, lookup_delete_ne by exact Hs.
    rewrite Hd1. simpl. rewrite lookup_insert_eq. reflexivity.
  - unfold UserService.get_username, bind, lift, get, ret. rewrite Hs2.
    simpl. rewrite Hd2. simpl. rewrite lookup_insert_eq. reflexivity.
  - unfold UserService.get_user_id, bind, get, ret. simpl. rewrite Hd2.
    simpl. rewrite lookup_insert_eq.
    rewrite (py_str_int_truthy _ _ Hs2), (py_int_str _ _ Hs2). reflexivity.
Qed.

(* ===================================================================== *)
(** * Properties of the mapping service and of the permission check       *)
(* ===================================================================== *)

Lemma add_or_update_mapping_run (point_name sheet_id : pystr)
    (st : mapping_service) :
  SheetsMappingService.add_or_update_mapping point_name sheet_id st
  = ({| ms_data := <[point_name := sheet_id]> (ms_data st);
        ms_written := ms_written st
                        ++ [<[point_name := sheet_id]> (ms_data st)] |},
     Ok tt).
Proof. reflexivity. Qed.

Lemma remove_mapping_run (point_name : pystr) (st : mapping_service) :
  SheetsMappingService.remove_mapping point_name st
  = match ms_data st !! point_name with
    | Some _ =>
        ({| ms_data := delete point_name (ms_data st);
            ms_written := ms_written st ++ [delete point_name (ms_data st)] |},
         Ok true)
    | None => (st, Ok false)
    end.
Proof.
  unfold SheetsMappingService.remove_mapping, SheetsMappingService._save_data,
    try_except, bind, get, modify, ret.
  destruct (ms_data st !! point_name); reflexivity.
Qed.

(** X19.  The mapping service is a dictionary whose every change is handed
    to [json.dump]: after [add_or_update_mapping] the project gives the new
    identifier, every other project gives what it gave, and the dictionary
    in memory is the last one handed over; [remove_mapping] of a project
    that is there answers [True] and the project then gives [None]; of a
    project that is not there it answers [False], changes nothing and hands
    nothing over. *)
Theorem mapping_service_is_a_written_map (st : mapping_service)
    (point_name sheet_id other : pystr) :
  let st1 := fst (SheetsMappingService.add_or_update_mapping point_name
                    sheet_id st) in
  let st2 := fst (SheetsMappingService.remove_mapping point_name st1) in
  SheetsMappingService.get_sheet_id point_name st1 = (st1, Ok (Some sheet_id))
  /\ (other <> point_name ->
      snd (SheetsMappingService.get_sheet_id other st1)
      = snd (SheetsMappingService.get_sheet_id other st))
  /\ last (ms_written st1) = Some (ms_data st1)
  /\ snd (SheetsMappingService.remove_mapping point_name st1) = Ok true
  /\ SheetsMappingService.get_sheet_id point_name st2 = (st2, Ok None)
  /\ last (ms_written st2) = Some (ms_data st2)
  /\ (ms_data st !! point_name = None ->
      SheetsMappingService.remove_mapping point_name st = (st, Ok false)
      /\ ms_data st2 = ms_data st).
Proof.
  intros st1 st2. subst st2 st1.
  rewrite add_or_update_mapping_run. cbn [fst].
  rewrite remove_mapping_run. cbn [ms_data ms_written].
  rewrite lookup_insert_eq.
  unfold SheetsMappingService.get_sheet_id, bind, get, ret.
  cbn [fst snd ms_data ms_written].
  rewrite lookup_insert_eq, lookup_delete_eq, !last_snoc.
  split; [reflexivity|]. split.
  { intros Hne. rewrite lookup_insert_ne by congruence. reflexivity. }
  split; [reflexivity|]. split; [reflexivity|]. split; [reflexivity|].
  split; [reflexivity|].
  intros Hnone. split.
  - rewrite remove_mapping_run, Hnone. reflexivity.
  - apply delete_insert_id. exact Hnone.
Qed.

(** X20.  [check_sheet_write_permissions] never raises, and it answers
    [True] exactly when there is a client, the spreadsheet opens, both
    worksheets are found and both updates are answered.  When it answers
    [True], the cell A1 of the sheet "materials" is empty afterwards,
    whatever it held before: the check has written "test" and then the
    empty text into it.  When it does not get as far as the updates, no
    update request is sent and the cell is left as it was. *)
Theorem permission_check_blanks_the_first_cell (a : probe_answers)
    (sh : probed_sheet) :
  let sh' := fst (check_sheet_write_permissions a sh) in
  snd (check_sheet_write_permissions a sh) = Ok (probe_passes a)
  /\ (probe_passes a = true ->
      cell_a1 sh' = []
      /\ updates sh' = updates sh ++ [py "test"; []])
  /\ (probe_reaches_updates a = false -> sh' = sh).
Proof.
  intros sh'. subst sh'.
  unfold check_sheet_write_permissions, probe_passes, probe_reaches_updates,
    update_a1, try_except, bind, lift, modify, raise, ret.
  destruct a as [client open_ materials jobs test blank]. simpl.
  destruct client; simpl; [|split; [reflexivity|split; [discriminate|reflexivity]]].
  destruct open_ as [[]|e1]; simpl;
    [|split; [reflexivity|split; [discriminate|reflexivity]]].
  destruct materials as [[|]|e2]; simpl;
    [|split; [reflexivity|split; [discriminate|reflexivity]]
     |split; [reflexivity|split; [discriminate|reflexivity]]].
  destruct jobs as [[|]|e3]; simpl;
    [|split; [reflexivity|split; [discriminate|reflexivity]]
     |split; [reflexivity|split; [discriminate|reflexivity]]].
  destruct test as [[]|e4]; simpl;
    [|split; [reflexivity|split; discriminate]].
  destruct blank as [[]|e5]; simpl;
    [|split; [reflexivity|split; discriminate]].
  split; [reflexivity|]. split; [|discriminate].
  intros _. split; [reflexivity|]. rewrite <- app_assoc. reflexivity.
Qed.

(* ===================================================================== *)
(** * Properties of the conversation handlers                             *)
(* ===================================================================== *)

Ltac chat_eval :=
  cbv beta iota zeta delta
    [handle in_state admin_addpoint_router start_document_analysis
     process_project_selection process_document_type_selection
     invalid_document_format handle_back_in_document_flow
     command_start_handler handle_processing_state_messages
     cancel_processing cancel_handler cmd_add_point process_point_name
     change_point_name_request process_sheet_id text_strip
     state_get_state state_set_state state_clear
     state_update_selected_project state_update_document_type
     state_update_point_name on_mappings message_answer
     SheetsMappingService.get_all_mappings
     SheetsMappingService.add_or_update_mapping
     SheetsMappingService._save_data
     try_except any_exception bind lift get modify ret raise
     fst snd chat_state chat_session chat_point_name chat_mappings
     chat_answers ms_data ms_written selected_project document_type
     no_session fsm_state_eqb negb andb truthy_opt or_default
     needs_project needs_type] in *.

(** One case distinction on what the handler looks at next. *)
Ltac chat_case transport :=
  match goal with
  | |- context [bool_decide ?P] => destruct (bool_decide P) eqn:?
  | |- context [is_admin ?l ?u] => destruct (is_admin l u) eqn:?
  | |- context [pystr_eqb ?a ?b] => destruct (pystr_eqb a b) eqn:?
  | |- context [truthy ?a] => destruct (truthy a) eqn:?
  | |- context [@lookup _ _ _ _ ?k ?m] => destruct (m !! k) eqn:?
  | |- context [transport ?k] => destruct (transport k) as [[]|?] eqn:?
  end; chat_eval.


Section ChatProperties.
Variable transport : nat -> res unit.



(** What the administrative router leaves of the projects and of the rest
    of the chat. *)
Lemma admin_addpoint_router_mappings (admin_user_ids : list Z) (user_id : Z)
    (text : option pystr) (has_permissions : bool) (c : chat) :
  let c' := fst (admin_addpoint_router transport admin_user_ids user_id text
                   has_permissions c) in
  (is_admin admin_user_ids user_id = false -> c' = c)
  /\ (ms_data (chat_mappings c') = ms_data (chat_mappings c)
      \/ is_admin admin_user_ids user_id = true
         /\ has_permissions = true
         /\ chat_state c = Some waiting_for_sheet_id
         /\ exists point t,
              chat_point_name c = Some point
              /\ truthy point = true
              /\ text = Some t
              /\ ms_data (chat_mappings c')
                 = <[point := strip t]> (ms_data (chat_mappings c))).
Proof.
  intros c'. subst c'. destruct c as [st [sp dt] pn [md mw] k].
  split.
  { intros Hno. chat_eval. rewrite Hno. reflexivity. }
  chat_eval.
  destruct (is_admin admin_user_ids user_id); chat_eval;
    [|left; reflexivity].
  destruct text as [t|]; chat_eval;
    [|left; destruct st as [[]|]; reflexivity].
  destruct (pystr_eqb t admin_cancel_text); chat_eval.
  { left. destruct st as [s|]; chat_eval; repeat chat_case transport;
      reflexivity. }
  destruct (pystr_eqb t addpoint_text); chat_eval.
  { left. repeat chat_case transport; reflexivity. }
  destruct (pystr_eqb t change_name_text); chat_eval.
  { left. destruct st as [[]|]; chat_eval; repeat chat_case transport;
      reflexivity. }
  destruct st as [[]|]; chat_eval; try (left; reflexivity).
  { left. repeat chat_case transport; reflexivity. }
  destruct (truthy t) eqn:Ht; chat_eval; [|left; reflexivity].
  destruct (transport k) as [[]|e]; chat_eval; [|left; reflexivity].
  destruct has_permissions; chat_eval;
    [|left; repeat chat_case transport; reflexivity].
  destruct pn as [point|]; chat_eval;
    [|left; repeat chat_case transport; reflexivity].
  destruct (truthy point) eqn:Hp; chat_eval;
    [|left; repeat chat_case transport; reflexivity].
  right. repeat split. exists point, t. repeat split; [exact Hp|].
  repeat chat_case transport; reflexivity.
Qed.




(** X22.  A message without text (a photo, a sticker) at one of the two
    selection steps ends the conversation when the error message can be
    sent: the state and the stored selections are cleared; a text that is
    neither the cancel button nor a project (at the first step), nor one of
    the two types (at the second), changes neither the state nor the data
    when the prompt can be sent again. *)
Theorem selection_steps_on_unexpected_messages (c : chat) (t : pystr) :
  answered (transport (chat_answers c)) = true ->
  pystr_eqb (strip t) cancel_text = false ->
  let cleared := {| chat_state := None;
                    chat_session := no_session;
                    chat_point_name := None;
                    chat_mappings := chat_mappings c;
                    chat_answers := S (chat_answers c) |} in
  let prompted := {| chat_state := chat_state c;
                     chat_session := chat_session c;
                     chat_point_name := chat_point_name c;
                     chat_mappings := chat_mappings c;
                     chat_answers := S (chat_answers c) |} in
  process_project_selection transport None c = (cleared, Ok tt)
  /\ process_document_type_selection transport None c = (cleared, Ok tt)
  /\ (ms_data (chat_mappings c) !! strip t = None ->
      process_project_selection transport (Some t) c = (prompted, Ok tt))
  /\ (pystr_eqb (strip t) goods_text = false ->
      pystr_eqb (strip t) jobs_text = false ->
      process_document_type_selection transport (Some t) c = (prompted, Ok tt)).
Proof.
  intros Htr Hcancel cleared prompted. subst cleared prompted.
  apply answered_ok in Htr.
  destruct c as [st [sp dt] pn [md mw] k]. chat_eval.
  rewrite Htr, Hcancel.
  split; [reflexivity|]. split; [reflexivity|]. split.
  - intros Hl. rewrite Hl, ?Htr. reflexivity.
  - intros Hg Hj. rewrite Hg, Hj, ?Htr. reflexivity.
Qed.

(** X23.  The administrative router changes the chat of somebody who is
    no administrator in nothing; and it changes the projects only in one
    way: for an administrator, in the state that awaits the identifier,
    with a positive check of the permissions and a stored name that is not
    empty, where the name then leads to the trimmed text of the message. *)
Theorem projects_change_only_after_the_check (admin_user_ids : list Z)
    (user_id : Z) (text : option pystr) (has_permissions : bool) (c : chat) :
  let c' := fst (admin_addpoint_router transport admin_user_ids user_id text
                   has_permissions c) in
  (is_admin admin_user_ids user_id = false -> c' = c)
  /\ (ms_data (chat_mappings c') <> ms_data (chat_mappings c) ->
      is_admin admin_user_ids user_id = true
      /\ has_permissions = true
      /\ chat_state c = Some waiting_for_sheet_id
      /\ exists point t,
           chat_point_name c = Some point
           /\ truthy point = true
           /\ text = Some t
           /\ ms_data (chat_mappings c')
              = <[point := strip t]> (ms_data (chat_mappings c))).
Proof.
  intros c'. subst c'.
  destruct (admin_addpoint_router_mappings admin_user_ids user_id text
              has_permissions c) as [Hno [Hsame|Hchange]].
  - split; [exact Hno|]. intros Hne. contradiction.
  - split; [exact Hno|]. intros _. exact Hchange.
Qed.


End ChatProperties.

(* ===================================================================== *)
(** * Properties of the cleaning of the Gemini response and of the reading
      of the administrators                                               *)
(* ===================================================================== *)

Lemma lstrip_spaces_app (pre s : pystr) :
  forallb isspace pre = true -> lstrip (pre ++ s) = lstrip s.
Proof.
  induction pre as [|c pre IH]; simpl; [reflexivity|].
  intros H. apply andb_prop in H as [Hc Hpre]. rewrite Hc. auto.
Qed.

Lemma lstrip_fixed_app (x s : pystr) :
  x <> [] -> lstrip x = x -> lstrip (x ++ s) = x ++ s.
Proof.
  destruct x as [|c x]; [congruence|]. intros _ H.
  pose proof (lstrip_head (c :: x)) as Hc. rewrite H in Hc.
  simpl. rewrite Hc. reflexivity.
Qed.

Lemma rstrip_app_spaces (s post : pystr) :
  forallb isspace post = true -> rstrip (s ++ post) = rstrip s.
Proof.
  intros H. unfold rstrip. rewrite rev_app_distr.
  rewrite lstrip_spaces_app; [reflexivity|].
  rewrite forallb_forall in *. intros c Hc. apply H, in_rev, Hc.
Qed.

Lemma rstrip_fixed_app (a x : pystr) :
  x <> [] -> rstrip x = x -> rstrip (a ++ x) = a ++ x.
Proof.
  intros Hne H. unfold rstrip in *. rewrite rev_app_distr.
  rewrite lstrip_fixed_app.
  - rewrite <- rev_app_distr, rev_involutive. reflexivity.
  - intros E. apply Hne. apply (f_equal (@rev _)) in E.
    rewrite rev_involutive in E. exact E.
  - apply (f_equal (@rev _)) in H. rewrite rev_involutive in H. exact H.
Qed.

Lemma strip_padded (pre x post : pystr) :
  forallb isspace pre = true -> forallb isspace post = true ->
  x <> [] -> lstrip x = x -> rstrip x = x ->
  strip (pre ++ x ++ post) = x.
Proof.
  intros Hpre Hpost Hne Hl Hr. unfold strip.
  rewrite lstrip_spaces_app by exact Hpre.
  rewrite lstrip_fixed_app by assumption.
  rewrite rstrip_app_spaces by exact Hpost. exact Hr.
Qed.

Lemma strip_spaces (s : pystr) : forallb isspace s = true -> strip s = [].
Proof.
  intros H. unfold strip.
  replace s with (s ++ []) by apply app_nil_r.
  rewrite lstrip_spaces_app by exact H. reflexivity.
Qed.

Lemma startswith_app (p s : pystr) : startswith p (p ++ s) = true.
Proof.
  induction p as [|c p IH]; [destruct s; reflexivity|].
  simpl. rewrite N.eqb_refl. exact IH.
Qed.

Lemma endswith_app (p s : pystr) : endswith p (s ++ p) = true.
Proof. unfold endswith. rewrite rev_app_distr. apply startswith_app. Qed.

Lemma fence_open_codes : fence_open = [96; 96; 96; 106; 115; 111; 110].
Proof. vm_compute. reflexivity. Qed.

Lemma fence_close_codes : fence_close = [96; 96; 96].
Proof. vm_compute. reflexivity. Qed.

Lemma clean_response_fenced (pre body post : pystr) :
  forallb isspace pre = true -> forallb isspace post = true ->
  clean_response (pre ++ fence_open ++ body ++ fence_close ++ post)
  = strip body.
Proof.
  intros Hpre Hpost. unfold clean_response.
  assert (Hs : strip (pre ++ fence_open ++ body ++ fence_close ++ post)
               = fence_open ++ body ++ fence_close).
  { replace (pre ++ fence_open ++ body ++ fence_close ++ post)
      with (pre ++ (fence_open ++ body ++ fence_close) ++ post)
      by (rewrite <- !app_assoc; reflexivity).
    apply strip_padded; try assumption.
    - rewrite fence_open_codes. discriminate.
    - rewrite fence_open_codes. reflexivity.
    - rewrite app_assoc. rewrite fence_close_codes.
      change [96; 96; 96] with ([96; 96] ++ [96]). rewrite app_assoc.
      apply rstrip_fixed_app; [discriminate|reflexivity]. }
  rewrite Hs. cbv zeta. rewrite startswith_app.
  assert (Hd : drop 7 (fence_open ++ body ++ fence_close)
               = body ++ fence_close).
  { rewrite fence_open_codes. reflexivity. }
  rewrite Hd, endswith_app.
  rewrite length_app, fence_close_codes. simpl length.
  replace (length body + 3 - 3)%nat with (length body) by lia.
  rewrite take_app_length. reflexivity.
Qed.

Lemma analyze_document_returns {J} (a : gemini_answers J)
    (document_type : option Sheet) (calls : list gemini_call) :
  exists r, snd (analyze_document a document_type calls) = Ok r.
Proof.
  unfold analyze_document, called, try_except, any_exception, bind, lift,
    modify, ret.
  destruct (ga_upload a) as [[]|e1]; [|eexists; reflexivity].
  destruct (ga_generate a) as [text|e2]; [|eexists; reflexivity].
  destruct (negb (truthy_opt text)); [eexists; reflexivity|].
  destruct (ga_loads a _) as [j|e3]; [|eexists; reflexivity].
  destruct document_type as [s|]; [|eexists; reflexivity].
  destruct (ga_validate a s j) as [d|e4]; eexists; reflexivity.
Qed.

(** X25.  [analyze_document] never raises.  When Gemini answers a JSON text
    between the fences of a Markdown block, with any white space before and
    after the block, [json.loads] is given the trimmed text between the
    fences, and the analysis is what [model_validate] makes of the decoded
    value, or [None] where one of the two refuses.  An opening fence
    without the "json" tag is not removed: the text given to [json.loads]
    then begins with the fence. *)
Theorem fenced_response_is_unwrapped {J} (a : gemini_answers J) (s : Sheet)
    (pre body post : pystr) (calls : list gemini_call) :
  forallb isspace pre = true ->
  forallb isspace post = true ->
  let text := pre ++ fence_open ++ body ++ fence_close ++ post in
  (forall document_type, exists r,
      snd (analyze_document a document_type calls) = Ok r)
  /\ clean_response text = strip body
  /\ (ga_upload a = Ok tt ->
      ga_generate a = Ok (Some text) ->
      snd (analyze_document a (Some s) calls)
      = Ok (match ga_loads a (strip body) with
            | Ok result_data =>
                match ga_validate a s result_data with
                | Ok analysis_ => Some analysis_
                | Raise _ => None
                end
            | Raise _ => None
            end)
      /\ JsonLoads (strip body) ∈ fst (analyze_document a (Some s) calls))
  /\ startswith fence_close
       (clean_response (fence_close ++ cp_newline :: body ++ fence_close))
     = true.
Proof.
  intros Hpre Hpost text.
  assert (Hclean : clean_response text = strip body)
    by (apply clean_response_fenced; assumption).
  split; [intros dt; apply analyze_document_returns|].
  split; [exact Hclean|]. split.
  - intros Hup Hgen.
    assert (Htruthy : truthy text = true).
    { subst text. destruct pre; [rewrite fence_open_codes|]; reflexivity. }
    unfold analyze_document, called, try_except, any_exception, bind, lift,
      modify, ret.
    rewrite Hup, Hgen. unfold truthy_opt, or_default. rewrite Htruthy.
    cbv beta iota delta [negb]. rewrite Hclean.
    destruct (ga_loads a (strip body)) as [j|e3]; cbv beta iota.
    + destruct (ga_validate a s j) as [d|e4]; cbv beta iota;
        (split; [reflexivity|]); cbn [fst]; rewrite !elem_of_app;
        left; right; apply list_elem_of_singleton; reflexivity.
    + split; [reflexivity|]. cbn [fst]. rewrite !elem_of_app.
      right. apply list_elem_of_singleton. reflexivity.
  - unfold clean_response.
    assert (Hs : strip (fence_close ++ cp_newline :: body ++ fence_close)
                 = fence_close ++ cp_newline :: body ++ fence_close).
    { unfold strip.
      assert (Hl : lstrip (fence_close ++ cp_newline :: body ++ fence_close)
                   = fence_close ++ cp_newline :: body ++ fence_close)
        by (rewrite fence_close_codes; reflexivity).
      rewrite Hl, fence_close_codes.
      change ([96; 96; 96] ++ cp_newline :: body ++ [96; 96; 96])
        with (([96; 96; 96] ++ cp_newline :: body) ++ [96; 96; 96]).
      apply rstrip_fixed_app; [discriminate|reflexivity]. }
    rewrite Hs. cbv zeta.
    assert (Hno : startswith fence_open
                    (fence_close ++ cp_newline :: body ++ fence_close)
                  = false).
    { rewrite fence_open_codes, fence_close_codes. reflexivity. }
    rewrite Hno.
    replace (fence_close ++ cp_newline :: body ++ fence_close)
      with ((fence_close ++ cp_newline :: body) ++ fence_close)
      by (rewrite <- app_assoc; reflexivity).
    rewrite endswith_app, length_app.
    replace (length fence_close) with 3%nat
      by (rewrite fence_close_codes; reflexivity).
    replace (length (fence_close ++ cp_newline :: body) + 3 - 3)%nat
      with (length (fence_close ++ cp_newline :: body)) by lia.
    rewrite take_app_length. unfold strip.
    rewrite fence_close_codes.
    change ([96; 96; 96] ++ cp_newline :: body)
      with (96 :: 96 :: 96 :: cp_newline :: body).
    change (lstrip (96 :: 96 :: 96 :: cp_newline :: body))
      with (96 :: 96 :: 96 :: cp_newline :: body).
    rewrite !rstrip_cons_nonspace by reflexivity. reflexivity.
Qed.

Lemma split_no_sep (sep : codepoint) (p : pystr) :
  forallb (fun c => negb (c =? sep)) p = true -> split sep p = [p].
Proof.
  induction p as [|c p IH]; simpl; [reflexivity|].
  intros H. apply andb_prop in H as [Hc Hp].
  apply negb_true_iff in Hc. rewrite Hc, (IH Hp). reflexivity.
Qed.

Lemma split_app_sep (sep : codepoint) (p r : pystr) :
  forallb (fun c => negb (c =? sep)) p = true ->
  split sep (p ++ sep :: r) = p :: split sep r.
Proof.
  induction p as [|c p IH]; simpl.
  - intros _. rewrite N.eqb_refl. reflexivity.
  - intros H. apply andb_prop in H as [Hc Hp].
    apply negb_true_iff in Hc. rewrite Hc, (IH Hp). reflexivity.
Qed.

Lemma join_cons (sep p : pystr) (parts : list pystr) :
  join sep (p :: parts)
  = match parts with
    | [] => p
    | _ :: _ => p ++ sep ++ join sep parts
    end.
Proof. destruct parts; reflexivity. Qed.

Lemma split_join (spaces : pystr) (parts : list pystr) :
  forallb (fun c => negb (c =? cp_comma)) spaces = true ->
  forall (prefix p : pystr),
    forallb (fun c => negb (c =? cp_comma)) prefix = true ->
    Forall (fun q => forallb (fun c => negb (c =? cp_comma)) q = true)
      (p :: parts) ->
    split cp_comma (prefix ++ join (cp_comma :: spaces) (p :: parts))
    = (prefix ++ p) :: map (app spaces) parts.
Proof.
  intros Hsp. induction parts as [|q rest IH]; intros prefix p Hpre Hall.
  - simpl. apply split_no_sep. rewrite forallb_app, Hpre.
    inversion Hall; subst. assumption.
  - rewrite join_cons.
    replace (prefix ++ p ++ (cp_comma :: spaces) ++ join (cp_comma :: spaces) (q :: rest))
      with ((prefix ++ p) ++ cp_comma
              :: (spaces ++ join (cp_comma :: spaces) (q :: rest)))
      by (rewrite <- !app_assoc; reflexivity).
    inversion Hall as [|? ? Hp Hrest]; subst.
    rewrite split_app_sep by (rewrite forallb_app, Hpre, Hp; reflexivity).
    rewrite (IH spaces q Hsp Hrest). reflexivity.
Qed.

Lemma startswith_one (a c : codepoint) (s : pystr) :
  startswith [a] (c :: s) = (a =? c).
Proof. simpl. destruct s; apply andb_true_r. Qed.

Lemma id_char_spec (c : codepoint) :
  id_char c = true ->
  isspace c = false /\ (c =? cp_comma) = false /\ (c =? cp_lbracket) = false.
Proof.
  unfold id_char. intros H.
  apply andb_prop in H as [H H3]. apply andb_prop in H as [H1 H2].
  rewrite !negb_true_iff in *. auto.
Qed.

Lemma uint_codes_id_chars (d : Decimal.uint) :
  forallb id_char (uint_codes d) = true.
Proof. induction d; [reflexivity|..]; simpl; exact IHd. Qed.

Lemma str_of_Z_id_chars (n : Z) :
  str_of_Z n <> [] /\ forallb id_char (str_of_Z n) = true.
Proof.
  destruct n as [|p|p].
  - split; [vm_compute; discriminate|vm_compute; reflexivity].
  - rewrite str_of_Z_pos. split; [|apply uint_codes_id_chars].
    pose proof (Unsigned.to_uint_nonnil p) as Hn.
    destruct (Pos.to_uint p); [congruence|..]; discriminate.
  - rewrite str_of_Z_neg. split; [discriminate|].
    simpl. apply uint_codes_id_chars.
Qed.

Lemma id_chars_fixed (s : pystr) :
  forallb id_char s = true -> lstrip s = s /\ rstrip s = s.
Proof.
  intros H.
  assert (Hl : forall t, forallb id_char t = true -> lstrip t = t).
  { intros [|c t] Ht; [reflexivity|]. simpl in *.
    apply andb_prop in Ht as [Hc _].
    destruct (id_char_spec c Hc) as [-> _]. reflexivity. }
  split; [apply Hl, H|].
  unfold rstrip. rewrite Hl; [apply rev_involutive|].
  rewrite forallb_forall in *. intros c Hc. apply H, in_rev, Hc.
Qed.

Lemma id_chars_no_comma (s : pystr) :
  forallb id_char s = true ->
  forallb (fun c => negb (c =? cp_comma)) s = true.
Proof.
  rewrite !forallb_forall. intros H c Hc.
  destruct (id_char_spec c (H c Hc)) as (_ & -> & _). reflexivity.
Qed.

Lemma spaces_no_comma (s : pystr) :
  forallb isspace s = true ->
  forallb (fun c => negb (c =? cp_comma)) s = true.
Proof.
  rewrite !forallb_forall. intros H c Hc. specialize (H c Hc).
  destruct (c =? cp_comma) eqn:E; [|reflexivity].
  apply N.eqb_eq in E. subst c. discriminate H.
Qed.

Lemma join_fixed (sep : pystr) (parts : list pystr) :
  parts <> [] ->
  Forall (fun p => p <> [] /\ lstrip p = p /\ rstrip p = p) parts ->
  join sep parts <> []
  /\ lstrip (join sep parts) = join sep parts
  /\ rstrip (join sep parts) = join sep parts.
Proof.
  induction parts as [|p rest IH]; [congruence|]. intros _ Hall.
  inversion Hall as [|? ? (Hne & Hl & Hr) Hrest]; subst.
  rewrite join_cons. destruct rest as [|q rest]; [auto|].
  destruct (IH ltac:(discriminate) Hrest) as (Hne' & Hl' & Hr').
  split; [|split].
  - destruct p; [congruence|discriminate].
  - apply lstrip_fixed_app; assumption.
  - rewrite app_assoc. apply rstrip_fixed_app; assumption.
Qed.

Lemma ints_of_printed (spaces : pystr) (ids : list Z) :
  forallb isspace spaces = true ->
  Forall (fun n => answered (py_str_int n) = true) ids ->
  ints_of (map (app spaces) (map str_of_Z ids)) = Ok ids.
Proof.
  intros Hsp. induction 1 as [|n ids Hn _ IH]; [reflexivity|].
  cbn [map ints_of].
  destruct (str_of_Z_id_chars n) as [Hne Hchars].
  destruct (id_chars_fixed _ Hchars) as [Hl Hr].
  assert (Hs : strip (spaces ++ str_of_Z n) = str_of_Z n).
  { replace (spaces ++ str_of_Z n) with (spaces ++ str_of_Z n ++ [])
      by (rewrite app_nil_r; reflexivity).
    apply strip_padded; auto. }
  rewrite Hs.
  assert (Hp : py_str_int n = Ok (str_of_Z n)).
  { unfold py_str_int in *. destruct (_ <? _)%nat; [discriminate|].
    reflexivity. }
  rewrite (py_str_int_truthy _ _ Hp), (py_int_str _ _ Hp), IH.
  reflexivity.
Qed.

(** X26.  Identifiers of administrators that are written as decimal
    numbers, separated by a comma that any white space may follow, with any
    white space around the whole, are read back by [parse_admin_user_ids]
    as they were, in their order; the empty text and the blank text give
    the empty list.  So [is_admin] then answers [True] for exactly the
    identifiers written. *)
Theorem admin_ids_are_read_back (json_branch : pystr -> res (list Z))
    (pre spaces post : pystr) (ids : list Z) :
  forallb isspace pre = true ->
  forallb isspace spaces = true ->
  forallb isspace post = true ->
  Forall (fun n => answered (py_str_int n) = true) ids ->
  let v := pre ++ join (cp_comma :: spaces) (map str_of_Z ids) ++ post in
  parse_admin_user_ids json_branch (Some v) = Ok ids
  /\ forall user_id,
       match parse_admin_user_ids json_branch (Some v) with
       | Ok admin_user_ids => is_admin admin_user_ids user_id
       | Raise _ => false
       end = bool_decide (user_id ∈ ids).
Proof.
  intros Hpre Hsp Hpost Hids v.
  assert (Hparse : parse_admin_user_ids json_branch (Some v) = Ok ids).
  { unfold parse_admin_user_ids. destruct ids as [|n ids].
    - subst v. cbn [map join]. rewrite app_nil_l.
      destruct (truthy (pre ++ post)); cbv beta iota delta [negb];
        [|reflexivity].
      rewrite strip_spaces by (rewrite forallb_app, Hpre, Hpost; reflexivity).
      reflexivity.
    - assert (Hfix : Forall (fun p => p <> [] /\ lstrip p = p /\ rstrip p = p)
                       (map str_of_Z (n :: ids))).
      { apply Forall_forall. intros p Hp.
        apply list_elem_of_In, in_map_iff in Hp.
        destruct Hp as (m & <- & _).
        destruct (str_of_Z_id_chars m) as [Hne Hchars].
        destruct (id_chars_fixed _ Hchars). auto. }
      destruct (join_fixed (cp_comma :: spaces) (map str_of_Z (n :: ids))
                  ltac:(discriminate) Hfix) as (Hne & Hl & Hr).
      assert (Hs : strip v = join (cp_comma :: spaces)
                               (map str_of_Z (n :: ids)))
        by (apply strip_padded; assumption).
      assert (Hv : truthy v = true).
      { destruct v as [|c r] eqn:Ev; [|reflexivity].
        subst v. apply app_eq_nil in Ev as [_ Ev].
        apply app_eq_nil in Ev as [Ev _]. congruence. }
      rewrite Hv, Hs. cbv beta iota delta [negb].
      assert (Hb : startswith [cp_lbracket]
                     (join (cp_comma :: spaces) (map str_of_Z (n :: ids)))
                   = false).
      { cbn [map]. rewrite join_cons.
        destruct (str_of_Z_id_chars n) as [Hn Hchars].
        destruct (str_of_Z n) as [|c r]; [congruence|].
        simpl in Hchars. apply andb_prop in Hchars as [Hc _].
        destruct (id_char_spec c Hc) as (_ & _ & Hc3).
        rewrite N.eqb_sym in Hc3.
        destruct (map str_of_Z ids); cbn [app]; rewrite startswith_one;
          exact Hc3. }
      rewrite Hb. cbv beta iota delta [andb].
      cbn [map].
      pose proof (split_join spaces (map str_of_Z ids)
                    (spaces_no_comma _ Hsp) [] (str_of_Z n) eq_refl) as Hsplit.
      rewrite !app_nil_l in Hsplit. rewrite Hsplit.
      + cbn [ints_of].
        destruct (str_of_Z_id_chars n) as [Hn Hchars].
        destruct (id_chars_fixed _ Hchars) as [Hln Hrn].
        assert (Hsn : strip (str_of_Z n) = str_of_Z n)
          by (unfold strip; rewrite Hln; exact Hrn).
        rewrite Hsn.
        inversion Hids as [|? ? Hn1 Hrest]; subst.
        assert (Hp : py_str_int n = Ok (str_of_Z n)).
        { unfold py_str_int in *. destruct (_ <? _)%nat; [discriminate|].
          reflexivity. }
        rewrite (py_str_int_truthy _ _ Hp), (py_int_str _ _ Hp).
        rewrite (ints_of_printed spaces ids Hsp Hrest). reflexivity.
      + apply Forall_forall. intros p Hp.
        change (p ∈ str_of_Z n :: map str_of_Z ids) in Hp.
        change (str_of_Z n :: map str_of_Z ids)
          with (map str_of_Z (n :: ids)) in Hp.
        apply list_elem_of_In, in_map_iff in Hp. destruct Hp as (m & <- & _).
        apply id_chars_no_comma, str_of_Z_id_chars. }
  split; [exact Hparse|].
  intros user_id. rewrite Hparse. reflexivity.
Qed.

(* ===================================================================== *)
(** * The properties of the services, of the conversation and of the
      configuration at sample inputs                                      *)
(* ===================================================================== *)

Lemma user_maps_stay_consistent_witness :
  consistent (us_data (UserService.init Missing))
  /\ consistent (us_data sample_user_service).
Proof.
  assert (H0 : consistent (us_data (UserService.init Missing))).
  { apply (proj2 (user_maps_stay_consistent (UserService.init Missing) 0
                    None Missing)).
    intros m H. discriminate H. }
  split; [exact H0|].
  exact (proj1 (proj1 (user_maps_stay_consistent (UserService.init Missing)
                         12345 (Some (py "testuser1")) Missing) H0)).
Defined.

Lemma update_user_then_lookup_witness :
  answered (py_str_int 12345) = true
  /\ truthy (py "testuser1") = true
  /\ snd (UserService.get_username 12345 sample_user_service)
     = Ok (Some (py "testuser1"))
  /\ snd (UserService.get_user_id (py "testuser1") sample_user_service)
     = Ok (Some 12345%Z).
Proof.
  assert (Ha : answered (py_str_int 12345) = true)
    by (vm_compute; reflexivity).
  assert (Hn : truthy (py "testuser1") = true) by (vm_compute; reflexivity).
  split; [exact Ha|]. split; [exact Hn|].
  pose proof (update_user_then_lookup (UserService.init Missing) 12345
                (py "testuser1") Ha Hn) as H.
  cbv zeta in H. destruct H as (H1 & H2 & _).
  split; [exact H1|exact H2].
Defined.

Lemma username_taken_by_a_second_user_witness :
  (12345 <> 67890)%Z
  /\ snd (UserService.get_username 12345
            (fst (UserService.update_user 67890 (Some (py "testuser1"))
                    sample_user_service)))
     = Ok (Some (py "testuser1"))
  /\ snd (UserService.get_user_id (py "testuser1")
            (fst (UserService.update_user 67890 (Some (py "testuser1"))
                    sample_user_service)))
     = Ok (Some 67890%Z).
Proof.
  assert (Hne : (12345 <> 67890)%Z) by lia.
  split; [exact Hne|].
  assert (H1 : answered (py_str_int 12345) = true)
    by (vm_compute; reflexivity).
  assert (H2 : answered (py_str_int 67890) = true)
    by (vm_compute; reflexivity).
  assert (Hn : truthy (py "testuser1") = true) by (vm_compute; reflexivity).
  pose proof (username_taken_by_a_second_user (UserService.init Missing)
                12345 67890 (py "testuser1") H1 H2 Hne Hn) as H.
  cbv zeta in H. destruct H as (Ha & _ & Hb).
  split; [exact Ha|exact Hb].
Defined.

Lemma mapping_service_is_a_written_map_witness :
  py "other" <> py "shop"
  /\ snd (SheetsMappingService.get_sheet_id (py "other")
            (fst (SheetsMappingService.add_or_update_mapping (py "shop")
                    (py "sheet-1") (SheetsMappingService.init Missing))))
     = snd (SheetsMappingService.get_sheet_id (py "other")
              (SheetsMappingService.init Missing))
  /\ SheetsMappingService.remove_mapping (py "shop")
       (SheetsMappingService.init Missing)
     = (SheetsMappingService.init Missing, Ok false).
Proof.
  assert (Hne : py "other" <> py "shop").
  { intros H. vm_compute in H. discriminate H. }
  split; [exact Hne|].
  pose proof (mapping_service_is_a_written_map
                (SheetsMappingService.init Missing) (py "shop")
                (py "sheet-1") (py "other")) as H.
  cbv zeta in H. destruct H as (_ & H2 & _ & _ & _ & _ & H7).
  split; [exact (H2 Hne)|].
  apply H7. apply lookup_empty.
Defined.

Lemma permission_check_blanks_the_first_cell_witness :
  probe_passes passing_probe = true
  /\ cell_a1 sheet_with_header <> []
  /\ cell_a1 (fst (check_sheet_write_permissions passing_probe
                     sheet_with_header)) = [].
Proof.
  assert (Hp : probe_passes passing_probe = true) by reflexivity.
  split; [exact Hp|]. split.
  { intros H. vm_compute in H. discriminate H. }
  pose proof (permission_check_blanks_the_first_cell passing_probe
                sheet_with_header) as H.
  cbv zeta in H. destruct H as (_ & H & _).
  exact (proj1 (H Hp)).
Defined.


Lemma selection_steps_on_unexpected_messages_witness :
  process_project_selection delivering (Some (py "unknown")) (new_chat ∅)
  = ({| chat_state := None;
        chat_session := no_session;
        chat_point_name := None;
        chat_mappings := {| ms_data := ∅; ms_written := [] |};
        chat_answers := 1 |}, Ok tt).
Proof.
  assert (Ha : answered (delivering (chat_answers (new_chat ∅))) = true)
    by reflexivity.
  assert (Hc : pystr_eqb (strip (py "unknown")) cancel_text = false)
    by (vm_compute; reflexivity).
  pose proof (selection_steps_on_unexpected_messages delivering (new_chat ∅)
                (py "unknown") Ha Hc) as H.
  cbv zeta in H. destruct H as (_ & _ & H & _).
  apply H. apply lookup_empty.
Defined.

Lemma projects_change_only_after_the_check_witness :
  let c := {| chat_state := Some waiting_for_sheet_id;
              chat_session := no_session;
              chat_point_name := Some (py "shop");
              chat_mappings := {| ms_data := ∅; ms_written := [] |};
              chat_answers := 2 |} in
  let c' := fst (admin_addpoint_router delivering [1%Z] 1
                   (Some (py "sheet-1")) true c) in
  ms_data (chat_mappings c') <> ms_data (chat_mappings c)
  /\ ms_data (chat_mappings c') !! py "shop" = Some (py "sheet-1").
Proof.
  intros c c'.
  assert (Hne : ms_data (chat_mappings c') <> ms_data (chat_mappings c)).
  { intros H. apply (f_equal (fun m => m !! py "shop")) in H.
    vm_compute in H. discriminate H. }
  split; [exact Hne|].
  pose proof (projects_change_only_after_the_check delivering [1%Z] 1
                (Some (py "sheet-1")) true c) as H.
  cbv zeta in H.
  destruct (proj2 H Hne) as (_ & _ & _ & point & t & Hp & _ & Ht & Hm).
  injection Hp as <-. injection Ht as <-.
  subst c'. rewrite Hm, lookup_insert_eq. vm_compute. reflexivity.
Defined.


Lemma fenced_response_is_unwrapped_witness :
  snd (analyze_document (fenced_answers sample_analysis) (Some MATERIALS) [])
  = Ok (Some sample_analysis).
Proof.
  pose proof (fenced_response_is_unwrapped (fenced_answers sample_analysis)
                MATERIALS [] fenced_body [cp_newline] [] eq_refl eq_refl)
    as H.
  cbv zeta in H. destruct H as (_ & _ & H & _).
  destruct (H eq_refl eq_refl) as [Hr _]. rewrite Hr.
  vm_compute. reflexivity.
Defined.

Lemma admin_ids_are_read_back_witness :
  parse_admin_user_ids (fun _ => Raise ValueError)
    (Some (py "12345, 67890" ++ [cp_newline]))
  = Ok [12345; 67890]%Z.
Proof.
  assert (Hids : Forall (fun n => answered (py_str_int n) = true)
                   [12345; 67890]%Z).
  { repeat constructor. }
  exact (proj1 (admin_ids_are_read_back (fun _ => Raise ValueError) []
                  [cp_space] [cp_newline] [12345; 67890]%Z eq_refl eq_refl
                  eq_refl Hids)).
Defined.
